(* ===== verification/_CoqProject ===== *)
-Q . S2P
Prelude.v
DateTime.v
Config.v
Json.v
JsonText.v
Store.v
Availability.v
Booking.v
Lifecycle.v
Queries.v
Auth.v
Server.v
Book.v
Http.v
Routing.v
Password.v
Cors.v
