(* ===== verification/Prelude.v ===== *)
(** * A verification development of the restaurant reservation backend

    The program is one Flask application, [src/backend/app.py]: a schema of
    four tables ([users], [dining_tables], [reservations] and the join table
    [reservation_tables]) declared through SQLAlchemy, and ten HTTP
    handlers that read and write them inside one database session per
    request.  This development models each handler as a Rocq function from
    the request and the database state to the response and the new state,
    the routing as a dispatcher over a request type, and a run of the
    server as the sequence of requests in the order their sessions commit.
    All definitions are executable; the witnesses run them by
    [reflexivity] or [vm_compute].

    ** Components and files (in dependency order)

    - [Prelude] (this file): the [result] error type with its bind
      notation in [rr_scope], the tactics [result_inv], [vm_decide] and
      [zlia], the hint database [rr], and the list lemmas the components
      share (lookups by a unique key, filters).
    - [DateTime], Module [Strptime]: [datetime.strptime] with the formats
      ['%Y-%m-%d'] and ['%H:%M'] (lines 101, 118, 119) and the [strftime]
      of [to_dict] (lines 55-56).  The parser is the regular expression
      CPython's [_strptime] builds for each directive, run by a
      backtracking matcher in the order of its alternatives, then the
      [unconverted data] check and the calendar check of [datetime.date].
    - [Config], Module [Config]: the database configuration (lines 14-23):
      the credentials, [quote_plus] of the password and the URI, the two
      [app.config] entries ([configure]) and the URL [SQLAlchemy(app)]
      reads from them ([engine_url]), read back by SQLAlchemy's URL parser
      ([parse_url], the regular expression of [_parse_url] run as
      [re.match] runs it, then [unquote]).
    - [Json], Module [Json]: JSON values, a decoded request object as a
      [gmap] from keys to values, Python truthiness, responses and
      werkzeug's error pages, and the induction principle through nested
      lists and objects.
    - [JsonText], Module [JsonText]: the text on the wire.  [loads] is
      [json.loads] as the C scanner of [_json.c] runs it (whitespace,
      strings with every escape in strict mode, integers, the literals,
      arrays, objects with [dict] semantics, the trailing-data check), a
      recursive descent bounded by fuel; [response_text] is [jsonify]:
      [json.dumps] with [sort_keys] and [ensure_ascii], indented by two
      when [app.run(debug=True)] (line 179, [app_debug]) is in force.
    - [Store], Module [Store]: the Entity Store.  The schema (lines 26-65)
      as records, the database as a record of tables in primary-key order
      with the auto-increment counters, the checks the schema declares
      (unique, foreign key, composite primary key, the [INT] range of the
      keys, the widths of the [String(n)] columns under MySQL's strict
      mode), and the session as a transaction monad [tx] whose
      [run_session] commits, or rolls back the rows but, as InnoDB does,
      not the counters.  [wf] is the store's invariant.
    - [Availability]: [get_table_status] (lines 96-106), the booked-ids
      subquery and the per-table rows; MySQL's conversion of the raw time
      string is the interface [SqlTimeCompare].
    - [Booking]: [create_reservation] (lines 108-132) as a guard, a reader
      of the fields and one unit of work [booking_tx];
      [list(set(...))] is the interface [SetList].
    - [Lifecycle]: [cancel_reservation], [update_reservation_status] and
      [delete_reservation] (lines 142-173), with the transition relation
      they implement ([code_transition]) beside the spec's
      ([spec_transition]).
    - [Queries]: [to_dict] (lines 52-58, 65), [get_my_reservations] and
      [get_all_reservations] (lines 135-154); [ORDER BY] is the interface
      [SqlOrderBy].
    - [Auth]: [register_client], [login_client], [login_admin]
      (lines 68-93); werkzeug's hashing is the interface [PasswordHasher].
    - [Server]: the route table (the [@app.route] lines) as [handle],
      runs as [serve] over a list of requests, and [reachable], the
      stores reachable from the empty schema with dining tables seeded
      from outside.
    - [Book]: the reservation book of the spec (sections 3 and 4) as an
      abstract state with the spec's operations as a step relation
      [book_step], and the abstraction [abs] from stores to books.
    - [Http]: the requests as they reach the views, with their content
      type and body text: [get_json] (Flask 2.3 and later: 415 for a
      content type that is not JSON, 400 for text that does not decode),
      what each view does with a decoded value that is not an object
      ([data.get] raises, [field in data] tests membership or substrings),
      and [handle_http], the route table over raw requests, which hands
      the decoded object to [Server.handle]'s views.
    - [Routing]: the ten [@app.route] decorators as werkzeug's URL map
      ([url_map]: the declared methods, [OPTIONS], and [HEAD] with
      [GET]), the matching of a path against it ([route]: static parts,
      the [<int:...>] converter, 405 and 404), [request.args]
      ([parse_qsl]), and [wsgi_app], the application object of line 10
      on a request as the WSGI server hands it over: routing, then
      [Http.handle_http].  On the client side, [url_for], [urlencode] and
      [encode_request] write a [Server.request] as a request on the wire.
    - [Password], Module [Password]: werkzeug.security as
      [User.set_password] and [User.check_password] (lines 38-39) call
      it: [gen_salt], [_hash_internal] ([scrypt] and [pbkdf2] with their
      parameters), the [method$salt$hash] format and [check_password_hash]
      with [hmac.compare_digest]; hashlib's key derivation functions are
      the class [Hashlib].  [werkzeug_hasher] is werkzeug's hashing as an
      instance of [Auth]'s interface [PasswordHasher].
    - [Cors], Module [Cors]: [CORS(app)] (line 11), flask-cors with its
      default options, as the [after_request] function it installs:
      [get_cors_headers] (the echoed [Origin] or [*], the preflight's
      allowed headers and methods, [Vary: Origin]) added by [cors_app]
      to every answer of [Routing.wsgi_app].

    Each interface is a class with the laws the handlers rely on; every
    lemma about a handler holds for every instance, and one executable
    instance of each ([parsed_time_compare], [sorted_set_list],
    [merge_order_by], [plain_hasher], [binary_collation]) runs the
    witnesses.  [SqlCollation] (in [Store]) is the database collation
    under which SQL compares strings: the username and email lookups and
    the unique keys; a case-insensitive instance, as MySQL's default,
    runs the login and duplicate-registration witnesses.  For hashing,
    [Password.werkzeug_hasher] is the instance modelled on werkzeug's
    code, given OpenSSL's key derivation functions ([Hashlib]).

    ** What the theorems show

    - Store: the unique key of [table_number] rejects a second table
      with a taken number (spec, section 8), and every statement keeps
      [wf] (the lemmas behind the server invariant).
    - Booking: a well-formed request creates one Pending reservation with
      exactly its distinct tables; a failed request leaves every row as it
      was; duplicates in [table_ids] give one row each; availability is not
      re-checked, so a held table can be booked again.
    - Availability: for a valid slot a table is reported booked exactly
      when a Pending or Accepted reservation of that slot holds it; the
      missing, malformed-date and unchecked-time branches.
    - Lifecycle: each handler on each branch, the cascade of deletion,
      cancelling and rejecting free the tables, the handlers realise
      exactly [code_transition], which lets a Rejected reservation be
      Accepted again.
    - Queries and Auth: the answers of the read handlers (rows, order,
      joined tables) and of registration and login (success, 400, 409,
      the register/login round trip, soundness of login), with names
      compared under the collation.
    - Server: every reachable store satisfies [wf] (rule induction on
      [reachable]); read-only requests are idempotent; the check-then-book
      race of two clients double-books a table; the end-to-end scenario
      of the spec (section 8) gets the answers it describes.
    - Book: refinement.  Every run of requests changes the book read off
      the store by a sequence of the spec's operations and leaves the
      dining tables alone (a forward simulation, proved request by
      request); [get_table_status] answers the spec's availability query
      on the book.
    - Server: every request of a run gets exactly one answer with a
      documented status code (liveness of the dispatcher).
    - Availability: the booked-ids subquery is equivalent to a reference
      that checks each table against the reservations.
    - Config: the URI of line 20 round-trips through SQLAlchemy's parser,
      the password coming back with each space turned into [+].
    - DateTime: the backtracking matcher is equivalent to the language of
      the pattern (relation [re_matches]); [strptime] of [strftime] gives a valid date or time back;
      out-of-range dates are rejected; parsed times are in range.
    - JsonText: [json.loads] terminates on every text (the fuel it is
      given is never exhausted and more fuel changes nothing), and the
      text [jsonify] writes, compact or indented, decodes back to the
      value with its keys sorted (a round trip proved on every prefix of
      a stream, for every value whose objects have distinct keys).
    - Http: the answer to every raw request decodes back to its payload;
      a body that is not a JSON object never changes the store and is
      answered 415, 400 or 500; an array of the six field names passes
      [create_reservation]'s field check and crashes with a 500.
    - Routing: refinement of the server model by the whole application:
      on every run of [Server.request]s that clients write with
      [encode_request], the WSGI loop [serve_wsgi] over [wsgi_app] gives
      the answers and the store of [Server.serve] ([wsgi_app_refines_handle],
      through the [url_for]/[route] round trip with no rule shadowed by
      another, the [urlencode]/[parse_qsl] round trip and the
      [json.dumps]/[get_json] round trip); a 405 lists only methods
      that are routed on the same path and never the refused one.
    - Password: [check_password_hash] accepts the hash
      [generate_password_hash] writes, for every salt and password (so
      [PasswordHasher]'s law, and with it every theorem of [Auth], holds
      for werkzeug's hashing); another password is accepted only on a
      collision of [scrypt]; and the hash is 162 characters long, within
      the [String(255)] column [password_hash].
    - Cors: every answer keeps the application's status, body and store,
      allows the request's origin (or [*]) and never allows credentials:
      any web origin may read any answer ([cors_app_any_origin]).

    ** Bounds

    Ids are [Z] kept below [int_max] = 2^31 - 1, MySQL's signed [INT]:
    an insert that would take a larger id fails, and [wf] bounds every
    counter by [int_max + 1].  One definition needs fuel: the JSON
    decoder, whose recursion goes through the text it has not yet read.
    Every call of [scan_once] or of its two loops spends one unit, and
    each consumes at least one character before the next call but one,
    so [2 * length + 1] units suffice ([loads_terminates]; the invariant
    is [2 * length < fuel] for a value and [2 * length + 1 < fuel] for a
    loop).  Everything else recurses structurally: the matcher on the
    pattern, [unquote] and the URL parser on the input, the encoder on
    the value, and the loops of the handlers ([for table_id in
    unique_table_ids], the list comprehensions) over finite lists.  The finite checks
    of the date and time round trips enumerate the 12 x 31 month-day
    pairs and the 24 x 60 hour-minute pairs.

    ** Not modelled

    The effect of [SQLALCHEMY_TRACK_MODIFICATIONS] is bookkeeping inside Flask-SQLAlchemy;
    of the start-up (line 179) only the [debug] flag is modelled, for the
    form of the JSON it selects.  Paths with an empty segment, which
    werkzeug redirects to the path with merged slashes, are outside the
    routing model ([route] answers [None]).  The key derivation
    functions [scrypt] and [PBKDF2] are OpenSSL's and stay primitives.  Non-ASCII text is outside the model of
    [quote_plus] and [unquote].  Of the HTTP layer the route table, the
    mimetype of the request (already reduced from its [Content-Type]
    header) and the body text are modelled, and the CORS headers of
    [Cors]; other headers, the
    HTML of werkzeug's error pages (abbreviated to their titles) and
    Flask versions before 2.3 (which answered a non-JSON content type
    differently) are not.  The JSON decoder reports what the model cannot
    represent as [OutOfModel] and [handle_http] then answers [None]:
    floats, [NaN] and [Infinity], and [\uXXXX] escapes above U+00FF
    (text is a sequence of code points up to U+00FF); the
    [RecursionError] of the C scanner on nesting deeper than Python's
    recursion limit is not modelled.  Exception messages are abbreviated.  MySQL's
    coercions of values of the wrong type are answered with 500 in the
    model instead of being followed.  Dining tables and users are never
    deleted by the application, so their deletion is not modelled.
 *)

From stdpp Require Export base list strings sorting gmap pretty.
From Stdlib Require Export ZArith Lia.

(** ** The result type *)

Inductive result (E A : Type) : Type :=
| Ok (a : A)
| Err (e : E).
Arguments Ok {E A} a.
Arguments Err {E A} e.

Definition result_bind {E A B} (m : result E A) (k : A -> result E B) : result E B :=
  match m with
  | Ok a => k a
  | Err e => Err e
  end.

Definition of_option {E A} (e : E) (o : option A) : result E A :=
  match o with
  | Some a => Ok a
  | None => Err e
  end.

Declare Scope rr_scope.
Delimit Scope rr_scope with rr.
Notation "x <- m ;; k" := (result_bind m (fun x => k))
  (at level 100, m at next level, right associativity) : rr_scope.
Notation "'assert!' b 'else' e ;; k" := (if b then k else Err e)
  (at level 100, b at next level, e at next level, right associativity) : rr_scope.

Lemma result_bind_Ok_inv {E A B} (m : result E A) (k : A -> result E B) b :
  result_bind m k = Ok b -> exists a, m = Ok a /\ k a = Ok b.
Proof. destruct m; simpl; [eauto | discriminate]. Qed.

Lemma result_bind_Err_inv {E A B} (m : result E A) (k : A -> result E B) e :
  result_bind m k = Err e -> m = Err e \/ exists a, m = Ok a /\ k a = Err e.
Proof. destruct m; simpl; [eauto | intros [= ->]; auto]. Qed.

Lemma of_option_Ok {E A} (e : E) (o : option A) a :
  of_option e o = Ok a <-> o = Some a.
Proof. destruct o; simpl; split; congruence. Qed.

(** ** Tactics *)

(** Decompose equations between results in the context. *)
Ltac result_inv :=
  repeat match goal with
  | H : result_bind _ _ = Ok _ |- _ =>
      let a := fresh "a" in let Ha := fresh "Hm" in
      apply result_bind_Ok_inv in H as (a & Ha & H)
  | H : of_option _ _ = Ok _ |- _ => apply of_option_Ok in H
  | H : Ok _ = Ok _ |- _ => injection H as H
  | H : Err _ = Err _ |- _ => injection H as H
  | H : Ok _ = Err _ |- _ => discriminate H
  | H : Err _ = Ok _ |- _ => discriminate H
  | H : Some _ = Some _ |- _ => injection H as H
  | H : None = Some _ |- _ => discriminate H
  | H : Some _ = None |- _ => discriminate H
  end; subst.

Create HintDb rr discriminated.

(** ** Lists *)

Section lists.
Context {A : Type}.
Implicit Types (l : list A) (P : A -> Prop).

Lemma NoDup_filter_map_fst {B} `{EqDecision B} (f : A -> B) (l : list A) P
    `{forall x, Decision (P x)} :
  NoDup (f <$> l) -> NoDup (f <$> filter P l).
Proof.
  induction l as [|x l IH]; simpl; [constructor|].
  intros Hnd%NoDup_cons. destruct Hnd as [Hx Hl].
  rewrite filter_cons. case_decide; simpl; [|auto].
  constructor; [|auto]. intros Hin. apply Hx.
  apply list_elem_of_fmap in Hin as (y & -> & Hy).
  apply list_elem_of_fmap. exists y. split; [done|].
  by apply list_elem_of_filter in Hy as [_ ?].
Qed.

Lemma Forall_filter_l (P Q : A -> Prop) `{forall x, Decision (Q x)} l :
  Forall P l -> Forall P (filter Q l).
Proof.
  rewrite !Forall_forall. intros HP x Hx. apply HP.
  by apply list_elem_of_filter in Hx as [_ ?].
Qed.

Lemma filter_none (P : A -> Prop) `{forall x, Decision (P x)} l :
  Forall (fun x => ~ P x) l -> filter P l = [].
Proof.
  induction 1 as [|x l Hx _ IH]; [done|]. by rewrite filter_cons_False.
Qed.

Lemma filter_all (P : A -> Prop) `{forall x, Decision (P x)} l :
  Forall P l -> filter P l = l.
Proof.
  induction 1 as [|x l Hx _ IH]; [done|]. by rewrite filter_cons_True, IH.
Qed.

(** [Model.query.get(k)] on rows whose key is unique: the first row with
    key [k] is the only one. *)
Lemma head_filter_key {K} `{EqDecision K} (key : A -> K) (l : list A) k x :
  NoDup (key <$> l) ->
  head (filter (fun y => key y = k) l) = Some x <-> x ∈ l /\ key x = k.
Proof.
  induction l as [|y l IH]; intros Hnd; simpl.
  - split; [discriminate|]. intros [Hx _]. by apply elem_of_nil in Hx.
  - apply NoDup_cons in Hnd as [Hy Hnd]. rewrite filter_cons, elem_of_cons.
    case_decide as Hk; simpl.
    + split; [intros [= <-]; auto|]. intros [[->|Hx] Hkx]; [done|].
      exfalso. apply Hy. rewrite Hk, <- Hkx. by apply list_elem_of_fmap_2.
    + rewrite IH by done. split; [tauto|]. intros [[->|Hx] Hkx]; [done|auto].
Qed.

(** ... and finds nothing exactly when no row has key [k]. *)
Lemma head_filter_key_None {K} `{EqDecision K} (key : A -> K) (l : list A) k :
  head (filter (fun y => key y = k) l) = None <-> k ∉ key <$> l.
Proof.
  induction l as [|y l IH]; simpl; [split; [intros _; apply not_elem_of_nil|done]|].
  rewrite filter_cons, not_elem_of_cons. case_decide; simpl; [naive_solver|].
  rewrite IH. naive_solver.
Qed.

(** Mapping after filtering is filtering after mapping, when the two
    maps agree on the elements kept. *)
Lemma fmap_filter_comm {B} (f g : A -> B) (P : A -> Prop) (Q : B -> Prop)
    `{forall x, Decision (P x)} `{forall y, Decision (Q y)} (l : list A) :
  (forall x, P x -> f x = g x) -> (forall x, P x <-> Q (g x)) ->
  f <$> filter P l = filter Q (g <$> l).
Proof.
  intros Hfg HPQ. induction l as [|x l IH]; [done|].
  rewrite fmap_cons, !filter_cons. case_decide as Hx; case_decide as Hx'; try naive_solver.
  rewrite fmap_cons, IH, Hfg by done. done.
Qed.

(** A lookup that returns rows carrying the key it was given maps
    distinct keys to distinct rows. *)
Lemma NoDup_omap_key {K} (key : A -> K) (f : K -> option A) (l : list K) :
  (forall k x, f k = Some x -> key x = k) -> NoDup l -> NoDup (omap f l).
Proof.
  intros Hf. induction 1 as [|k l Hk Hl IH]; simpl; [constructor|].
  destruct (f k) as [x|] eqn:Hx; [|done]. constructor; [|done].
  intros (k' & Hk' & Hx')%list_elem_of_omap. apply Hf in Hx, Hx'. congruence.
Qed.
Lemma elem_of_removelast (x : A) l : x ∈ removelast l -> x ∈ l.
Proof.
  induction l as [|y [|z l] IH]; cbn; [done|set_solver|].
  rewrite !elem_of_cons in *. intuition.
Qed.

Lemma omap_cons_eq {B} (f : A -> option B) x l :
  omap f (x :: l) = match f x with Some y => y :: omap f l | None => omap f l end.
Proof. reflexivity. Qed.

Lemma find_fmap {B} (f : B -> bool) (g : A -> B) l :
  List.find f (g <$> l) = g <$> List.find (fun x => f (g x)) l.
Proof. induction l as [|x l IH]; cbn; [done|]. by destruct (f (g x)). Qed.

(** Searching by a key that is unique in the list finds the element. *)
Lemma find_key_unique {K} `{EqDecision K} (key : A -> K) l x :
  NoDup (key <$> l) -> x ∈ l -> List.find (fun y => bool_decide (key y = key x)) l = Some x.
Proof.
  induction l as [|y l IH]; intros Hnd Hx; [by apply not_elem_of_nil in Hx|].
  cbn in Hnd |- *. apply NoDup_cons in Hnd as [Hy Hnd]. apply elem_of_cons in Hx as [->|Hx].
  - by rewrite bool_decide_true.
  - rewrite bool_decide_false; [by apply IH|]. intros Heq. apply Hy. rewrite Heq. by apply list_elem_of_fmap_2.
Qed.
End lists.

#[export] Hint Resolve NoDup_filter_map_fst Forall_filter_l : rr.

(** ** Finite checks on integer ranges *)

(** A property of every integer of a range follows from [Forall] over the
    range, which a decision procedure evaluates. *)
Lemma Forall_seqZ (P : Z -> Prop) (lo n : Z) :
  Forall P (seqZ lo n) -> forall z, (lo <= z < lo + n)%Z -> P z.
Proof. rewrite Forall_forall. intros H z Hz. apply H, elem_of_seqZ. lia. Qed.

(** Close a decidable goal by evaluating its decision procedure. *)
Ltac vm_decide :=
  match goal with |- ?P => apply (proj1 (bool_decide_eq_true P)) end;
  vm_compute; reflexivity.

#[export] Instance result_eq_dec {E A} `{EqDecision E, EqDecision A} :
  EqDecision (result E A).
Proof. solve_decision. Defined.

(** [lia] after turning [Z.div] and [Z.modulo] by constants into their
    Euclidean equations. *)
(** ** Characters *)

(** The rest of [l] after the character [c], when [l] starts with it. *)
Definition next_is (c : Ascii.ascii) (l : list Ascii.ascii) : option (list Ascii.ascii) :=
  match l with
  | x :: l' => if bool_decide (x = c) then Some l' else None
  | [] => None
  end.

Lemma next_is_cons c l : next_is c (c :: l) = Some l.
Proof. simpl. by rewrite bool_decide_true. Qed.

Lemma next_is_other c x l : x <> c -> next_is c (x :: l) = None.
Proof. intros Hx. simpl. by rewrite bool_decide_false. Qed.

Lemma list_ascii_of_string_app s1 s2 :
  String.list_ascii_of_string (String.append s1 s2) =
  String.list_ascii_of_string s1 ++ String.list_ascii_of_string s2.
Proof. induction s1 as [|c s1 IH]; simpl; [done|]. by rewrite IH. Qed.

(** Python's [s.split(c)] on a text. *)
Fixpoint split_on (c : Ascii.ascii) (s : list Ascii.ascii) : list (list Ascii.ascii) :=
  match s with
  | [] => [[]]
  | x :: s' =>
      if bool_decide (x = c) then [] :: split_on c s'
      else match split_on c s' with
           | seg :: segs => (x :: seg) :: segs
           | [] => [[x]]
           end
  end.

Lemma split_on_nodelim c s : c ∉ s -> split_on c s = [s].
Proof.
  induction s as [|x s IH]; intros Hs; [done|]. apply not_elem_of_cons in Hs as [Hx Hs].
  cbn. rewrite bool_decide_false by congruence. by rewrite IH.
Qed.

Lemma split_on_app c s t : c ∉ s -> split_on c (s ++ c :: t) = s :: split_on c t.
Proof.
  induction s as [|x s IH]; intros Hs; cbn [app split_on].
  - by rewrite bool_decide_true.
  - apply not_elem_of_cons in Hs as [Hx Hs]. rewrite bool_decide_false by congruence. by rewrite IH.
Qed.

Ltac zlia := Z.to_euclidean_division_equations; lia.

Lemma NoDup_snoc {A} (l : list A) x : NoDup l -> x ∉ l -> NoDup (l ++ [x]).
Proof.
  intros Hl Hx. apply NoDup_app. split; [done|]. split; [|apply NoDup_singleton].
  intros y Hy ->%list_elem_of_singleton. done.
Qed.

#[export] Hint Resolve NoDup_snoc : rr.
