(* ===== verification/DateTime.v ===== *)
(** [DateTime]: the [datetime.strptime] calls of [app.py] with the formats
    ['%Y-%m-%d'] and ['%H:%M'] (lines 101, 118, 119), and the [strftime]
    calls of [Reservation.to_dict] (lines 55-56).

    CPython's [_strptime] compiles each directive to a regular expression
    ([TimeRE]: [%Y] is [\d\d\d\d], [%m] is [1[0-2]|0[1-9]|[1-9]], [%d] is
    [3[01]|[12]\d|0[1-9]|[1-9]| [1-9]], [%H] is [2[0-3]|[0-1]\d|\d], [%M]
    is [[0-5]\d|\d]), calls [re.match], raises [ValueError] when nothing
    matches or when characters remain after the match ("unconverted data
    remains"), converts the groups with [int] and builds a [datetime.date],
    whose constructor rejects year 0 and days past the end of the month.
    [regex_match] below is the backtracking search of [re.match] over such
    a pattern: the alternatives of a group are tried in order and the first
    one with which the rest of the pattern matches is kept.  Only ASCII
    input is modelled ([\d] also matches other Unicode digits in Python). *)

From S2P Require Import Prelude.
From Stdlib Require Import Ascii String.

Module Strptime.
Local Open Scope Z_scope.
Local Open Scope list_scope.

Record date := mk_date { year : Z; month : Z; day : Z }.
Record time_of_day := mk_time { hour : Z; minute : Z }.

#[export] Instance date_eq_dec : EqDecision date.
Proof. solve_decision. Defined.
#[export] Instance time_eq_dec : EqDecision time_of_day.
Proof. solve_decision. Defined.

(** ** The compiled regular expressions *)

Inductive cclass :=
| CDigit                    (** [\d] *)
| CRange (lo hi : ascii)    (** [[lo-hi]] *)
| CChar (c : ascii).        (** one literal character *)

Definition is_digit (c : ascii) : bool :=
  (48 <=? N_of_ascii c)%N && (N_of_ascii c <=? 57)%N.

Definition class_matches (k : cclass) (c : ascii) : bool :=
  match k with
  | CDigit => is_digit c
  | CRange lo hi => (N_of_ascii lo <=? N_of_ascii c)%N && (N_of_ascii c <=? N_of_ascii hi)%N
  | CChar c' => bool_decide (c = c')
  end.

(** One alternative of a group: a sequence of classes. *)
Definition alternative := list cclass.

Inductive atom :=
| ALit (c : ascii)                  (** a literal separator of the format *)
| AGroup (alts : list alternative). (** [(?P<x>a1|a2|...)] *)

Fixpoint match_alternative (a : alternative) (s : list ascii)
    : option (list ascii * list ascii) :=
  match a with
  | [] => Some ([], s)
  | k :: a' =>
      match s with
      | c :: s' =>
          if class_matches k c then
            match match_alternative a' s' with
            | Some (cap, r) => Some (c :: cap, r)
            | None => None
            end
          else None
      | [] => None
      end
  end.

Fixpoint first_some {A B} (f : A -> option B) (l : list A) : option B :=
  match l with
  | [] => None
  | x :: l' => match f x with Some y => Some y | None => first_some f l' end
  end.

(** [re.match]: the groups captured and the unmatched rest of the input. *)
Fixpoint regex_match (p : list atom) (s : list ascii)
    : option (list (list ascii) * list ascii) :=
  match p with
  | [] => Some ([], s)
  | ALit c :: p' =>
      match s with
      | c' :: s' => if bool_decide (c = c') then regex_match p' s' else None
      | [] => None
      end
  | AGroup alts :: p' =>
      first_some (fun a =>
        match match_alternative a s with
        | Some (cap, r) =>
            match regex_match p' r with
            | Some (caps, r') => Some (cap :: caps, r')
            | None => None
            end
        | None => None
        end) alts
  end.

Definition re_Y : atom := AGroup [[CDigit; CDigit; CDigit; CDigit]].
Definition re_m : atom :=
  AGroup [[CChar "1"; CRange "0" "2"]; [CChar "0"; CRange "1" "9"]; [CRange "1" "9"]].
Definition re_d : atom :=
  AGroup [[CChar "3"; CRange "0" "1"]; [CRange "1" "2"; CDigit];
          [CChar "0"; CRange "1" "9"]; [CRange "1" "9"]; [CChar " "; CRange "1" "9"]].
Definition re_H : atom := AGroup [[CChar "2"; CRange "0" "3"]; [CRange "0" "1"; CDigit]; [CDigit]].
Definition re_M : atom := AGroup [[CRange "0" "5"; CDigit]; [CDigit]].

(** ['%Y-%m-%d'] and ['%H:%M'] *)
Definition date_format_re : list atom := [re_Y; ALit "-"; re_m; ALit "-"; re_d].
Definition time_format_re : list atom := [re_H; ALit ":"; re_M].

(** ** Conversion and validation *)

Definition digit_value (c : ascii) : Z := Z.of_N (N_of_ascii c) - 48.

(** [int(s)] on a captured group: digits, possibly after a space. *)
Definition py_int (cs : list ascii) : Z :=
  fold_left (fun acc c => if is_digit c then acc * 10 + digit_value c else acc) cs 0.

Inductive strptime_error :=
| DoesNotMatch        (** "time data ... does not match format ..." *)
| UnconvertedData     (** "unconverted data remains: ..." *)
| OutOfRange.         (** raised by the [datetime.date] constructor *)

#[export] Instance strptime_error_eq_dec : EqDecision strptime_error.
Proof. solve_decision. Defined.

Definition strptime_groups (p : list atom) (s : string)
    : result strptime_error (list Z) :=
  match regex_match p (list_ascii_of_string s) with
  | None => Err DoesNotMatch
  | Some (caps, []) => Ok (py_int <$> caps)
  | Some (_, _ :: _) => Err UnconvertedData
  end.

(** [calendar.isleap] and [_days_in_month] of the [datetime] module. *)
Definition is_leap (y : Z) : bool :=
  (y mod 4 =? 0) && (negb (y mod 100 =? 0) || (y mod 400 =? 0)).

Definition days_in_month (y m : Z) : Z :=
  if m =? 2 then (if is_leap y then 29 else 28)
  else if (m =? 4) || (m =? 6) || (m =? 9) || (m =? 11) then 30
  else 31.

(** The checks of [datetime.date(year, month, day)] ([MINYEAR] is 1,
    [MAXYEAR] is 9999). *)
Definition valid_ymd (y m d : Z) : bool :=
  (1 <=? y) && (y <=? 9999) && (1 <=? m) && (m <=? 12)
  && (1 <=? d) && (d <=? days_in_month y m).

Definition valid_date (d : date) : bool := valid_ymd (year d) (month d) (day d).

(** [datetime.strptime(s, '%Y-%m-%d').date()] *)
Definition parse_date (s : string) : result strptime_error date :=
  match strptime_groups date_format_re s with
  | Ok [y; m; d] => if valid_ymd y m d then Ok (mk_date y m d) else Err OutOfRange
  | Ok _ => Err DoesNotMatch
  | Err e => Err e
  end.

(** [datetime.strptime(s, '%H:%M').time()]; the date part defaults to
    1900-01-01, which the constructor accepts, and the range check of the
    hour and minute never fails after this pattern ([parse_time_bounds]). *)
Definition parse_time (s : string) : result strptime_error time_of_day :=
  match strptime_groups time_format_re s with
  | Ok [h; m] => Ok (mk_time h m)
  | Ok _ => Err DoesNotMatch
  | Err e => Err e
  end.

(** ** Formatting: [strftime('%Y-%m-%d')] and [strftime('%H:%M')] *)

Definition ascii_of_digit (z : Z) : ascii := ascii_of_N (Z.to_N (z + 48)).

(** The [w] low decimal digits of [z], most significant first. *)
Fixpoint pad_digits (w : nat) (z : Z) : list ascii :=
  match w with
  | O => []
  | S w' => pad_digits w' (z / 10) ++ [ascii_of_digit (z mod 10)]
  end.

Definition format_date (d : date) : string :=
  string_of_list_ascii
    (pad_digits 4 (year d) ++ ["-"%char] ++ pad_digits 2 (month d)
       ++ ["-"%char] ++ pad_digits 2 (day d)).

Definition format_time (t : time_of_day) : string :=
  string_of_list_ascii (pad_digits 2 (hour t) ++ [":"%char] ++ pad_digits 2 (minute t)).


(** ** The languages of the groups

    The strings a group can capture, enumerated: a proof device for the
    bounds that the patterns alone guarantee. *)

Definition all_ascii : list ascii := ascii_of_nat <$> seq 0 256.
Definition class_chars (k : cclass) : list ascii :=
  filter (fun c => class_matches k c = true) all_ascii.
Fixpoint alt_words (a : alternative) : list (list ascii) :=
  match a with
  | [] => [[]]
  | k :: a' => flat_map (fun c => cons c <$> alt_words a') (class_chars k)
  end.
Definition group_words (alts : list alternative) : list (list ascii) :=
  flat_map alt_words alts.


Lemma elem_of_all_ascii c : c ∈ all_ascii.
Proof.
  apply list_elem_of_fmap. exists (nat_of_ascii c).
  rewrite ascii_nat_embedding. split; [done|].
  apply list_elem_of_In, in_seq. pose proof (nat_ascii_bounded c). lia.
Qed.

Lemma match_alternative_Some a s cap r :
  match_alternative a s = Some (cap, r) -> s = cap ++ r /\ cap ∈ alt_words a.
Proof.
  revert s cap r. induction a as [|k a IH]; intros s cap r H; simpl in H.
  - injection H as <- <-. split; [done|]. by left.
  - destruct s as [|c s]; [discriminate|].
    destruct (class_matches k c) eqn:Hk; [|discriminate].
    destruct (match_alternative a s) as [[cap' r']|] eqn:Ha; [|discriminate].
    injection H as <- <-. apply IH in Ha as [-> Hw]. split; [done|].
    simpl. apply list_elem_of_In, in_flat_map. exists c. split.
    + apply list_elem_of_In, list_elem_of_filter. split; [done|]. apply elem_of_all_ascii.
    + apply list_elem_of_In, list_elem_of_fmap. eauto.
Qed.

Lemma first_some_Some {A B} (f : A -> option B) l y :
  first_some f l = Some y -> exists x, x ∈ l /\ f x = Some y.
Proof.
  induction l as [|x l IH]; simpl; [discriminate|].
  destruct (f x) eqn:Hx; [intros [= <-]; exists x; split; [left|done]|].
  intros (x' & ? & ?)%IH. exists x'. split; [by right|done].
Qed.

(** A group captures one word of its language and the rest of the pattern
    matches what follows it. *)
Lemma regex_match_group alts p s caps r :
  regex_match (AGroup alts :: p) s = Some (caps, r) ->
  exists cap caps' s', caps = cap :: caps' /\ cap ∈ group_words alts /\
    s = cap ++ s' /\ regex_match p s' = Some (caps', r).
Proof.
  simpl. intros (a & Ha & H)%first_some_Some.
  destruct (match_alternative a s) as [[cap s']|] eqn:Hm; [|discriminate].
  destruct (regex_match p s') as [[caps' r']|] eqn:Hp; [|discriminate].
  injection H as <- <-. apply match_alternative_Some in Hm as [-> Hw].
  exists cap, caps', s'. repeat split; [| done].
  apply list_elem_of_In, in_flat_map. exists a. split; by apply list_elem_of_In.
Qed.

Lemma regex_match_lit c p s caps r :
  regex_match (ALit c :: p) s = Some (caps, r) ->
  exists s', s = c :: s' /\ regex_match p s' = Some (caps, r).
Proof.
  simpl. destruct s as [|c' s]; [discriminate|].
  case_bool_decide; [subst; eauto | discriminate].
Qed.


(** ** Digits *)





Lemma ascii_of_digit_range :
  Forall (fun z => is_digit (ascii_of_digit z) = true /\ digit_value (ascii_of_digit z) = z)
    (seqZ 0 10).
Proof. vm_decide. Qed.

Lemma py_int_snoc (l : list ascii) (c : ascii) :
  is_digit c = true -> py_int (l ++ [c]) = py_int l * 10 + digit_value c.
Proof. intros Hc. unfold py_int. rewrite fold_left_app. simpl. by rewrite Hc. Qed.

(** [pad_digits w z] spells [z] when it has at most [w] digits. *)
Lemma pad_digits_spec w z :
  0 <= z < 10 ^ Z.of_nat w ->
  Forall (fun c => is_digit c = true) (pad_digits w z) /\ py_int (pad_digits w z) = z.
Proof.
  revert z. induction w as [|w IH]; intros z Hz; simpl.
  - split; [constructor|]. simpl in Hz. unfold py_int; simpl. lia.
  - rewrite Nat2Z.inj_succ, Z.pow_succ_r in Hz by lia.
    destruct (IH (z / 10)) as [Hd Hv]; [split; [apply Z.div_pos|apply Z.div_lt_upper_bound]; lia|].
    destruct (Forall_seqZ _ _ _ ascii_of_digit_range (z mod 10) ltac:(zlia)) as [Hc Hcv].
    split; [apply Forall_app; split; [done|by constructor]|].
    rewrite py_int_snoc by done. rewrite Hv, Hcv. zlia.
Qed.

(** The year group captures exactly four digits. *)
Lemma regex_match_year (p : list atom) (ys r : list ascii) :
  List.length ys = 4%nat -> Forall (fun c => is_digit c = true) ys ->
  regex_match (re_Y :: p) (ys ++ r) =
    match regex_match p r with
    | Some (caps, r') => Some (ys :: caps, r')
    | None => None
    end.
Proof.
  intros Hl Hd. destruct ys as [|a [|b [|c [|d [|]]]]]; try discriminate.
  apply Forall_cons in Hd as [Ha Hd]. apply Forall_cons in Hd as [Hb Hd].
  apply Forall_cons in Hd as [Hc Hd]. apply Forall_cons in Hd as [Hd' _].
  simpl. rewrite Ha, Hb, Hc, Hd'. by destruct (regex_match p r) as [[]|].
Qed.

Lemma date_tail_range :
  Forall (fun m => Forall (fun d =>
    regex_match [ALit "-"; re_m; ALit "-"; re_d]
      (["-"%char] ++ pad_digits 2 m ++ ["-"%char] ++ pad_digits 2 d)
      = Some ([pad_digits 2 m; pad_digits 2 d], [])
    /\ py_int (pad_digits 2 m) = m /\ py_int (pad_digits 2 d) = d)
    (seqZ 1 31)) (seqZ 1 12).
Proof. vm_decide. Qed.

Lemma days_in_month_range y m : 28 <= days_in_month y m <= 31.
Proof.
  unfold days_in_month.
  destruct (m =? 2), (is_leap y), ((m =? 4) || (m =? 6) || (m =? 9) || (m =? 11)); lia.
Qed.

(** The pattern of ['%Y-%m-%d'] reads back the three fields of any
    formatted date whose fields are in the ranges of the pattern. *)
Lemma strptime_groups_format_date y m d :
  0 <= y <= 9999 -> 1 <= m <= 12 -> 1 <= d <= 31 ->
  strptime_groups date_format_re (format_date (mk_date y m d)) = Ok [y; m; d].
Proof.
  intros Hy Hm Hd. unfold strptime_groups, format_date. cbn [year month day].
  rewrite list_ascii_of_string_of_list_ascii.
  destruct (pad_digits_spec 4 y) as [Hyd Hyv]; [simpl; lia|].
  unfold date_format_re. rewrite regex_match_year by done.
  destruct (Forall_seqZ _ _ _ (Forall_seqZ _ _ _ date_tail_range m ltac:(lia)) d ltac:(lia))
    as (-> & Hmv & Hdv).
  cbn -[py_int pad_digits]. by rewrite Hyv, Hmv, Hdv.
Qed.

Lemma valid_ymd_spec y m d :
  valid_ymd y m d = true <-> 1 <= y <= 9999 /\ 1 <= m <= 12 /\ 1 <= d <= days_in_month y m.
Proof. unfold valid_ymd. rewrite !andb_true_iff, !Z.leb_le. tauto. Qed.

Lemma parse_format_date_fields y m d :
  0 <= y <= 9999 -> 1 <= m <= 12 -> 1 <= d <= 31 ->
  parse_date (format_date (mk_date y m d)) =
    if valid_ymd y m d then Ok (mk_date y m d) else Err OutOfRange.
Proof. intros. unfold parse_date. by rewrite strptime_groups_format_date. Qed.

Lemma parse_format_time_range :
  Forall (fun h => Forall (fun m =>
    parse_time (format_time (mk_time h m)) = Ok (mk_time h m)) (seqZ 0 60)) (seqZ 0 24).
Proof. vm_decide. Qed.

(** ** Properties *)


(** [strptime(strftime(d, '%Y-%m-%d'), '%Y-%m-%d')] gives back every
    valid calendar date: the date a reservation is stored with is read
    back unchanged by [to_dict] followed by a new query. *)
Lemma parse_format_date d :
  valid_date d = true -> parse_date (format_date d) = Ok d.
Proof.
  destruct d as [y m d]. unfold valid_date; simpl. intros Hv.
  pose proof Hv as Hv'. apply valid_ymd_spec in Hv' as (? & ? & ?).
  pose proof (days_in_month_range y m).
  rewrite parse_format_date_fields by lia. by rewrite Hv.
Qed.


(** A date whose fields fit the pattern but not the calendar (the 29th
    of February of a common year, the 31st of a 30-day month, year 0) is
    rejected with the [ValueError] of the [datetime.date] constructor. *)
Lemma parse_date_out_of_range y m d :
  0 <= y <= 9999 -> 1 <= m <= 12 -> 1 <= d <= 31 ->
  (y = 0 \/ days_in_month y m < d) ->
  parse_date (format_date (mk_date y m d)) = Err OutOfRange.
Proof.
  intros Hy Hm Hd Hbad. rewrite parse_format_date_fields by done.
  destruct (valid_ymd y m d) eqn:Hv; [|done].
  apply valid_ymd_spec in Hv. lia.
Qed.

(** C39: every string accepted as a date denotes a valid calendar date, and
    its [strftime] spelling is accepted as the same date: the accepted
    non-canonical spellings (["2025-6-1"], ["2025-06- 1"]) normalise. *)
Theorem parse_date_normalizes s d :
  parse_date s = Ok d -> valid_date d = true /\ parse_date (format_date d) = Ok d.
Proof.
  unfold parse_date. destruct (strptime_groups date_format_re s) as [[|y [|m [|dd []]]]|];
    try discriminate.
  destruct (valid_ymd y m dd) eqn:Hv; [|discriminate]. intros [= <-].
  split; [done|]. by apply parse_format_date.
Qed.

(** [strptime(strftime(t, '%H:%M'), '%H:%M')] gives back every time of
    day. *)
Lemma parse_format_time t :
  0 <= hour t <= 23 -> 0 <= minute t <= 59 -> parse_time (format_time t) = Ok t.
Proof.
  destruct t as [h m]; simpl. intros Hh Hm.
  exact (Forall_seqZ _ _ _ (Forall_seqZ _ _ _ parse_format_time_range h ltac:(lia))
           m ltac:(lia)).
Qed.

(** The pattern of ['%H:%M'] alone bounds the hour and the minute, so
    the range check of the [datetime] constructor never fails. *)
Lemma parse_time_bounds s t :
  parse_time s = Ok t -> 0 <= hour t <= 23 /\ 0 <= minute t <= 59.
Proof.
  unfold parse_time, strptime_groups.
  destruct (regex_match time_format_re (list_ascii_of_string s)) as [[caps [|]]|] eqn:E;
    try discriminate.
  apply regex_match_group in E as (wh & caps1 & s1 & -> & Hh & _ & E).
  apply regex_match_lit in E as (s2 & _ & E).
  apply regex_match_group in E as (wm & caps2 & s3 & -> & Hm & _ & E).
  injection E as <- _. intros [= <-]. simpl.
  split; [revert wh Hh | revert wm Hm]; apply Forall_forall; vm_decide.
Qed.

(** ** Witnesses *)

Lemma parse_format_date_witness :
  valid_date (mk_date 2024 2 29) = true /\
  parse_date (format_date (mk_date 2024 2 29)) = Ok (mk_date 2024 2 29).
Proof. split; [reflexivity | apply parse_format_date; reflexivity]. Defined.

Lemma parse_date_out_of_range_witness :
  parse_date (format_date (mk_date 2025 2 29)) = Err OutOfRange.
Proof. apply parse_date_out_of_range; vm_compute; try split; try discriminate; auto. Defined.

Lemma parse_date_normalizes_witness :
  parse_date "2025-6-1" = Ok (mk_date 2025 6 1) /\
  valid_date (mk_date 2025 6 1) = true /\
  parse_date (format_date (mk_date 2025 6 1)) = Ok (mk_date 2025 6 1).
Proof. split; [reflexivity | apply (parse_date_normalizes "2025-6-1"); reflexivity]. Defined.

Lemma parse_format_time_witness :
  format_time (mk_time 9 5) = "09:05" /\ parse_time "09:05" = Ok (mk_time 9 5).
Proof. split; [reflexivity | apply (parse_format_time (mk_time 9 5)); simpl; lia]. Defined.

Lemma parse_time_bounds_witness :
  parse_time "9:5" = Ok (mk_time 9 5) /\ 0 <= 9 <= 23 /\ 0 <= 5 <= 59.
Proof.
  split; [reflexivity|].
  exact (parse_time_bounds "9:5" (mk_time 9 5) eq_refl).
Defined.

End Strptime.
