(* ===== verification/Config.v ===== *)
(** [Config]: the database configuration of [app.py] (lines 14-23): the
    credentials, [quote_plus(db_pass_raw)] and the SQLAlchemy URI built
    from them, the two keys written into [app.config], and the engine URL
    [SQLAlchemy(app)] reads back with SQLAlchemy's URL parser.

    [quote_plus] is CPython's [urllib.parse.quote_plus] with its default
    [safe=''] ([_ALWAYS_SAFE] letters, digits and [_.-~] kept, a space
    written [+], every other byte of the UTF-8 encoding written [%XX] in
    upper-case hex; a character above 127 is one code point of Latin-1,
    two bytes in UTF-8).  [unquote] is [urllib.parse.unquote]: a [%]
    followed by two hex digits is decoded, any other [%] kept; the model
    gives the decoded byte back as the character of that code, which is
    what Python's UTF-8 decoding gives for bytes below 128 (the only ones
    the round trip meets).  [parse_url] is the regular expression of
    SQLAlchemy's [_parse_url] (versions 1.4 and 2.x), run the way
    [re.match] runs it: the greedy choices it makes, with the backtracking
    of the credentials group written out, followed by [unquote] of the
    username and the password.  A [+] is not decoded to a space. *)

From S2P Require Import Prelude DateTime.
From Stdlib Require Import Ascii String.

Module Config.
Local Open Scope char_scope.
Local Open Scope list_scope.

(** ** Lines 14-18 and 20 *)

Definition db_user : string := "root".
Definition db_pass_raw : string := "srihari@05".
Definition db_host : string := "localhost".
Definition db_name : string := "restaurant_db".

(** ** [quote_plus] *)

Definition is_alnum (c : ascii) : bool :=
  let n := N_of_ascii c in
  ((48 <=? n) && (n <=? 57) || (65 <=? n) && (n <=? 90) || (97 <=? n) && (n <=? 122))%N.

Definition always_safe (c : ascii) : bool :=
  is_alnum c || bool_decide (c ∈ ["_"; "."; "-"; "~"]).

Definition hex_digit (n : N) : ascii :=
  if (n <? 10)%N then ascii_of_N (48 + n) else ascii_of_N (55 + n).

(** ['%{:02X}'.format(b)] *)
Definition percent_byte (b : N) : list ascii :=
  ["%"; hex_digit (b / 16); hex_digit (b mod 16)]%N.

(** The UTF-8 bytes of one character, each as [%XX]. *)
Definition percent_char (c : ascii) : list ascii :=
  let n := N_of_ascii c in
  if (n <? 128)%N then percent_byte n
  else percent_byte (192 + n / 64) ++ percent_byte (128 + n mod 64).

Definition quote_char (c : ascii) : list ascii :=
  if always_safe c then [c] else if bool_decide (c = " ") then ["+"] else percent_char c.

Fixpoint quote_plus_chars (s : list ascii) : list ascii :=
  match s with
  | [] => []
  | c :: s' => quote_char c ++ quote_plus_chars s'
  end.

Definition quote_plus (s : string) : string :=
  string_of_list_ascii (quote_plus_chars (list_ascii_of_string s)).

(** ** [unquote] *)

Definition hex_value (c : ascii) : option N :=
  let n := N_of_ascii c in
  if ((48 <=? n) && (n <=? 57))%N then Some (n - 48)%N
  else if ((65 <=? n) && (n <=? 70))%N then Some (n - 55)%N
  else if ((97 <=? n) && (n <=? 102))%N then Some (n - 87)%N
  else None.

Fixpoint unquote_chars (s : list ascii) : list ascii :=
  match s with
  | [] => []
  | c :: rest =>
      if bool_decide (c = "%") then
        match rest with
        | h1 :: h2 :: s' =>
            match hex_value h1, hex_value h2 with
            | Some a, Some b => ascii_of_N (16 * a + b) :: unquote_chars s'
            | _, _ => c :: unquote_chars rest
            end
        | _ => c :: unquote_chars rest
        end
      else c :: unquote_chars rest
  end.

Definition unquote (s : string) : string :=
  string_of_list_ascii (unquote_chars (list_ascii_of_string s)).

(** ** Line 20: the URI *)

Definition database_uri (user pass host name : string) : string :=
  ("mysql+pymysql://" ++ user ++ ":" ++ pass ++ "@" ++ host ++ "/" ++ name)%string.

Definition app_database_uri : string := database_uri db_user (quote_plus db_pass_raw) db_host db_name.

(** ** SQLAlchemy's [_parse_url] *)

Record url := mk_url {
  drivername : string; username : option string; password : option string;
  host : option string; port : option string; database : option string; query : option string }.

(** [span p l]: the longest prefix of [l] whose characters satisfy [p]. *)
Fixpoint span (p : ascii -> bool) (l : list ascii) : list ascii * list ascii :=
  match l with
  | c :: l' => if p c then let '(a, b) := span p l' in (c :: a, b) else ([], l)
  | [] => ([], [])
  end.

(** The split of [l] at its last occurrence of [c]. *)
Definition split_last (c : ascii) (l : list ascii) : option (list ascii * list ascii) :=
  let '(a, b) := span (fun x => negb (bool_decide (x = c))) (reverse l) in
  match b with
  | _ :: b' => Some (reverse b', reverse a)
  | [] => None
  end.

Definition not_in (cs : list ascii) (c : ascii) : bool := negb (bool_decide (c ∈ cs)).

Definition is_word_plus (c : ascii) : bool := is_alnum c || bool_decide (c = "_") || bool_decide (c = "+").

(** The group [(?:(?P<username>[^:/]* )(?::(?P<password>[^@]* ))?@)?]
    (written here with a space before each closing parenthesis): the longest
    username followed by [:password@], else the longest one followed by
    [@] (a username ends at its last [@]), else no credentials. *)
Definition parse_credentials (l : list ascii)
    : option (list ascii * option (list ascii)) * list ascii :=
  let '(u, rest) := span (not_in [":"; "/"]) l in
  let without_password :=
    match split_last "@" u with
    | Some (u1, u2) => (Some (u1, None), u2 ++ rest)
    | None => (None, l)
    end in
  match next_is ":" rest with
  | Some rest' =>
      let '(p, rest'') := span (not_in ["@"]) rest' in
      match next_is "@" rest'' with
      | Some after => (Some (u, Some p), after)
      | None => without_password
      end
  | None => without_password
  end.

(** [(?:\[(?P<ipv6host>[^/\?]+)\]|(?P<ipv4host>[^/:\?]+))?] *)
Definition parse_host (l : list ascii) : option (list ascii) * list ascii :=
  let ipv4 :=
    match span (not_in ["/"; ":"; "?"]) l with
    | ([], _) => (None, l)
    | (h, rest) => (Some h, rest)
    end in
  match next_is "[" l with
  | Some l' =>
      let '(h, rest) := span (not_in ["/"; "?"]) l' in
      match split_last "]" h with
      | Some (h6, after) => if bool_decide (h6 = []) then ipv4 else (Some h6, after ++ rest)
      | None => ipv4
      end
  | None => ipv4
  end.

(** [(?::(?P<port>[^/\?]* ))?(?:/(?P<database>[^\?]* ))?(?:\?(?P<query>.* ))?] *)
Definition parse_after_host (l : list ascii)
    : option (list ascii) * option (list ascii) * option (list ascii) :=
  let '(port, l1) :=
    match next_is ":" l with
    | Some l' => let '(p, r) := span (not_in ["/"; "?"]) l' in (Some p, r)
    | None => (None, l)
    end in
  let '(db, l2) :=
    match next_is "/" l1 with
    | Some l' => let '(n, r) := span (not_in ["?"]) l' in (Some n, r)
    | None => (None, l1)
    end in
  (port, db, next_is "?" l2).

Definition to_string (l : list ascii) : string := string_of_list_ascii l.

(** [(?P<name>[\w\+]+)://] and the groups after it, then [unquote] of the
    username and the password. *)
Definition parse_url (s : string) : option url :=
  let '(name, l) := span is_word_plus (list_ascii_of_string s) in
  match (next_is ":" l ≫= next_is "/") ≫= next_is "/" with
  | Some rest =>
      if bool_decide (name = []) then None else
      let '(creds, l1) := parse_credentials rest in
      let '(h, l2) := parse_host l1 in
      let '(port, db, q) := parse_after_host l2 in
      Some (mk_url (to_string name)
              (option_map (fun c => unquote (to_string c.1)) creds)
              (option_map (fun p => unquote (to_string p)) (creds ≫= snd))
              (option_map to_string h) (option_map to_string port)
              (option_map to_string db) (option_map to_string q))
  | None => None
  end.

(** ** Lines 20-23: [app.config] and [SQLAlchemy(app)] *)

Inductive config_value := CStr (s : string) | CBool (b : bool).

(** The two keys [app.py] writes into [app.config] (lines 20-21), on a
    configuration [base] (Flask's defaults, which the program does not
    read). *)
Definition configure (base : gmap string config_value) : gmap string config_value :=
  <["SQLALCHEMY_TRACK_MODIFICATIONS"%string := CBool false]>
    (<["SQLALCHEMY_DATABASE_URI"%string := CStr app_database_uri]> base).

(** [db = SQLAlchemy(app)] (line 23): Flask-SQLAlchemy builds its engine
    from [make_url] of the configured URI; without one it raises
    [RuntimeError], and a URI the parser rejects raises [ArgumentError]
    ([None] for both). *)
Definition engine_url (config : gmap string config_value) : option url :=
  match config !! "SQLALCHEMY_DATABASE_URI"%string with
  | Some (CStr uri) => parse_url uri
  | _ => None
  end.

(** ** Lemmas *)

Lemma to_string_of s : to_string (list_ascii_of_string s) = s.
Proof. apply string_of_list_ascii_of_string. Qed.

(** [span] stops at the first character that fails the test. *)
Lemma span_app p a b :
  Forall (fun c => p c = true) a ->
  (match b with c :: _ => p c = false | [] => True end) ->
  span p (a ++ b) = (a, b).
Proof.
  intros Ha Hb. induction Ha as [|c a Hc _ IH]; simpl.
  - destruct b as [|c b]; [done|]. simpl in *. by rewrite Hb.
  - by rewrite Hc, IH.
Qed.

Lemma hex_value_digit k : (k < 16)%N -> hex_value (hex_digit k) = Some k.
Proof.
  intros Hk.
  assert (k = 0 \/ k = 1 \/ k = 2 \/ k = 3 \/ k = 4 \/ k = 5 \/ k = 6 \/ k = 7 \/ k = 8 \/
          k = 9 \/ k = 10 \/ k = 11 \/ k = 12 \/ k = 13 \/ k = 14 \/ k = 15)%N as Hcases by lia.
  repeat destruct Hcases as [->|Hcases]; try reflexivity. subst. reflexivity.
Qed.

(** The percent-escape of a byte below 128 decodes to its character. *)
Lemma unquote_percent c rest :
  (N_of_ascii c < 128)%N ->
  unquote_chars (percent_byte (N_of_ascii c) ++ rest) = c :: unquote_chars rest.
Proof.
  intros Hc. set (n := N_of_ascii c).
  assert (n / 16 < 16)%N by (apply N.Div0.div_lt_upper_bound; lia).
  assert (n mod 16 < 16)%N by (apply N.mod_lt; lia).
  cbn [percent_byte app unquote_chars]. rewrite bool_decide_true by done.
  rewrite !hex_value_digit by done. f_equal.
  rewrite <- N.div_mod'. subst n. apply ascii_N_embedding.
Qed.

Lemma unquote_no_percent l : "%" ∉ l -> unquote_chars l = l.
Proof.
  induction l as [|c l IH]; intros Hl; simpl; [done|].
  apply not_elem_of_cons in Hl as [Hc Hl]. rewrite bool_decide_false by done. by rewrite IH.
Qed.

Lemma always_safe_not_percent c : always_safe c = true -> c <> "%".
Proof. by intros Hc ->. Qed.

(** [quote_plus] writes no [@]: checked on each of the 256 characters. *)
Lemma quote_char_no_at c : "@" ∉ quote_char c.
Proof.
  assert (Forall (fun c => "@" ∉ quote_char c) Strptime.all_ascii) as Hall by vm_decide.
  exact (proj1 (Forall_forall _ _) Hall c (Strptime.elem_of_all_ascii c)).
Qed.

Lemma quote_plus_no_at s : "@" ∉ quote_plus_chars s.
Proof.
  induction s as [|c s IH]; simpl; [apply not_elem_of_nil|].
  rewrite elem_of_app. pose proof (quote_char_no_at c). tauto.
Qed.

(** A space written [+] by [quote_plus] stays a [+] for [unquote]. *)
Definition plus_for_space (c : ascii) : ascii := if bool_decide (c = " ") then "+" else c.

(** [unquote] undoes [quote_plus] on ASCII text, but for the spaces. *)
Lemma unquote_quote_plus s :
  Forall (fun c => (N_of_ascii c < 128)%N) s -> unquote_chars (quote_plus_chars s) = plus_for_space <$> s.
Proof.
  induction 1 as [|c s Hc _ IH]; [done|]. cbn [quote_plus_chars fmap list_fmap]. unfold quote_char.
  destruct (always_safe c) eqn:Hsafe.
  - simpl. rewrite bool_decide_false by (by apply always_safe_not_percent). rewrite IH.
    unfold plus_for_space. rewrite bool_decide_false; [done|]. by intros ->.
  - unfold plus_for_space. case_bool_decide as Hsp.
    + simpl. by rewrite IH.
    + unfold percent_char. rewrite (proj2 (N.ltb_lt _ _) Hc), unquote_percent by done. by rewrite IH.
Qed.

Lemma plus_for_space_id (s : list ascii) : plus_for_space <$> s = s <-> " " ∉ s.
Proof.
  induction s as [|c s IH]; simpl; [split; [intros _; apply not_elem_of_nil|done]|].
  rewrite not_elem_of_cons, <- IH. split.
  - intros [= Hc Hs]. split; [|done]. intros <-. revert Hc. vm_compute. congruence.
  - intros [Hc Hs]. f_equal; [|exact Hs]. unfold plus_for_space. rewrite bool_decide_false; [done|]. by intros ->.
Qed.

Lemma not_in_spec cs c : not_in cs c = true <-> c ∉ cs.
Proof. unfold not_in. by rewrite negb_true_iff, bool_decide_eq_false. Qed.

(** The credentials group on [user:password@rest]. *)
Lemma parse_credentials_user_pass U Q R :
  Forall (fun c => c ∉ [":"; "/"]) U -> "@" ∉ Q ->
  parse_credentials (U ++ ":" :: Q ++ "@" :: R) = (Some (U, Some Q), R).
Proof.
  intros HU HQ. unfold parse_credentials.
  rewrite span_app by (done || (eapply Forall_impl; [exact HU|]; intros c Hc; by apply not_in_spec)).
  rewrite next_is_cons. cbn iota beta.
  rewrite (span_app _ Q) by (done || (apply Forall_forall; intros c Hc; apply not_in_spec;
                                       intros ->%list_elem_of_singleton; contradiction)).
  by rewrite next_is_cons.
Qed.

(** The host group on a non-empty plain host name followed by [/]. *)
Lemma parse_host_plain H R :
  H <> [] -> Forall (fun c => c ∉ ["/"; ":"; "?"; "["]) H ->
  parse_host (H ++ "/" :: R) = (Some H, "/" :: R).
Proof.
  intros Hne HH. destruct H as [|h H']; [done|]. unfold parse_host.
  rewrite <- app_comm_cons, next_is_other by (inversion HH; set_solver).
  rewrite app_comm_cons, span_app; [done| |done].
  eapply Forall_impl; [exact HH|]. intros c Hc. apply not_in_spec. set_solver.
Qed.

Lemma parse_after_host_db N :
  Forall (fun c => c <> "?") N -> parse_after_host ("/" :: N) = (None, Some N, None).
Proof.
  intros HN. unfold parse_after_host. rewrite next_is_other by done. rewrite next_is_cons.
  cbn iota beta. rewrite <- (app_nil_r N) at 1. rewrite span_app; [done| |done].
  eapply Forall_impl; [exact HN|]. intros c Hc. apply not_in_spec. set_solver.
Qed.

Lemma unquote_of_list l : "%" ∉ l -> unquote (to_string l) = to_string l.
Proof.
  intros Hl. unfold unquote, to_string. rewrite list_ascii_of_string_of_list_ascii.
  by rewrite unquote_no_percent.
Qed.

(** The scheme of the URI. *)
Lemma span_scheme rest :
  span is_word_plus (list_ascii_of_string "mysql+pymysql://" ++ rest) =
    (list_ascii_of_string "mysql+pymysql", ":" :: "/" :: "/" :: rest).
Proof. reflexivity. Qed.

(** ** Properties *)

(** C37: the URI of line 20 read back by SQLAlchemy's URL parser: for a
    username without [:], [/] or [%], any ASCII password, a plain host
    and a database name without [?], the parser gives back the driver,
    the username, the host, the database and the password with each
    space turned into [+] ([quote_plus] writes a space [+], which
    [unquote] keeps); so the raw password comes back, the [@] of
    ['srihari@05'] included, exactly when it has no space. *)
Theorem parse_database_uri user pw host name :
  Forall (fun c => c ∉ [":"; "/"; "%"]) (list_ascii_of_string user) ->
  Forall (fun c => (N_of_ascii c < 128)%N) (list_ascii_of_string pw) ->
  host <> ""%string -> Forall (fun c => c ∉ ["/"; ":"; "?"; "["]) (list_ascii_of_string host) ->
  Forall (fun c => c <> "?") (list_ascii_of_string name) ->
  parse_url (database_uri user (quote_plus pw) host name) =
    Some (mk_url "mysql+pymysql" (Some user)
            (Some (string_of_list_ascii (plus_for_space <$> list_ascii_of_string pw)))
            (Some host) None (Some name) None) /\
  (string_of_list_ascii (plus_for_space <$> list_ascii_of_string pw) = pw <->
   " " ∉ list_ascii_of_string pw).
Proof.
  intros HU HP Hh HH HN. split.
  2:{ rewrite <- plus_for_space_id. split; [|intros ->; apply string_of_list_ascii_of_string].
      intros Heq%(f_equal list_ascii_of_string). by rewrite list_ascii_of_string_of_list_ascii in Heq. }
  unfold parse_url, database_uri, quote_plus.
  rewrite !list_ascii_of_string_app, list_ascii_of_string_of_list_ascii.
  rewrite span_scheme. cbn [list_ascii_of_string app]. cbn iota beta.
  repeat (rewrite next_is_cons; cbn [mbind option_bind]). cbn iota.
  rewrite bool_decide_false by discriminate.
  rewrite parse_credentials_user_pass;
    [|eapply Forall_impl; [exact HU|]; set_solver|apply quote_plus_no_at].
  rewrite parse_host_plain; [|by destruct host|done].
  rewrite parse_after_host_db by done. cbn [option_map mbind option_bind snd fst].
  rewrite (unquote_of_list (list_ascii_of_string user)), !to_string_of.
  - unfold unquote at 1, to_string at 1.
    by rewrite list_ascii_of_string_of_list_ascii, unquote_quote_plus.
  - intros Hp. eapply Forall_forall in HU; [|exact Hp]. set_solver.
Qed.

(** ** Witnesses *)

Lemma parse_database_uri_witness :
  parse_url app_database_uri =
    Some (mk_url "mysql+pymysql" (Some db_user)
            (Some (string_of_list_ascii (plus_for_space <$> list_ascii_of_string db_pass_raw)))
            (Some db_host) None (Some db_name) None) /\
  (string_of_list_ascii (plus_for_space <$> list_ascii_of_string db_pass_raw) = db_pass_raw <->
   " " ∉ list_ascii_of_string db_pass_raw).
Proof. apply parse_database_uri; first [vm_decide | discriminate]. Defined.

(** The configured URI gives SQLAlchemy the raw password back. *)
Lemma app_database_uri_password : password <$> parse_url app_database_uri = Some (Some db_pass_raw).
Proof. vm_compute. reflexivity. Qed.

(** Whatever Flask's defaults are, the engine connects as [root] with
    the raw password to [restaurant_db] on [localhost]. *)
Lemma engine_url_app base :
  engine_url (configure base) =
    Some (mk_url "mysql+pymysql" (Some db_user) (Some db_pass_raw) (Some db_host) None (Some db_name) None).
Proof.
  unfold engine_url, configure. rewrite lookup_insert_ne by done. rewrite lookup_insert.
  vm_compute. reflexivity.
Qed.

(** A password with a space would not: [quote_plus] writes it [+]. *)
Lemma space_password_lost :
  password <$> parse_url (database_uri db_user (quote_plus "pass word") db_host db_name) =
    Some (Some "pass+word"%string).
Proof. vm_compute. reflexivity. Qed.

End Config.
