(* ===== verification/Json.v ===== *)
(** [Json]: the values a handler reads from [request.get_json()], the
    Python operations the handlers apply to them ([data.get(k)] and
    [k in data], a lookup in the decoded object, here a [gmap] from keys to
    values; truthiness, [not x] and [all([...])]), the responses they
    return ([jsonify(...)] with an HTTP status code) and the error pages
    of werkzeug.  Floating-point numbers are not modelled: no handler
    produces them, and the decoder of [JsonText] reports them as outside
    the model.  [json_nested_ind] is the induction principle through the
    lists and objects nested in a value. *)

From S2P Require Import Prelude.
From Stdlib Require Import String.

Module Json.

Inductive json :=
| JNull
| JBool (b : bool)
| JNum (z : Z)
| JStr (s : string)
| JList (l : list json)
| JObj (kv : list (string * json)).

(** A decoded JSON object, as [request.get_json()] returns it. *)
Abbreviation body := (gmap string json).

(** Python truthiness of a decoded value. *)
Definition truthy (v : json) : bool :=
  match v with
  | JNull => false
  | JBool b => b
  | JNum z => negb (z =? 0)%Z
  | JStr s => negb (String.eqb s "")
  | JList l => negb (bool_decide (l = []))
  | JObj kv => negb (bool_decide (kv = []))
  end.

(** [data.get(k)] followed by a truthiness test: a missing key is [None]. *)
Definition truthy_opt (v : option json) : bool :=
  match v with Some v => truthy v | None => false end.

(** A field that holds a string. *)
Definition as_string (v : option json) : option string :=
  match v with Some (JStr s) => Some s | _ => None end.

(** ** Responses *)

(** [return jsonify(payload), status_code]; Flask's default code is 200. *)
Record response := mk_response { status_code : Z; payload : json }.

Definition error_response (code : Z) (msg : string) : response :=
  mk_response code (JObj [("error", JStr msg)]).
Definition message_response (code : Z) (msg : string) : response :=
  mk_response code (JObj [("message", JStr msg)]).

(** The page werkzeug writes for an [HTTPException] (a 404 of the router,
    the 400 and 415 of [get_json], the 500 of an exception the view does
    not catch), abbreviated to its title. *)
Definition error_page (code : Z) (title : string) : response := mk_response code (JStr title).

Definition internal_server_error : response := error_page 500 "Internal Server Error".

(** ** Induction through nested lists and objects *)

Lemma json_nested_ind (P : json -> Prop) :
  P JNull -> (forall b, P (JBool b)) -> (forall z, P (JNum z)) -> (forall s, P (JStr s)) ->
  (forall l, Forall P l -> P (JList l)) ->
  (forall kv, Forall (fun p => P p.2) kv -> P (JObj kv)) ->
  forall v, P v.
Proof.
  intros Hn Hb Hz Hs Hl Ho. fix IH 1. intros [|b|z|s|l|kv]; [exact Hn|apply Hb|apply Hz|apply Hs| |].
  - apply Hl. induction l as [|x l IHl]; constructor; auto.
  - apply Ho. induction kv as [|[k x] kv IHkv]; constructor; auto.
Qed.

End Json.
