(* ===== verification/JsonText.v ===== *)
(** [JsonText]: the JSON text on the wire.  [request.get_json()] decodes
    the request body with Python's [json.loads] (the C scanner of
    [_json.c]: [scan_once_unicode], [_parse_object_unicode],
    [_parse_array_unicode], [scanstring_unicode], [_match_number_unicode]
    and the outer [JSONDecoder.decode]), and [jsonify] encodes the payload
    with [json.dumps] under Flask's settings ([sort_keys=True],
    [ensure_ascii=True]; two-space indentation when the application runs
    with [debug=True], line 179, compact separators otherwise) followed by
    a newline.

    Text is a list of characters, each a code point up to U+00FF.  The
    decoder is a fuel-bounded recursive descent ([scan_once] with its two
    loops); [loads] gives it [2 * length + 1] units, and
    [loads_terminates] shows that this never runs out.  What the model
    cannot represent is an [OutOfModel] error rather than a guess: a
    float, [NaN] and [Infinity], and a [\uXXXX] escape above U+00FF. *)

From S2P Require Import Prelude Json.
From Stdlib Require Import Ascii String.
Import Json.

Module JsonText.
Local Open Scope char_scope.
Local Open Scope list_scope.

Definition quote : ascii := "034".
Definition backslash : ascii := "092".

Inductive decode_error :=
| JSONDecodeError (msg : string)
| OutOfModel
| OutOfFuel.

Definition expecting_value := JSONDecodeError "Expecting value".
Definition expecting_comma := JSONDecodeError "Expecting ',' delimiter".
Definition expecting_colon := JSONDecodeError "Expecting ':' delimiter".
Definition expecting_name := JSONDecodeError "Expecting property name enclosed in double quotes".
Definition unterminated := JSONDecodeError "Unterminated string starting at".
Definition invalid_control := JSONDecodeError "Invalid control character at".
Definition invalid_escape := JSONDecodeError "Invalid \escape".
Definition invalid_uxxxx := JSONDecodeError "Invalid \uXXXX escape".
Definition extra_data := JSONDecodeError "Extra data".

(** ** Decoding *)

(** [IS_WHITESPACE]: space, tab, line feed, carriage return. *)
Definition ws_chars : list ascii := [" "; "009"; "010"; "013"].
Definition is_ws (c : ascii) : bool := bool_decide (c ∈ ws_chars).

Fixpoint skip_ws (s : list ascii) : list ascii :=
  match s with
  | c :: r => if is_ws c then skip_ws r else s
  | [] => []
  end.

Definition is_digit (c : ascii) : bool := ((48 <=? N_of_ascii c) && (N_of_ascii c <=? 57))%N.
Definition digit_val (c : ascii) : N := (N_of_ascii c - 48)%N.

(** A hexadecimal digit of a [\uXXXX] escape, either case. *)
Definition hex_val (c : ascii) : option N :=
  let n := N_of_ascii c in
  if ((48 <=? n) && (n <=? 57))%N then Some (n - 48)%N
  else if ((97 <=? n) && (n <=? 102))%N then Some (n - 87)%N
  else if ((65 <=? n) && (n <=? 70))%N then Some (n - 55)%N
  else None.

Definition hex4 (a b c d : ascii) : option N :=
  match hex_val a, hex_val b, hex_val c, hex_val d with
  | Some w, Some x, Some y, Some z => Some (((w * 16 + x) * 16 + y) * 16 + z)%N
  | _, _, _, _ => None
  end.

(** The one-character escapes after a backslash. *)
Definition simple_escape (e : ascii) : option ascii :=
  if bool_decide (e = quote) then Some quote
  else if bool_decide (e = backslash) then Some backslash
  else if bool_decide (e = "/") then Some "/"
  else if bool_decide (e = "b") then Some "008"
  else if bool_decide (e = "f") then Some "012"
  else if bool_decide (e = "n") then Some "010"
  else if bool_decide (e = "r") then Some "013"
  else if bool_decide (e = "t") then Some "009"
  else None.

Definition cons_chars (c : ascii) (m : result decode_error (list ascii * list ascii)) :=
  match m with
  | Ok (t, r) => Ok (c :: t, r)
  | Err e => Err e
  end.

(** [scanstring_unicode] in strict mode, after the opening quote: the
    characters of the string and the text after the closing quote. *)
Fixpoint scan_string (s : list ascii) : result decode_error (list ascii * list ascii) :=
  match s with
  | [] => Err unterminated
  | c :: r =>
      if bool_decide (c = quote) then Ok ([], r)
      else if bool_decide (c = backslash) then
        match r with
        | [] => Err unterminated
        | e :: r' =>
            if bool_decide (e = "u") then
              match r' with
              | h1 :: h2 :: h3 :: h4 :: ((_ :: _) as r'') =>
                  match hex4 h1 h2 h3 h4 with
                  | Some n => if (n <? 256)%N then cons_chars (ascii_of_N n) (scan_string r'')
                              else Err OutOfModel
                  | None => Err invalid_uxxxx
                  end
              | _ => Err invalid_uxxxx
              end
            else match simple_escape e with
                 | Some c' => cons_chars c' (scan_string r')
                 | None => Err invalid_escape
                 end
        end
      else if (N_of_ascii c <? 32)%N then Err invalid_control
      else cons_chars c (scan_string r)
  end.

(** The prefix [p] of [s], when [s] starts with it. *)
Fixpoint strip_prefix (p s : list ascii) : option (list ascii) :=
  match p with
  | [] => Some s
  | c :: p' => next_is c s ≫= strip_prefix p'
  end.

Fixpoint read_digits (acc : N) (s : list ascii) : N * list ascii :=
  match s with
  | c :: r => if is_digit c then read_digits (acc * 10 + digit_val c)%N r else (acc, s)
  | [] => (acc, [])
  end.

Definition head_digit (s : list ascii) : bool :=
  match s with c :: _ => is_digit c | [] => false end.

(** The fraction [.d] or the exponent [e[+-]d] that makes a number a float. *)
Definition float_tail (s : list ascii) : bool :=
  match s with
  | c :: r =>
      (bool_decide (c = ".") && head_digit r) ||
      ((bool_decide (c = "e") || bool_decide (c = "E")) &&
       match r with
       | d :: r' => is_digit d || ((bool_decide (d = "+") || bool_decide (d = "-")) && head_digit r')
       | [] => false
       end)
  | [] => false
  end.

(** [_match_number_unicode]: [None] is the [StopIteration] of no number. *)
Definition scan_number (s : list ascii) : option (result decode_error (json * list ascii)) :=
  let '(neg, r) := match next_is "-" s with Some r => (true, r) | None => (false, s) end in
  let finish (n : N) (t : list ascii) :=
    if float_tail t then Err OutOfModel
    else Ok (JNum (if neg then (- Z.of_N n)%Z else Z.of_N n), t) in
  match r with
  | c :: r' =>
      if bool_decide (c = "0") then Some (finish 0%N r')
      else if is_digit c then Some (let '(n, t) := read_digits (digit_val c) r' in finish n t)
      else None
  | [] => None
  end.

(** Python's [dict] under [d[k] = v]: a new key goes last, a key already
    there keeps its place and takes the new value. *)
Fixpoint dict_set {A} (k : string) (v : A) (kv : list (string * A)) : list (string * A) :=
  match kv with
  | [] => [(k, v)]
  | (k', v') :: kv' => if bool_decide (k' = k) then (k, v) :: kv' else (k', v') :: dict_set k v kv'
  end.

Definition lit (s : string) : list ascii := list_ascii_of_string s.

(** [scan_once_unicode] and the loops of [_parse_array_unicode] and
    [_parse_object_unicode] (entered after the first element's leading
    whitespace); each call spends one unit of fuel. *)
Fixpoint scan_once (fuel : nat) (s : list ascii) : result decode_error (json * list ascii) :=
  match fuel with
  | O => Err OutOfFuel
  | S f =>
      match s with
      | [] => Err expecting_value
      | c :: r =>
          if bool_decide (c = quote) then
            match scan_string r with
            | Ok (t, r') => Ok (JStr (string_of_list_ascii t), r')
            | Err e => Err e
            end
          else if bool_decide (c = "{") then
            let t := skip_ws r in
            match next_is "}" t with
            | Some r' => Ok (JObj [], r')
            | None => object_items f t []
            end
          else if bool_decide (c = "[") then
            let t := skip_ws r in
            match next_is "]" t with
            | Some r' => Ok (JList [], r')
            | None => array_items f t []
            end
          else match strip_prefix (lit "null") s with Some r' => Ok (JNull, r') | None =>
               match strip_prefix (lit "true") s with Some r' => Ok (JBool true, r') | None =>
               match strip_prefix (lit "false") s with Some r' => Ok (JBool false, r') | None =>
               if bool_decide (is_Some (strip_prefix (lit "NaN") s)) ||
                  bool_decide (is_Some (strip_prefix (lit "Infinity") s)) ||
                  bool_decide (is_Some (strip_prefix (lit "-Infinity") s))
               then Err OutOfModel
               else match scan_number s with
                    | Some m => m
                    | None => Err expecting_value
                    end end end end
      end
  end
with array_items (fuel : nat) (s : list ascii) (acc : list json) : result decode_error (json * list ascii) :=
  match fuel with
  | O => Err OutOfFuel
  | S f =>
      match scan_once f s with
      | Err e => Err e
      | Ok (v, r) =>
          let r := skip_ws r in
          match next_is "]" r with
          | Some r' => Ok (JList (acc ++ [v]), r')
          | None =>
              match next_is "," r with
              | Some r' => array_items f (skip_ws r') (acc ++ [v])
              | None => Err expecting_comma
              end
          end
      end
  end
with object_items (fuel : nat) (s : list ascii) (acc : list (string * json))
    : result decode_error (json * list ascii) :=
  match fuel with
  | O => Err OutOfFuel
  | S f =>
      match next_is quote s with
      | None => Err expecting_name
      | Some r =>
          match scan_string r with
          | Err e => Err e
          | Ok (k, r1) =>
              match next_is ":" (skip_ws r1) with
              | None => Err expecting_colon
              | Some r2 =>
                  match scan_once f (skip_ws r2) with
                  | Err e => Err e
                  | Ok (v, r3) =>
                      let acc := dict_set (string_of_list_ascii k) v acc in
                      let r3 := skip_ws r3 in
                      match next_is "}" r3 with
                      | Some r4 => Ok (JObj acc, r4)
                      | None =>
                          match next_is "," r3 with
                          | Some r4 => object_items f (skip_ws r4) acc
                          | None => Err expecting_comma
                          end
                      end
                  end
              end
          end
      end
  end.

(** [JSONDecoder.decode]: skip whitespace, scan one value, skip
    whitespace, and nothing may follow. *)
Definition loads_fuel (n : nat) (s : list ascii) : result decode_error json :=
  match scan_once n (skip_ws s) with
  | Ok (v, r) => if bool_decide (skip_ws r = []) then Ok v else Err extra_data
  | Err e => Err e
  end.

Definition loads (s : list ascii) : result decode_error json :=
  loads_fuel (S (2 * List.length s)) s.

(** ** Encoding *)

Definition hex_lower (n : N) : ascii :=
  if (n <? 10)%N then ascii_of_N (48 + n) else ascii_of_N (87 + n).

(** [ascii_escape_unichar] under [ensure_ascii]: printable ASCII other
    than the quote and the backslash stands for itself. *)
Definition escape_char (c : ascii) : list ascii :=
  let n := N_of_ascii c in
  if ((32 <=? n) && (n <=? 126))%N && negb (bool_decide (c = quote)) && negb (bool_decide (c = backslash))
  then [c]
  else if bool_decide (c = quote) then [backslash; quote]
  else if bool_decide (c = backslash) then [backslash; backslash]
  else if bool_decide (c = "008") then [backslash; "b"]
  else if bool_decide (c = "012") then [backslash; "f"]
  else if bool_decide (c = "010") then [backslash; "n"]
  else if bool_decide (c = "013") then [backslash; "r"]
  else if bool_decide (c = "009") then [backslash; "t"]
  else [backslash; "u"; "0"; "0"; hex_lower (n / 16); hex_lower (n mod 16)]%N.

Definition encode_string (s : string) : list ascii :=
  quote :: (list_ascii_of_string s ≫= escape_char) ++ [quote].

(** [sorted(dct.items())]: insertion by key; the keys of a [dict] are
    distinct, so every sort gives this order. *)
Fixpoint insert_item {A} (p : string * A) (l : list (string * A)) : list (string * A) :=
  match l with
  | [] => [p]
  | q :: l' => if String.leb p.1 q.1 then p :: l else q :: insert_item p l'
  end.

Fixpoint sort_items {A} (l : list (string * A)) : list (string * A) :=
  match l with
  | [] => []
  | p :: l' => insert_item p (sort_items l')
  end.

(** ['\n' + ' ' * (indent * level)] when indenting, nothing otherwise. *)
Definition newline_indent (indent : option nat) (level : nat) : list ascii :=
  match indent with
  | Some i => "010" :: replicate (i * level) " "
  | None => []
  end.

(** The key separator: [': '] when indenting, [':'] in the compact form. *)
Definition key_separator (indent : option nat) : list ascii :=
  match indent with Some _ => [":"; " "] | None => [":"] end.

Fixpoint join (sep : list ascii) (l : list (list ascii)) : list ascii :=
  match l with
  | [] => []
  | [x] => x
  | x :: l' => x ++ sep ++ join sep l'
  end.

(** [_iterencode] at nesting [level]: [[]] and [{}] for empty containers,
    otherwise one item per line at the next level when indenting. *)
Fixpoint encode (indent : option nat) (level : nat) (v : json) : list ascii :=
  match v with
  | JNull => lit "null"
  | JBool true => lit "true"
  | JBool false => lit "false"
  | JNum z => lit (pretty z)
  | JStr s => encode_string s
  | JList [] => ["["; "]"]
  | JList l =>
      "[" :: newline_indent indent (S level) ++
      join ("," :: newline_indent indent (S level)) (List.map (encode indent (S level)) l) ++
      newline_indent indent level ++ ["]"]
  | JObj [] => ["{"; "}"]
  | JObj kv =>
      "{" :: newline_indent indent (S level) ++
      join ("," :: newline_indent indent (S level))
        (List.map (fun p => encode_string p.1 ++ key_separator indent ++ p.2)
           (sort_items (List.map (fun p => (p.1, encode indent (S level) p.2)) kv))) ++
      newline_indent indent level ++ ["}"]
  end.

Definition dumps (indent : option nat) (v : json) : list ascii := encode indent 0 v.

(** [app.run(debug=True)] (line 179). *)
Definition app_debug : bool := true.

(** The body Flask writes for [jsonify(payload)]:
    [f"{dumps(obj, **dump_args)}\n"], indented by two under debug. *)
Definition response_text (debug : bool) (v : json) : list ascii :=
  dumps (if debug then Some 2 else None) v ++ ["010"].

(** Every object's keys are distinct, as in a Python [dict]. *)
Fixpoint json_wf (v : json) : bool :=
  match v with
  | JList l => forallb json_wf l
  | JObj kv => bool_decide (NoDup kv.*1) && forallb (fun p => json_wf p.2) kv
  | _ => true
  end.

(** The value with every object's keys in sorted order. *)
Fixpoint sort_json (v : json) : json :=
  match v with
  | JList l => JList (List.map sort_json l)
  | JObj kv => JObj (sort_items (List.map (fun p => (p.1, sort_json p.2)) kv))
  | _ => v
  end.

(** One member [key: value] of a printed object. *)
Definition encode_item ind lvl (p : string * json) : list ascii :=
  encode_string p.1 ++ key_separator ind ++ encode ind lvl p.2.

(** ** Vocabulary of the proofs *)

(** The text after a number that leaves it an integer. *)
Definition number_end (rest : list ascii) : Prop := head_digit rest = false /\ float_tail rest = false.

(** The text after a value in the printed form. *)
Definition delimited (rest : list ascii) : Prop :=
  match rest with [] => True | c :: _ => c ∈ [","; "]"; "}"; "010"] end.

(** [v] printed at any level decodes back, whatever delimited text follows. *)
Definition encodes (ind : option nat) (v : json) : Prop :=
  forall lvl n rest, delimited rest -> scan_once n (encode ind lvl v ++ rest) <> Err OutOfFuel ->
  scan_once n (encode ind lvl v ++ rest) = Ok (sort_json v, rest).

(** ** Termination of the decoder *)

Lemma skip_ws_length s : List.length (skip_ws s) <= List.length s.
Proof. induction s as [|c s IH]; simpl; [lia|]. destruct (is_ws c); simpl; lia. Qed.

Lemma next_is_length c l r : next_is c l = Some r -> List.length l = S (List.length r).
Proof. destruct l as [|x l]; simpl; [done|]. case_bool_decide; by intros [= ->]. Qed.

Lemma strip_prefix_length p s r : strip_prefix p s = Some r -> List.length s = List.length p + List.length r.
Proof.
  revert s. induction p as [|c p IH]; intros s; simpl; [by intros [= ->]|].
  destruct (next_is c s) as [s'|] eqn:E; simpl; [|done].
  intros ?%IH. apply next_is_length in E. lia.
Qed.

Lemma cons_chars_Ok c m t r : cons_chars c m = Ok (t, r) -> exists t', m = Ok (t', r).
Proof. destruct m as [[]|]; simpl; [intros [= <- ->]; eauto|done]. Qed.

Lemma scan_string_length s t r : scan_string s = Ok (t, r) -> List.length r < List.length s.
Proof.
  enough (forall n s t, List.length s < n -> scan_string s = Ok (t, r) -> List.length r < List.length s)
    by eauto. clear s t.
  induction n as [|n IH]; intros s t Hn Hs; [lia|].
  destruct s as [|c s]; cbn [scan_string] in Hs; [done|].
  repeat case_match; subst; simplify_eq; cbn [List.length] in *; try lia;
    apply cons_chars_Ok in Hs as [? Hs]; apply IH in Hs; cbn [List.length] in *; lia.
Qed.

Lemma read_digits_length acc s n t : read_digits acc s = (n, t) -> List.length t <= List.length s.
Proof.
  revert acc. induction s as [|c s IH]; intros acc; cbn [read_digits]; [intros [= <- <-]; done|].
  case_match; [intros ?%IH; cbn; lia | intros [= <- <-]; done].
Qed.

Lemma scan_number_length s v r : scan_number s = Some (Ok (v, r)) -> List.length r < List.length s.
Proof.
  unfold scan_number. destruct (next_is "-" s) as [s'|] eqn:Hm;
    [apply next_is_length in Hm|]; destruct s' as [|c s'] || destruct s as [|c s'];
    try done; repeat case_match; intros; simplify_eq; cbn [List.length] in *;
    repeat match goal with H : read_digits _ _ = _ |- _ => apply read_digits_length in H end; lia.
Qed.

Ltac skip_ws_facts :=
  repeat match goal with
  | _ : context [skip_ws ?x] |- _ =>
      lazymatch goal with
      | _ : List.length (skip_ws x) <= List.length x |- _ => fail
      | _ => pose proof (skip_ws_length x)
      end
  end.

Ltac length_facts :=
  repeat match goal with
  | H : scan_string _ = Ok (_, _) |- _ => apply scan_string_length in H
  | H : next_is _ _ = Some _ |- _ => apply next_is_length in H
  | H : strip_prefix _ _ = Some _ |- _ => apply strip_prefix_length in H
  | H : scan_number _ = Some (Ok (_, _)) |- _ => apply scan_number_length in H
  end; skip_ws_facts; cbn [List.length lit list_ascii_of_string] in *.

Lemma scan_consumes n :
  (forall s v r, scan_once n s = Ok (v, r) -> List.length r < List.length s) /\
  (forall s acc v r, array_items n s acc = Ok (v, r) -> List.length r < List.length s) /\
  (forall s acc v r, object_items n s acc = Ok (v, r) -> List.length r < List.length s).
Proof.
  induction n as [|f (IHv & IHa & IHo)]; [repeat split; done|].
  repeat split.
  - intros [|c s] v r H; cbn [scan_once] in H; [done|].
    repeat case_match; simplify_eq;
      repeat match goal with
      | H : scan_once f _ = Ok _ |- _ => apply IHv in H
      | H : array_items f _ _ = Ok _ |- _ => apply IHa in H
      | H : object_items f _ _ = Ok _ |- _ => apply IHo in H
      end; length_facts; lia.
  - intros s acc v r H; cbn [array_items] in H.
    repeat case_match; simplify_eq;
      repeat match goal with
      | H : scan_once f _ = Ok _ |- _ => apply IHv in H
      | H : array_items f _ _ = Ok _ |- _ => apply IHa in H
      end; length_facts; lia.
  - intros s acc v r H; cbn [object_items] in H.
    repeat case_match; simplify_eq;
      repeat match goal with
      | H : scan_once f _ = Ok _ |- _ => apply IHv in H
      | H : object_items f _ _ = Ok _ |- _ => apply IHo in H
      end; length_facts; lia.
Qed.

Lemma cons_chars_fuel c m : m <> Err OutOfFuel -> cons_chars c m <> Err OutOfFuel.
Proof. destruct m as [[]|]; naive_solver. Qed.

Lemma scan_string_fuel s : scan_string s <> Err OutOfFuel.
Proof.
  enough (forall n s, List.length s < n -> scan_string s <> Err OutOfFuel) by eauto. clear s.
  induction n as [|n IH]; intros s Hn; [lia|].
  destruct s as [|c s]; cbn [scan_string]; [done|].
  repeat case_match; subst; try done; cbn [List.length] in *;
    apply cons_chars_fuel, IH; cbn [List.length]; lia.
Qed.

Lemma scan_number_fuel s : scan_number s <> Some (Err OutOfFuel).
Proof. unfold scan_number. repeat case_match; done. Qed.

Ltac consumed :=
  repeat match goal with
  | H : scan_once _ _ = Ok (_, _) |- _ => apply (proj1 (scan_consumes _)) in H
  | H : array_items _ _ _ = Ok (_, _) |- _ => apply (proj1 (proj2 (scan_consumes _))) in H
  | H : object_items _ _ _ = Ok (_, _) |- _ => apply (proj2 (proj2 (scan_consumes _))) in H
  end; length_facts.

Lemma scan_enough n :
  (forall s, 2 * List.length s < n -> scan_once n s <> Err OutOfFuel) /\
  (forall s acc, 2 * List.length s + 1 < n -> array_items n s acc <> Err OutOfFuel) /\
  (forall s acc, 2 * List.length s + 1 < n -> object_items n s acc <> Err OutOfFuel).
Proof.
  induction n as [|f (IHv & IHa & IHo)]; [repeat split; intros; lia|].
  repeat split; [intros [|c s] | intros s acc | intros s acc]; intros Hlen;
    cbn [scan_once array_items object_items]; try done;
    repeat case_match; intros Hx; simplify_eq;
    match goal with
    | H : scan_string _ = Err OutOfFuel |- _ => by apply scan_string_fuel in H
    | H : scan_number _ = Some (Err OutOfFuel) |- _ => by apply scan_number_fuel in H
    | H : scan_once f _ = Err OutOfFuel |- _ => eapply IHv in H; [done|]
    | H : array_items f _ _ = Err OutOfFuel |- _ => eapply IHa in H; [done|]
    | H : object_items f _ _ = Err OutOfFuel |- _ => eapply IHo in H; [done|]
    end; consumed; cbn [List.length] in *; lia.
Qed.



(** ** The printed form decodes back *)

Lemma scan_string_escape_char c t : t <> [] -> scan_string (escape_char c ++ t) = cons_chars c (scan_string t).
Proof. intros Ht. destruct t as [|x t]; [done|]. destruct c as [[] [] [] [] [] [] [] []]; reflexivity. Qed.

Lemma scan_string_encode s rest :
  scan_string ((list_ascii_of_string s ≫= escape_char) ++ quote :: rest) = Ok (list_ascii_of_string s, rest).
Proof.
  induction s as [|c s IH]; [reflexivity|].
  change ((list_ascii_of_string (String c s) ≫= escape_char))
    with (escape_char c ++ (list_ascii_of_string s ≫= escape_char)).
  rewrite <-app_assoc, scan_string_escape_char.
  - by rewrite IH.
  - by destruct (list_ascii_of_string s ≫= escape_char).
Qed.

Lemma lit_pretty_N_go x s : lit (pretty_N_go x s) = lit (pretty_N_go x "") ++ lit s.
Proof.
  revert s. induction (N.lt_wf_0 x) as [x _ IH]; intros s.
  destruct (decide (x = 0)%N) as [->|Hx]; [done|].
  rewrite !(pretty_N_go_step x) by lia.
  rewrite (IH _ (N.div_lt x 10 ltac:(lia) eq_refl) (String _ s)),
    (IH _ (N.div_lt x 10 ltac:(lia) eq_refl) (String _ "")).
  by rewrite <-app_assoc.
Qed.

Lemma digit_val_pretty_N_char d : (d < 10)%N -> digit_val (pretty_N_char d) = d /\ is_digit (pretty_N_char d) = true.
Proof.
  intros Hd. assert (d = 0 \/ d = 1 \/ d = 2 \/ d = 3 \/ d = 4 \/ d = 5 \/ d = 6 \/ d = 7 \/ d = 8 \/ d = 9)%N
    as Hd' by lia. destruct_or! Hd'; by subst.
Qed.

Lemma read_digits_pretty x acc t :
  read_digits acc (lit (pretty_N_go x "") ++ t) =
  read_digits (acc * 10 ^ N.of_nat (List.length (lit (pretty_N_go x ""))) + x)%N t.
Proof.
  revert acc t. induction (N.lt_wf_0 x) as [x _ IH]; intros acc t.
  destruct (decide (x = 0)%N) as [->|Hx]; [rewrite pretty_N_go_0; cbn; by rewrite N.mul_1_r, N.add_0_r|].
  rewrite (pretty_N_go_step x) by lia. rewrite lit_pretty_N_go, <-app_assoc.
  rewrite (IH (x / 10)%N) by (apply N.div_lt; lia). cbn [lit list_ascii_of_string app read_digits].
  destruct (digit_val_pretty_N_char (x mod 10)) as [-> ->]; [apply N.mod_lt; lia|].
  f_equal. rewrite length_app. cbn [List.length]. rewrite Nat2N.inj_add, N.pow_add_r.
  pose proof (N.div_mod x 10). lia.
Qed.

Lemma pretty_pos_shape x : (0 < x)%N ->
  exists d ds, lit (pretty_N_go x "") = d :: ds /\ is_digit d = true /\ d <> "0".
Proof.
  induction (N.lt_wf_0 x) as [x _ IH]; intros Hx.
  rewrite (pretty_N_go_step x), lit_pretty_N_go by lia.
  destruct (decide (x / 10 = 0)%N) as [Hq|Hq].
  - rewrite Hq, pretty_N_go_0. cbn. eexists _, []. split; [done|].
    assert (x mod 10 = x)%N as -> by (apply N.mod_small; apply N.div_small_iff in Hq; lia).
    destruct (digit_val_pretty_N_char x) as [Hv ->]; [apply N.div_small_iff in Hq; lia|].
    split; [done|]. intros Hc. rewrite Hc in Hv. vm_compute in Hv. lia.
  - assert (x / 10 < x)%N as Hlt by (apply N.div_lt; lia).
    destruct (IH (x / 10)%N Hlt ltac:(apply N.neq_0_lt_0, Hq)) as (d & ds & -> & ?).
    eexists _, _. split; [reflexivity|]. done.
Qed.

Lemma read_digits_end acc rest : head_digit rest = false -> read_digits acc rest = (acc, rest).
Proof. destruct rest as [|c rest]; cbn; [done|]. by intros ->. Qed.

Lemma scan_number_pos x rest : (0 < x)%N -> number_end rest ->
  exists d ds, lit (pretty_N_go x "") = d :: ds /\ is_digit d = true /\ d <> "0" /\
    read_digits (digit_val d) (ds ++ rest) = (x, rest).
Proof.
  intros Hx [Hd Hf]. destruct (pretty_pos_shape x Hx) as (d & ds & Hs & Hdig & Hd0).
  exists d, ds. do 3 (split; [done|]).
  pose proof (read_digits_pretty x 0 rest) as H. rewrite Hs in H. cbn [app read_digits] in H.
  rewrite Hdig in H. rewrite N.mul_0_l, N.add_0_l in H. rewrite H, N.mul_0_l, N.add_0_l.
  by apply read_digits_end.
Qed.

Lemma is_digit_not c : is_digit c = true -> c ∉ ["-"; "n"; "t"; "f"; "N"; "I"; quote; "{"; "["].
Proof. intros Hc. repeat (rewrite not_elem_of_cons; split; [by intros ->|]). apply not_elem_of_nil. Qed.

Lemma strip_prefix_other x p c r : c <> x -> strip_prefix (x :: p) (c :: r) = None.
Proof. intros Hc. cbn [strip_prefix]. by rewrite next_is_other. Qed.

(** A value that starts with a digit, or a minus sign and a digit, is a number. *)
Lemma scan_once_numeral f c r :
  c ∉ [quote; "{"; "["; "n"; "t"; "f"; "N"; "I"] ->
  (c = "-" -> exists d r', r = d :: r' /\ d <> "I") ->
  scan_once (S f) (c :: r) = default (Err expecting_value) (scan_number (c :: r)).
Proof.
  intros Hc Hm. rewrite !not_elem_of_cons in Hc. destruct_and! Hc.
  cbn [scan_once]. rewrite !bool_decide_false by done.
  unfold lit; cbn [list_ascii_of_string].
  rewrite !strip_prefix_other by done.
  destruct (decide (c = "-")) as [->|Hne].
  - destruct (Hm eq_refl) as (d & r' & -> & Hd).
    cbn [strip_prefix]. rewrite next_is_cons. cbn [mbind option_bind].
    rewrite next_is_other by done. cbn. by destruct scan_number.
  - rewrite strip_prefix_other by done. cbn. by destruct scan_number.
Qed.

Lemma pretty_Z_pos p : pretty (Zpos p) = pretty_N_go (Npos p) "".
Proof. reflexivity. Qed.

Lemma pretty_Z_neg p : pretty (Zneg p) = String "-" (pretty_N_go (Npos p) "").
Proof. reflexivity. Qed.

Lemma scan_number_digits d ds rest x :
  is_digit d = true -> d <> "0" -> read_digits (digit_val d) (ds ++ rest) = (x, rest) ->
  float_tail rest = false ->
  scan_number (d :: ds ++ rest) = Some (Ok (JNum (Z.of_N x), rest)) /\
  scan_number ("-" :: d :: ds ++ rest) = Some (Ok (JNum (- Z.of_N x), rest)).
Proof.
  intros Hdig Hd0 Hr Hf. pose proof (is_digit_not d Hdig) as Hn.
  unfold scan_number. rewrite next_is_cons, next_is_other by set_solver.
  rewrite !bool_decide_false, Hdig, Hr, Hf by done. done.
Qed.

Lemma scan_once_pretty f z rest : number_end rest ->
  scan_once (S f) (lit (pretty z) ++ rest) = Ok (JNum z, rest).
Proof.
  intros [Hd Hf]. destruct z as [|p|p].
  - change (lit (pretty 0%Z) ++ rest) with ("0" :: rest).
    rewrite scan_once_numeral; [|vm_decide|done].
    unfold scan_number. rewrite next_is_other by done. cbn -[float_tail]. by rewrite Hf.
  - destruct (scan_number_pos (Npos p) rest) as (d & ds & Hs & Hdig & Hd0 & Hr); [lia|done|].
    rewrite pretty_Z_pos, Hs. cbn [app]. rewrite scan_once_numeral.
    + by rewrite (proj1 (scan_number_digits d ds rest _ Hdig Hd0 Hr Hf)).
    + pose proof (is_digit_not d Hdig). rewrite !not_elem_of_cons in *; naive_solver.
    + intros ->. done.
  - destruct (scan_number_pos (Npos p) rest) as (d & ds & Hs & Hdig & Hd0 & Hr); [lia|done|].
    rewrite pretty_Z_neg. unfold lit. cbn [list_ascii_of_string]. fold (lit (pretty_N_go (Npos p) "")).
    rewrite Hs. cbn [app]. rewrite scan_once_numeral.
    + by rewrite (proj2 (scan_number_digits d ds rest _ Hdig Hd0 Hr Hf)).
    + vm_decide.
    + intros _. pose proof (is_digit_not d Hdig). eexists _, _. split; [done|]. set_solver.
Qed.

Lemma insert_item_map {A B} (g : A -> B) p l :
  insert_item (p.1, g p.2) (List.map (fun q => (q.1, g q.2)) l) =
  List.map (fun q => (q.1, g q.2)) (insert_item p l).
Proof. induction l as [|q l IH]; cbn; [done|]. case_match; cbn; by rewrite ?IH. Qed.

Lemma sort_items_map {A B} (g : A -> B) l :
  sort_items (List.map (fun q => (q.1, g q.2)) l) = List.map (fun q => (q.1, g q.2)) (sort_items l).
Proof.
  induction l as [|p l IH]; cbn; [done|]. rewrite IH.
  by rewrite <-(insert_item_map g p).
Qed.

Lemma insert_item_perm {A} (p : string * A) l : insert_item p l ≡ₚ p :: l.
Proof.
  induction l as [|q l IH]; cbn; [done|]. case_match; [done|].
  rewrite IH. apply perm_swap.
Qed.

Lemma sort_items_perm {A} (l : list (string * A)) : sort_items l ≡ₚ l.
Proof. induction l as [|p l IH]; cbn; [done|]. by rewrite insert_item_perm, IH. Qed.

Lemma dict_set_new {A} k (v : A) acc : k ∉ acc.*1 -> dict_set k v acc = acc ++ [(k, v)].
Proof.
  induction acc as [|[k' v'] acc IH]; intros Hk; cbn; [done|].
  rewrite bool_decide_false by set_solver. f_equal. apply IH. set_solver.
Qed.

Lemma skip_ws_head c r : c ∉ ws_chars -> skip_ws (c :: r) = c :: r.
Proof. intros Hc. cbn. unfold is_ws. by rewrite bool_decide_false. Qed.

Lemma skip_ws_newline_indent ind k t : skip_ws (newline_indent ind k ++ t) = skip_ws t.
Proof. destruct ind as [i|]; cbn; [|done]. by induction (i * k); cbn. Qed.

Lemma encode_head ind lvl v :
  exists c r, encode ind lvl v = c :: r /\ c ∉ "]" :: "}" :: ws_chars.
Proof.
  destruct v as [|[]|z|s|[]|[]]; cbn [encode]; try (eexists _, _; split; [reflexivity|vm_decide]).
  destruct z as [|p|p]; [eexists _, _; split; [reflexivity|vm_decide]| |].
  - destruct (pretty_pos_shape (Npos p)) as (d & ds & Hs & Hd & _); [lia|].
    rewrite pretty_Z_pos, Hs. eexists _, _. split; [done|].
    pose proof (is_digit_not d Hd). intros Hin. unfold ws_chars in Hin.
    repeat (apply elem_of_cons in Hin as [->|Hin]; [done|]). by apply elem_of_nil in Hin.
  - rewrite pretty_Z_neg. eexists _, _. split; [reflexivity|vm_decide].
Qed.

Lemma skip_ws_encode ind lvl v t : skip_ws (encode ind lvl v ++ t) = encode ind lvl v ++ t.
Proof. destruct (encode_head ind lvl v) as (c & r & -> & Hc). apply skip_ws_head. set_solver. Qed.

Lemma delimited_number_end rest : delimited rest -> number_end rest.
Proof.
  destruct rest as [|c rest]; [done|]. cbn. intros Hc.
  repeat (apply elem_of_cons in Hc as [->|Hc]; [done|]). by apply elem_of_nil in Hc.
Qed.

Lemma delimited_sep ind lvl t : delimited ("," :: newline_indent ind lvl ++ t).
Proof. cbn. set_solver. Qed.

Lemma delimited_close ind lvl c rest : c ∈ ["]"; "}"] -> delimited (newline_indent ind lvl ++ c :: rest).
Proof. destruct ind; cbn; set_solver. Qed.

Lemma join_cons2 sep a b l : join sep (a :: b :: l) = a ++ sep ++ join sep (b :: l).
Proof. reflexivity. Qed.

Lemma skip_ws_join ind lvl sep y xs t :
  skip_ws (join sep (List.map (encode ind lvl) (y :: xs)) ++ t) =
  join sep (List.map (encode ind lvl) (y :: xs)) ++ t.
Proof.
  destruct xs as [|z xs]; cbn [List.map]; [apply skip_ws_encode|].
  rewrite join_cons2, <-!app_assoc. apply skip_ws_encode.
Qed.

Lemma array_items_encode ind lvl x xs n acc rest :
  Forall (encodes ind) (x :: xs) ->
  array_items n (join ("," :: newline_indent ind (S lvl)) (List.map (encode ind (S lvl)) (x :: xs)) ++
                 newline_indent ind lvl ++ "]" :: rest) acc <> Err OutOfFuel ->
  array_items n (join ("," :: newline_indent ind (S lvl)) (List.map (encode ind (S lvl)) (x :: xs)) ++
                 newline_indent ind lvl ++ "]" :: rest) acc =
  Ok (JList (acc ++ List.map sort_json (x :: xs)), rest).
Proof.
  revert x n acc. induction xs as [|y xs IH]; intros x [|f] acc HF Hne; try done;
    apply Forall_cons in HF as [Hx HF].
  - cbn [List.map join] in *. cbn [array_items] in *.
    rewrite Hx; [|apply delimited_close; set_solver|].
    + rewrite skip_ws_newline_indent, skip_ws_head, next_is_cons by vm_decide. done.
    + intros Hoof. apply Hne. by rewrite Hoof.
  - set (T := join ("," :: newline_indent ind (S lvl)) (List.map (encode ind (S lvl)) (y :: xs)) ++
                newline_indent ind lvl ++ "]" :: rest) in *.
    assert (join ("," :: newline_indent ind (S lvl)) (List.map (encode ind (S lvl)) (x :: y :: xs)) ++
            newline_indent ind lvl ++ "]" :: rest = encode ind (S lvl) x ++ "," :: newline_indent ind (S lvl) ++ T)
      as Hsplit by (unfold T; cbn [List.map]; rewrite join_cons2; by rewrite <-!app_assoc).
    rewrite Hsplit in *. cbn [array_items] in *.
    rewrite Hx; [|apply delimited_sep|intros Hoof; apply Hne; by rewrite Hoof].
    rewrite Hx in Hne by (apply delimited_sep || (intros Hoof; apply Hne; by rewrite Hoof)).
    rewrite skip_ws_head in * by vm_decide.
    rewrite next_is_other, next_is_cons in * by done.
    rewrite skip_ws_newline_indent in *. unfold T in *.
    rewrite skip_ws_join in *. rewrite IH; [|done|done].
    by rewrite <-app_assoc.
Qed.

Lemma skip_ws_key_separator ind t :
  exists t', skip_ws (key_separator ind ++ t) = ":" :: t' /\ skip_ws t' = skip_ws t.
Proof. destruct ind; cbn; eexists; split; reflexivity. Qed.

(** One member [key: value] and the text after it. *)
Lemma object_member_encode ind lvl p f acc tail :
  encodes ind p.2 -> delimited tail ->
  object_items (S f) (encode_item ind (S lvl) p ++ tail) acc <> Err OutOfFuel ->
  object_items (S f) (encode_item ind (S lvl) p ++ tail) acc =
    (let acc := dict_set p.1 (sort_json p.2) acc in
     let r3 := skip_ws tail in
     match next_is "}" r3 with
     | Some r4 => Ok (JObj acc, r4)
     | None =>
         match next_is "," r3 with
         | Some r4 => object_items f (skip_ws r4) acc
         | None => Err expecting_comma
         end
     end).
Proof.
  intros Hp Ht Hne. unfold encode_item, encode_string in *. cbn [app] in *.
  cbn [object_items] in *. rewrite next_is_cons in *.
  rewrite <-!app_assoc in *. cbn [app] in *. rewrite !scan_string_encode in *.
  destruct (skip_ws_key_separator ind (encode ind (S lvl) p.2 ++ tail)) as (t' & Hk & Ht').
  rewrite Hk, next_is_cons in *. rewrite Ht', skip_ws_encode in *.
  rewrite string_of_list_ascii_of_string in *.
  rewrite Hp; [done|done|]. intros Hoof. apply Hne. by rewrite Hoof.
Qed.

Lemma skip_ws_join_items ind lvl sep p ps t :
  skip_ws (join sep (List.map (encode_item ind lvl) (p :: ps)) ++ t) =
  join sep (List.map (encode_item ind lvl) (p :: ps)) ++ t.
Proof.
  assert (forall u, skip_ws (encode_item ind lvl p ++ u) = encode_item ind lvl p ++ u) as Hi
    by (intros u; unfold encode_item, encode_string; cbn [app]; apply skip_ws_head; vm_decide).
  destruct ps as [|q ps]; cbn [List.map]; [apply Hi|].
  rewrite join_cons2, <-!app_assoc. apply Hi.
Qed.

Lemma object_items_encode ind lvl p ps n acc rest :
  Forall (fun q => encodes ind q.2) (p :: ps) -> NoDup (acc.*1 ++ (p :: ps).*1) ->
  object_items n (join ("," :: newline_indent ind (S lvl)) (List.map (encode_item ind (S lvl)) (p :: ps)) ++
                  newline_indent ind lvl ++ "}" :: rest) acc <> Err OutOfFuel ->
  object_items n (join ("," :: newline_indent ind (S lvl)) (List.map (encode_item ind (S lvl)) (p :: ps)) ++
                  newline_indent ind lvl ++ "}" :: rest) acc =
  Ok (JObj (acc ++ List.map (fun q => (q.1, sort_json q.2)) (p :: ps)), rest).
Proof.
  revert p n acc. induction ps as [|q ps IH]; intros p [|f] acc HF Hnd Hne; try done;
    apply Forall_cons in HF as [Hp HF];
    (assert (p.1 ∉ acc.*1) as Hfresh by (cbn in Hnd; apply NoDup_app in Hnd as (_ & Hd & _); set_solver)).
  - cbn [List.map join] in *.
    rewrite object_member_encode by first [done | apply delimited_close; set_solver].
    cbn zeta. rewrite skip_ws_newline_indent, skip_ws_head, next_is_cons in * by vm_decide.
    by rewrite dict_set_new.
  - set (T := join ("," :: newline_indent ind (S lvl)) (List.map (encode_item ind (S lvl)) (q :: ps)) ++
                newline_indent ind lvl ++ "}" :: rest) in *.
    assert (join ("," :: newline_indent ind (S lvl)) (List.map (encode_item ind (S lvl)) (p :: q :: ps)) ++
            newline_indent ind lvl ++ "}" :: rest = encode_item ind (S lvl) p ++ "," :: newline_indent ind (S lvl) ++ T)
      as Hsplit by (unfold T; cbn [List.map]; rewrite join_cons2; by rewrite <-!app_assoc).
    rewrite Hsplit in *.
    assert (Hne' := Hne).
    rewrite object_member_encode in Hne' by first [done | apply delimited_sep].
    rewrite object_member_encode by first [done | apply delimited_sep].
    cbn zeta in *. rewrite skip_ws_head in * by vm_decide.
    rewrite next_is_other, next_is_cons in * by done.
    rewrite skip_ws_newline_indent in *. unfold T in *. rewrite skip_ws_join_items in *.
    rewrite dict_set_new in * by done.
    rewrite IH; [by rewrite <-app_assoc|done| |done].
    rewrite fmap_app, <-app_assoc. exact Hnd.
Qed.

Lemma encode_obj_items ind lvl kv :
  List.map (fun p => encode_string p.1 ++ key_separator ind ++ p.2)
    (sort_items (List.map (fun p => (p.1, encode ind lvl p.2)) kv)) =
  List.map (encode_item ind lvl) (sort_items kv).
Proof. rewrite sort_items_map, map_map. reflexivity. Qed.

Lemma encode_list ind lvl x xs :
  encode ind lvl (JList (x :: xs)) =
  "[" :: newline_indent ind (S lvl) ++
  join ("," :: newline_indent ind (S lvl)) (List.map (encode ind (S lvl)) (x :: xs)) ++
  newline_indent ind lvl ++ ["]"].
Proof. reflexivity. Qed.

Lemma encode_obj ind lvl p kv :
  encode ind lvl (JObj (p :: kv)) =
  "{" :: newline_indent ind (S lvl) ++
  join ("," :: newline_indent ind (S lvl)) (List.map (encode_item ind (S lvl)) (sort_items (p :: kv))) ++
  newline_indent ind lvl ++ ["}"].
Proof. rewrite <-encode_obj_items. reflexivity. Qed.

Lemma scan_once_list f r :
  scan_once (S f) ("[" :: r) =
  match next_is "]" (skip_ws r) with
  | Some r' => Ok (JList [], r')
  | None => array_items f (skip_ws r) []
  end.
Proof. reflexivity. Qed.

Lemma scan_once_obj f r :
  scan_once (S f) ("{" :: r) =
  match next_is "}" (skip_ws r) with
  | Some r' => Ok (JObj [], r')
  | None => object_items f (skip_ws r) []
  end.
Proof. reflexivity. Qed.

Lemma next_is_join ind lvl sep x xs t d : d ∈ ["]"; "}"] ->
  next_is d (join sep (List.map (encode ind lvl) (x :: xs)) ++ t) = None.
Proof.
  intros Hdin. destruct (encode_head ind lvl x) as (c & r & Hc & Hcn).
  destruct xs as [|y xs]; cbn [List.map]; [|rewrite join_cons2, <-app_assoc];
    rewrite Hc; cbn [app]; apply next_is_other; set_solver.
Qed.

Lemma Forall_wf_impl {A} (P : A -> Prop) (g : A -> json) l :
  Forall (fun a => json_wf (g a) = true -> P a) l -> forallb (fun a => json_wf (g a)) l = true ->
  Forall P l.
Proof.
  induction 1 as [|a l Ha _ IH]; cbn; [done|]. intros [? ?]%andb_true_iff. constructor; auto.
Qed.

Lemma next_is_join_items ind lvl sep q ps t d : d <> quote ->
  next_is d (join sep (List.map (encode_item ind lvl) (q :: ps)) ++ t) = None.
Proof.
  intros Hd. destruct ps as [|q' ps]; cbn [List.map]; [|rewrite join_cons2, <-app_assoc];
    apply next_is_other; congruence.
Qed.

Lemma scan_once_encode ind v : json_wf v = true -> encodes ind v.
Proof.
  induction v as [|b|z|s|l IHl|kv IHkv] using json_nested_ind;
    intros Hwf lvl [|f] rest Hd Hne; try done.
  - destruct b; reflexivity.
  - by apply scan_once_pretty, delimited_number_end.
  - cbn [encode sort_json] in *. unfold encode_string. cbn [app scan_once].
    rewrite bool_decide_true by done. rewrite <-app_assoc. cbn [app].
    by rewrite scan_string_encode, string_of_list_ascii_of_string.
  - destruct l as [|x xs]; [reflexivity|].
    rewrite encode_list in *. cbn [app] in *. rewrite <-!app_assoc in *.
    rewrite scan_once_list in *. rewrite skip_ws_newline_indent, skip_ws_join in *.
    rewrite next_is_join in * by set_solver.
    apply array_items_encode; [|done].
    apply (Forall_wf_impl _ id); [done|exact Hwf].
  - destruct kv as [|p kv]; [reflexivity|].
    rewrite encode_obj in *. cbn [app] in *. rewrite <-!app_assoc in *.
    rewrite scan_once_obj in *. rewrite skip_ws_newline_indent in *.
    cbn [json_wf] in Hwf. apply andb_true_iff in Hwf as [Hnd Hwf%(Forall_wf_impl _ snd _ IHkv)].
    apply bool_decide_eq_true in Hnd.
    pose proof (sort_items_perm (p :: kv)) as Hperm.
    destruct (sort_items (p :: kv)) as [|q ps] eqn:Hs; [by apply Permutation_nil_cons in Hperm|].
    rewrite skip_ws_join_items, next_is_join_items in * by done.
    cbn [sort_json]. rewrite sort_items_map, Hs.
    apply object_items_encode; [by rewrite Hperm | by rewrite Hperm | done].
Qed.

(** A printed value followed by delimited whitespace decodes back. *)
Lemma loads_encode ind v rest :
  json_wf v = true -> delimited rest -> skip_ws rest = [] ->
  loads (encode ind 0 v ++ rest) = Ok (sort_json v).
Proof.
  intros Hwf Hd Hr. unfold loads, loads_fuel. rewrite skip_ws_encode.
  rewrite (scan_once_encode _ v Hwf); [by rewrite Hr|done|].
  apply (proj1 (scan_enough _)). rewrite length_app. lia.
Qed.

(** ** Properties *)



(** C35: the body Flask writes for [jsonify(v)], compact or indented by
    two under [debug=True], decodes with [json.loads] back to [v] with
    every object's keys sorted ([sort_keys=True]), for every value whose
    objects have distinct keys; strings of any characters survive the
    [ensure_ascii] escapes. *)
Theorem response_text_roundtrip debug v :
  json_wf v = true -> loads (response_text debug v) = Ok (sort_json v).
Proof. intros Hwf. apply loads_encode; [done|cbn; set_solver|done]. Qed.

Definition sample_reservation : json :=
  JObj [("id"%string, JNum 7);
        ("customer_name"%string, JStr (string_of_list_ascii (lit "Ann " ++ [quote; backslash; "233"; "010"])));
        ("status"%string, JStr "Pending");
        ("booked_tables"%string, JList [JObj [("id"%string, JNum 1); ("table_number"%string, JStr "T1");
                                              ("capacity"%string, JNum (-4))]])].

Lemma response_text_roundtrip_witness :
  json_wf sample_reservation = true /\
  loads (response_text app_debug sample_reservation) = Ok (sort_json sample_reservation).
Proof. split; [reflexivity|]. apply response_text_roundtrip. reflexivity. Defined.

End JsonText.
