(* ===== verification/Store.v ===== *)
(** [Store]: the Entity Store.  The SQLAlchemy schema of [app.py]
    (lines 26-65) as records, the database as the rows of its four tables in
    primary-key order with one auto-increment counter per table, the SQL
    statements the handlers cause with the constraint checks the schema
    declares, and the session ([db.session]) as a monad of statements whose
    [commit] keeps their effect and whose [rollback] restores the rows.

    Column types: [db.Integer] is MySQL's signed 32-bit [INT], so the
    auto-increment ids run from 1 to [int_max]; [db.Date] and [db.Time] hold
    the parsed [date] and [time_of_day]; the [status] column holds one of
    the four strings the handlers write.  A [db.String(n)] column takes at
    most [n] characters: a longer value is MySQL's error 1406 ([DataError]
    in strict mode, the default), raised before the row takes an
    auto-increment value.  (MySQL stores a value whose excess characters
    are all spaces truncated, with a note; the model answers it with the
    error too.)  Unique string columns compare under the database
    collation, the class [SqlCollation]. *)

From S2P Require Import Prelude DateTime.
From Stdlib Require Import String.
Import Strptime.

(** String comparison in SQL: [=] in a query and the unique indexes
    compare strings under the column's collation, which the database
    sets (MySQL 8's default, [utf8mb4_0900_ai_ci], ignores case and
    accents; a binary collation compares code points).  [coll_eq] is that
    comparison. *)
Class SqlCollation := {
  coll_eq : string -> string -> bool;
  coll_eq_refl : forall s, coll_eq s s = true
}.

Module Store.
Local Open Scope Z_scope.
Local Open Scope list_scope.

Definition int_max : Z := 2 ^ 31 - 1.

(** ** The schema *)

(** The values the [status] column takes: ['Pending'] is the column's
    default, the other three are written by the handlers. *)
Inductive reservation_status := Pending | Accepted | Rejected | Cancelled.

#[export] Instance status_eq_dec : EqDecision reservation_status.
Proof. solve_decision. Defined.

Definition status_to_string (s : reservation_status) : string :=
  match s with
  | Pending => "Pending" | Accepted => "Accepted"
  | Rejected => "Rejected" | Cancelled => "Cancelled"
  end.

(** [class User] *)
Record user := mk_user {
  user_id : Z; username : string; password_hash : string;
  email : string; phone_number : string }.

(** [class DiningTable] *)
Record dining_table := mk_table {
  table_id : Z; table_number : string; capacity : Z }.

(** [class Reservation]; [res_user_id] is the nullable [user_id] column. *)
Record reservation := mk_reservation {
  res_id : Z; customer_name : string; contact_info : string;
  reservation_date : date; reservation_time : time_of_day;
  status : reservation_status; res_user_id : option Z }.

#[export] Instance user_eq_dec : EqDecision user.
Proof. solve_decision. Defined.
#[export] Instance dining_table_eq_dec : EqDecision dining_table.
Proof. solve_decision. Defined.
#[export] Instance reservation_eq_dec : EqDecision reservation.
Proof. solve_decision. Defined.

(** The database: the rows of [users], [dining_tables], [reservations] and
    [reservation_tables] (pairs [(reservation_id, table_id)], the
    composite primary key), and the next auto-increment value of each
    table with an integer primary key. *)
Record db := mk_db {
  users : list user;
  dining_tables : list dining_table;
  reservations : list reservation;
  reservation_tables : list (Z * Z);
  next_user_id : Z;
  next_table_id : Z;
  next_reservation_id : Z }.

Definition empty_db : db := mk_db [] [] [] [] 1 1 1.

(** The [db.String(n)] columns a handler writes, and their [n]
    (lines 33-36, 44-45, 63). *)
Inductive column :=
| ColUsername | ColPasswordHash | ColEmail | ColPhoneNumber
| ColTableNumber | ColCustomerName | ColContactInfo.

Definition column_width (c : column) : nat :=
  match c with
  | ColUsername => 100 | ColPasswordHash => 255 | ColEmail => 120 | ColPhoneNumber => 20
  | ColTableNumber => 10 | ColCustomerName => 100 | ColContactInfo => 100
  end.

(** The first column, in the table's column order, whose value is longer
    than the column. *)
Definition too_long (vals : list (column * string)) : option column :=
  fst <$> List.find (fun p => negb (String.length p.2 <=? column_width p.1)%nat) vals.

(** The constraints the schema declares, named by what they protect. *)
Inductive constraint :=
| UniqueUsername | UniqueEmail | UniqueTableNumber
| PkReservationTables
| FkReservationUser | FkAssocReservation | FkAssocTable.

Inductive store_error :=
| IntegrityError (c : constraint)   (** [pymysql.err.IntegrityError] *)
| DataError (c : column)            (** [pymysql.err.DataError] 1406 *)
| AutoIncrementExhausted.           (** no id left below [int_max] *)

#[export] Instance constraint_eq_dec : EqDecision constraint.
Proof. solve_decision. Defined.
#[export] Instance column_eq_dec : EqDecision column.
Proof. solve_decision. Defined.
#[export] Instance store_error_eq_dec : EqDecision store_error.
Proof. solve_decision. Defined.

(** ** Reads: [db.session.get(Model, id)] *)

Definition find_user (d : db) (uid : Z) : option user :=
  head (filter (fun u => user_id u = uid) (users d)).
Definition find_table (d : db) (tid : Z) : option dining_table :=
  head (filter (fun t => table_id t = tid) (dining_tables d)).
Definition find_reservation (d : db) (rid : Z) : option reservation :=
  head (filter (fun r => res_id r = rid) (reservations d)).

(** ** The session

    A statement runs against the session's view of the database and
    returns its result together with the new view: a failed statement
    leaves the auto-increment counters it advanced advanced. *)
Definition tx (A : Type) : Type := db -> result store_error A * db.

Definition tx_ret {A} (a : A) : tx A := fun d => (Ok a, d).
Definition tx_fail {A} (e : store_error) : tx A := fun d => (Err e, d).
Definition tx_bind {A B} (m : tx A) (k : A -> tx B) : tx B :=
  fun d => match m d with
           | (Ok a, d') => k a d'
           | (Err e, d') => (Err e, d')
           end.

Declare Scope tx_scope.
Delimit Scope tx_scope with tx.
Notation "x <-- m ;;; k" := (tx_bind m (fun x => k))
  (at level 100, m at next level, right associativity) : tx_scope.
Notation "m ;;; k" := (tx_bind m (fun _ => k))
  (at level 100, right associativity) : tx_scope.
Local Open Scope tx_scope.

(** [for x in xs: body(x)] inside a session. *)
Fixpoint tx_iter {A} (body : A -> tx unit) (xs : list A) : tx unit :=
  match xs with
  | [] => tx_ret tt
  | x :: xs' => body x ;;; tx_iter body xs'
  end.

(** [db.session.commit()] after the statements of [m], or
    [db.session.rollback()] when one of them raised: the rows come back,
    the counters do not (InnoDB does not give back auto-increment
    values). *)
Definition run_session {A} (m : tx A) (d : db) : result store_error A * db :=
  match m d with
  | (Ok a, d') => (Ok a, d')
  | (Err e, d') =>
      (Err e, mk_db (users d) (dining_tables d) (reservations d) (reservation_tables d)
                    (next_user_id d') (next_table_id d') (next_reservation_id d'))
  end.

(** ** Statements *)

(** Copies of a database with one component replaced. *)
Definition with_users (d : db) (us : list user) (n : Z) : db :=
  mk_db us (dining_tables d) (reservations d) (reservation_tables d)
        n (next_table_id d) (next_reservation_id d).
Definition with_tables (d : db) (ts : list dining_table) (n : Z) : db :=
  mk_db (users d) ts (reservations d) (reservation_tables d)
        (next_user_id d) n (next_reservation_id d).
Definition with_reservations (d : db) (rs : list reservation) (rts : list (Z * Z)) (n : Z) : db :=
  mk_db (users d) (dining_tables d) rs rts (next_user_id d) (next_table_id d) n.

Section with_collation.
Context `{SqlCollation}.

(** A value some row already holds in a unique column, under the
    collation. *)
Definition taken {A} (key : A -> string) (rows : list A) (s : string) : bool :=
  existsb (fun x => coll_eq (key x) s) rows.

(** [INSERT INTO users]: the auto-increment value is taken first, then the
    unique keys [username] and [email] are checked. *)
Definition insert_user (uname pw mail phone : string) : tx Z := fun d =>
  if too_long [(ColUsername, uname); (ColPasswordHash, pw); (ColEmail, mail); (ColPhoneNumber, phone)]
    is Some c then (Err (DataError c), d) else
  let uid := next_user_id d in
  if bool_decide (int_max < uid) then (Err AutoIncrementExhausted, d) else
  let d1 := with_users d (users d) (uid + 1) in
  if taken username (users d) uname then (Err (IntegrityError UniqueUsername), d1)
  else if taken email (users d) mail then (Err (IntegrityError UniqueEmail), d1)
  else (Ok uid, with_users d (users d ++ [mk_user uid uname pw mail phone]) (uid + 1)).

(** [INSERT INTO dining_tables]: [table_number] is unique. *)
Definition insert_table (number : string) (cap : Z) : tx Z := fun d =>
  if too_long [(ColTableNumber, number)] is Some c then (Err (DataError c), d) else
  let tid := next_table_id d in
  if bool_decide (int_max < tid) then (Err AutoIncrementExhausted, d) else
  let d1 := with_tables d (dining_tables d) (tid + 1) in
  if taken table_number (dining_tables d) number
  then (Err (IntegrityError UniqueTableNumber), d1)
  else (Ok tid, with_tables d (dining_tables d ++ [mk_table tid number cap]) (tid + 1)).

End with_collation.

(** [INSERT INTO reservations] at the [flush()] of a new [Reservation]:
    the status takes the column default ['Pending']; a non-null
    [user_id] must reference a user. *)
Definition insert_reservation (name contact : string) (dt : date) (tm : time_of_day)
    (uid : option Z) : tx Z := fun d =>
  if too_long [(ColCustomerName, name); (ColContactInfo, contact)] is Some c then (Err (DataError c), d) else
  let rid := next_reservation_id d in
  if bool_decide (int_max < rid) then (Err AutoIncrementExhausted, d) else
  let d1 := with_reservations d (reservations d) (reservation_tables d) (rid + 1) in
  let inserted := with_reservations d
    (reservations d ++ [mk_reservation rid name contact dt tm Pending uid])
    (reservation_tables d) (rid + 1) in
  match uid with
  | Some u =>
      if bool_decide (u ∈ user_id <$> users d) then (Ok rid, inserted)
      else (Err (IntegrityError FkReservationUser), d1)
  | None => (Ok rid, inserted)
  end.

(** [INSERT INTO reservation_tables]: the foreign keys are checked before
    the composite primary key, as InnoDB does. *)
Definition insert_reservation_table (rid tid : Z) : tx unit := fun d =>
  if bool_decide (rid ∉ res_id <$> reservations d) then (Err (IntegrityError FkAssocReservation), d)
  else if bool_decide (tid ∉ table_id <$> dining_tables d) then (Err (IntegrityError FkAssocTable), d)
  else if bool_decide ((rid, tid) ∈ reservation_tables d) then (Err (IntegrityError PkReservationTables), d)
  else (Ok tt, with_reservations d (reservations d) (reservation_tables d ++ [(rid, tid)])
                                   (next_reservation_id d)).

(** [UPDATE reservations SET status = ... WHERE id = rid], flushed at the
    [commit()] after [reservation.status = ...]. *)
Definition set_status (st : reservation_status) (r : reservation) : reservation :=
  mk_reservation (res_id r) (customer_name r) (contact_info r)
    (reservation_date r) (reservation_time r) st (res_user_id r).

Definition update_status (rid : Z) (st : reservation_status) : tx unit := fun d =>
  (Ok tt, with_reservations d
            ((fun r => if bool_decide (res_id r = rid) then set_status st r else r) <$> reservations d)
            (reservation_tables d) (next_reservation_id d)).

(** [db.session.delete(reservation)]: SQLAlchemy first deletes the rows of
    the secondary table [reservation_tables], then the reservation. *)
Definition delete_reservation_rows (rid : Z) : tx unit := fun d =>
  (Ok tt, with_reservations d
            (filter (fun r => res_id r <> rid) (reservations d))
            (filter (fun rt => rt.1 <> rid) (reservation_tables d))
            (next_reservation_id d)).

(** ** Well-formedness of the store *)

Definition ids_in_range (next : Z) (ids : list Z) : Prop :=
  Forall (fun i => 1 <= i < next) ids.

Definition counter_ok (n : Z) : Prop := 1 <= n <= int_max + 1.

(** What the schema's constraints and the counters guarantee of the rows. *)
Record wf (d : db) : Prop := {
  wf_users_pk : NoDup (user_id <$> users d);
  wf_users_username : NoDup (username <$> users d);
  wf_users_email : NoDup (email <$> users d);
  wf_tables_pk : NoDup (table_id <$> dining_tables d);
  wf_tables_number : NoDup (table_number <$> dining_tables d);
  wf_reservations_pk : NoDup (res_id <$> reservations d);
  wf_assoc_pk : NoDup (reservation_tables d);
  wf_assoc_fk_res : Forall (fun rt => rt.1 ∈ res_id <$> reservations d) (reservation_tables d);
  wf_assoc_fk_table : Forall (fun rt => rt.2 ∈ table_id <$> dining_tables d) (reservation_tables d);
  wf_res_fk_user : Forall (fun r => forall u, res_user_id r = Some u -> u ∈ user_id <$> users d)
                          (reservations d);
  wf_user_ids : ids_in_range (next_user_id d) (user_id <$> users d);
  wf_table_ids : ids_in_range (next_table_id d) (table_id <$> dining_tables d);
  wf_res_ids : ids_in_range (next_reservation_id d) (res_id <$> reservations d);
  wf_next_user : counter_ok (next_user_id d);
  wf_next_table : counter_ok (next_table_id d);
  wf_next_res : counter_ok (next_reservation_id d) }.

Definition counters_le (d d' : db) : Prop :=
  next_user_id d <= next_user_id d' /\ next_table_id d <= next_table_id d'
  /\ next_reservation_id d <= next_reservation_id d'.

(** A session program keeps the store well formed whether it succeeds or
    fails, and never moves a counter back. *)
Definition tx_wf {A} (m : tx A) : Prop :=
  forall d, wf d -> wf (m d).2 /\ counters_le d (m d).2.

Lemma ids_in_range_mono n n' ids : ids_in_range n ids -> n <= n' -> ids_in_range n' ids.
Proof. intros H Hn. eapply Forall_impl; [exact H|]. simpl. lia. Qed.

Lemma ids_in_range_fresh n ids : ids_in_range n ids -> n ∉ ids.
Proof. intros H Hin. eapply Forall_forall in H; [|exact Hin]. simpl in H. lia. Qed.

Lemma ids_in_range_snoc n ids :
  ids_in_range n ids -> 1 <= n -> ids_in_range (n + 1) (ids ++ [n]).
Proof.
  intros H Hn. apply Forall_app. split; [eapply ids_in_range_mono; [done|lia]|].
  constructor; [lia|constructor].
Qed.

#[export] Hint Resolve ids_in_range_fresh ids_in_range_snoc : rr.

(** Raising the counters keeps the rows well formed: this covers the
    failed statements and the rollback. *)
Lemma wf_raise_counters d nu nt nr :
  wf d -> next_user_id d <= nu -> next_table_id d <= nt -> next_reservation_id d <= nr ->
  counter_ok nu -> counter_ok nt -> counter_ok nr ->
  wf (mk_db (users d) (dining_tables d) (reservations d) (reservation_tables d) nu nt nr).
Proof.
  intros [] ??????. constructor; simpl; try done; eapply ids_in_range_mono; eauto.
Qed.

(** Values that fit their columns pass the length check. *)
Lemma too_long_fits vals :
  Forall (fun p => (String.length p.2 <= column_width p.1)%nat) vals -> too_long vals = None.
Proof.
  intros Hv. unfold too_long. destruct (List.find _ vals) as [p|] eqn:E; [|done].
  apply List.find_some in E as [Hp Hl]. apply list_elem_of_In in Hp.
  rewrite Forall_forall in Hv. specialize (Hv p Hp). apply negb_true_iff, Nat.leb_gt in Hl. lia.
Qed.

Lemma too_long_None vals :
  too_long vals = None -> Forall (fun p => (String.length p.2 <= column_width p.1)%nat) vals.
Proof.
  unfold too_long. intros Hn. apply Forall_forall. intros p Hp%list_elem_of_In.
  destruct (List.find _ vals) eqn:E; [done|]. pose proof (List.find_none _ _ E p Hp) as Hf.
  apply negb_false_iff, Nat.leb_le in Hf. done.
Qed.

(** Discharge [too_long vals = None] from a length hypothesis per value. *)
Ltac fits := apply too_long_fits; repeat (apply Forall_cons_2; [assumption|]); apply Forall_nil_2.

Lemma counters_le_refl d : counters_le d d.
Proof. unfold counters_le. lia. Qed.

#[export] Hint Resolve counters_le_refl : rr.

Lemma tx_wf_ret {A} (a : A) : tx_wf (tx_ret a).
Proof. intros d Hd. split; [done|]. apply counters_le_refl. Qed.

Lemma tx_wf_fail {A} e : tx_wf (@tx_fail A e).
Proof. intros d Hd. split; [done|]. apply counters_le_refl. Qed.

Lemma tx_wf_bind {A B} (m : tx A) (k : A -> tx B) :
  tx_wf m -> (forall a, tx_wf (k a)) -> tx_wf (tx_bind m k).
Proof.
  intros Hm Hk d Hd. unfold tx_bind. destruct (Hm d Hd) as [Hd1 Hc1].
  destruct (m d) as [[a|e] d1]; simpl in *; [|done].
  destruct (Hk a d1 Hd1) as [Hd2 Hc2]. split; [done|].
  unfold counters_le in *. lia.
Qed.

Lemma tx_wf_iter {A} (body : A -> tx unit) xs :
  (forall x, tx_wf (body x)) -> tx_wf (tx_iter body xs).
Proof.
  intros Hb. induction xs as [|x xs IH]; simpl; [apply tx_wf_ret|].
  by apply tx_wf_bind.
Qed.

Lemma run_session_wf {A} (m : tx A) d :
  tx_wf m -> wf d -> wf (run_session m d).2.
Proof.
  intros Hm Hd. unfold run_session. destruct (Hm d Hd) as [Hd' Hc].
  destruct (m d) as [[a|e] d']; simpl in *; [done|].
  destruct Hc as (? & ? & ?).
  apply wf_raise_counters; try done; apply Hd'.
Qed.

#[export] Hint Resolve tx_wf_ret tx_wf_fail tx_wf_bind tx_wf_iter run_session_wf : rr.

(** ** Each statement keeps the store well formed *)

Ltac counters := unfold counters_le, counter_ok in *; simpl in *; lia.

(** The goals left by [constructor] on [wf] after a row is appended. *)
Ltac wf_goal :=
  first [ done | solve [auto with rr] | counters
        | (apply ids_in_range_snoc; [done|counters])
        | match goal with
          | H : Forall _ ?l |- Forall _ ?l =>
              eapply Forall_impl; [exact H|]; intros ? Hx;
              first [ set_solver | intros ? Hu; specialize (Hx _ Hu); set_solver ]
          end ].

(** Taking an auto-increment value without inserting a row. *)
Lemma wf_take_id_user d :
  wf d -> next_user_id d <= int_max -> wf (with_users d (users d) (next_user_id d + 1)).
Proof. intros Hd ?. pose proof Hd as []. apply wf_raise_counters; try done; counters. Qed.
Lemma wf_take_id_table d :
  wf d -> next_table_id d <= int_max -> wf (with_tables d (dining_tables d) (next_table_id d + 1)).
Proof. intros Hd ?. pose proof Hd as []. apply wf_raise_counters; try done; counters. Qed.
Lemma wf_take_id_res d :
  wf d -> next_reservation_id d <= int_max ->
  wf (with_reservations d (reservations d) (reservation_tables d) (next_reservation_id d + 1)).
Proof. intros Hd ?. pose proof Hd as []. apply wf_raise_counters; try done; counters. Qed.

Section with_collation_lemmas.
Context `{SqlCollation}.

Lemma taken_elem {A} (key : A -> string) rows s : s ∈ key <$> rows -> taken key rows s = true.
Proof.
  intros (x & -> & Hx)%list_elem_of_fmap. apply existsb_exists. exists x.
  split; [by apply list_elem_of_In|apply coll_eq_refl].
Qed.

(** A value no row holds under the collation is held by no row. *)
Lemma taken_false {A} (key : A -> string) rows s : taken key rows s = false -> s ∉ key <$> rows.
Proof. intros Ht Hin%taken_elem. congruence. Qed.

Lemma insert_user_wf uname pw mail phone : tx_wf (insert_user uname pw mail phone).
Proof.
  intros d Hd. unfold insert_user.
  destruct (too_long _); [split; [done|apply counters_le_refl]|].
  case_bool_decide as Hmax; [split; [done|apply counters_le_refl]|].
  pose proof (wf_next_user d Hd).
  destruct (taken username _ _) eqn:Hu; [split; [apply wf_take_id_user; [done|counters]|counters]|].
  destruct (taken email _ _) eqn:He; [split; [apply wf_take_id_user; [done|counters]|counters]|].
  apply taken_false in Hu, He.
  split; [|counters].
  destruct Hd; constructor; simpl; rewrite ?fmap_app; simpl; wf_goal.
Qed.

Lemma insert_table_wf number cap : tx_wf (insert_table number cap).
Proof.
  intros d Hd. unfold insert_table.
  destruct (too_long _); [split; [done|apply counters_le_refl]|].
  case_bool_decide as Hmax; [split; [done|apply counters_le_refl]|].
  pose proof (wf_next_table d Hd).
  destruct (taken table_number _ _) eqn:Hn; [split; [apply wf_take_id_table; [done|counters]|counters]|].
  apply taken_false in Hn.
  split; [|counters].
  destruct Hd; constructor; simpl; rewrite ?fmap_app; simpl; wf_goal.
Qed.

End with_collation_lemmas.

Lemma insert_reservation_wf name contact dt tm uid :
  tx_wf (insert_reservation name contact dt tm uid).
Proof.
  intros d Hd. unfold insert_reservation.
  try (destruct (too_long _); [split; [done|apply counters_le_refl]|]).
  case_bool_decide as Hmax; [split; [done|apply counters_le_refl]|].
  pose proof (wf_next_res d Hd).
  assert (Hins : (forall u, uid = Some u -> u ∈ user_id <$> users d) ->
    wf (with_reservations d (reservations d ++ [mk_reservation (next_reservation_id d)
          name contact dt tm Pending uid]) (reservation_tables d) (next_reservation_id d + 1))).
  { intros Hu. destruct Hd; constructor; simpl; rewrite ?fmap_app; simpl; try wf_goal.
    apply Forall_app. split; [done|]. by constructor. }
  destruct uid as [u|]; [case_bool_decide as Hu|];
    (split; [|counters]); [| apply wf_take_id_res; [done|counters] |];
    apply Hins; by intros ? [= <-].
Qed.

Lemma insert_reservation_table_wf rid tid : tx_wf (insert_reservation_table rid tid).
Proof.
  intros d Hd. unfold insert_reservation_table.
  repeat (case_bool_decide; [split; [done|apply counters_le_refl]|]).
  split; [|counters].
  destruct Hd; constructor; simpl; try done.
  - by apply NoDup_snoc.
  - apply Forall_app. split; [done|]. constructor; [|done]. simpl. tauto.
  - apply Forall_app. split; [done|]. constructor; [|done]. simpl. tauto.
Qed.

Lemma set_status_res_id st rid (rs : list reservation) :
  res_id <$> ((fun r => if bool_decide (res_id r = rid) then set_status st r else r) <$> rs)
  = res_id <$> rs.
Proof.
  rewrite <- list_fmap_compose. apply list_fmap_ext. intros i r _. simpl.
  by case_bool_decide.
Qed.

Lemma update_status_wf rid st : tx_wf (update_status rid st).
Proof.
  intros d Hd. split; [simpl|counters].
  destruct Hd; constructor; simpl; rewrite ?set_status_res_id; try done.
  apply Forall_fmap. eapply Forall_impl; [done|]. intros r Hr u. simpl.
  case_bool_decide; apply Hr.
Qed.

Lemma delete_reservation_rows_wf rid : tx_wf (delete_reservation_rows rid).
Proof.
  intros d Hd. split; [simpl|counters].
  destruct Hd; constructor; simpl; try done.
  - by apply NoDup_filter_map_fst.
  - by apply NoDup_filter.
  - apply Forall_forall. intros [r t] Hrt.
    apply list_elem_of_filter in Hrt as [Hne Hrt].
    eapply Forall_forall in wf_assoc_fk_res0; [|exact Hrt]. simpl in *.
    apply list_elem_of_fmap in wf_assoc_fk_res0 as (x & -> & Hx).
    apply list_elem_of_fmap. exists x. split; [done|]. by apply list_elem_of_filter.
  - by apply Forall_filter_l.
  - by apply Forall_filter_l.
  - unfold ids_in_range. rewrite Forall_fmap. apply Forall_filter_l.
    by apply Forall_fmap.
Qed.

#[export] Hint Resolve insert_user_wf insert_table_wf insert_reservation_wf
  insert_reservation_table_wf update_status_wf delete_reservation_rows_wf : rr.

(** ** Rollback *)

(** The rows of two databases coincide; the counters may differ. *)
Definition same_rows (d d' : db) : Prop :=
  users d' = users d /\ dining_tables d' = dining_tables d /\
  reservations d' = reservations d /\ reservation_tables d' = reservation_tables d.

Lemma same_rows_refl d : same_rows d d.
Proof. done. Qed.

Lemma run_session_Err_rows {A} (m : tx A) d e d' :
  run_session m d = (Err e, d') -> same_rows d d'.
Proof.
  unfold run_session. destruct (m d) as [[a|e'] d1]; [discriminate|].
  intros [= <- <-]. done.
Qed.

(** A program that succeeds is committed as it ran. *)
Lemma run_session_total {A} (m : tx A) d a : (m d).1 = Ok a -> run_session m d = m d.
Proof. unfold run_session. destruct (m d) as [[] ?]; simpl; congruence. Qed.

#[export] Hint Resolve same_rows_refl : rr.

(** ** The insert loop of [create_reservation] *)

Lemma insert_reservation_table_tables rid tid d :
  dining_tables (insert_reservation_table rid tid d).2 = dining_tables d.
Proof. unfold insert_reservation_table. by repeat case_bool_decide. Qed.

(** When every table exists and no pair is present yet, the loop appends
    one row per table id, in the order of the list. *)
Lemma tx_iter_insert_ok rid tids d :
  rid ∈ res_id <$> reservations d ->
  Forall (fun t => t ∈ table_id <$> dining_tables d) tids -> NoDup tids ->
  Forall (fun t => (rid, t) ∉ reservation_tables d) tids ->
  tx_iter (insert_reservation_table rid) tids d =
    (Ok tt, with_reservations d (reservations d)
              (reservation_tables d ++ ((fun t => (rid, t)) <$> tids))
              (next_reservation_id d)).
Proof.
  revert d. induction tids as [|t tids IH]; intros d Hr Ht Hnd Hfresh.
  - destruct d; simpl. by rewrite app_nil_r.
  - apply Forall_cons in Ht as [Ht Hts]. apply NoDup_cons in Hnd as [Hnin Hnd].
    apply Forall_cons in Hfresh as [Hf Hfs].
    simpl. unfold tx_bind, insert_reservation_table at 1.
    rewrite !bool_decide_false by tauto. rewrite IH; simpl; try done.
    + by rewrite <- app_assoc.
    + apply Forall_forall. intros t' Ht'in Hin.
      apply elem_of_app in Hin as [Hin|?%list_elem_of_singleton].
      * eapply Forall_forall in Hfs; [exact (Hfs Hin)|exact Ht'in].
      * simplify_eq. done.
Qed.

(** Conversely, a loop that succeeds has appended one row per table id,
    and every id named a table. *)
Lemma tx_iter_insert_Ok rid tids d d' :
  tx_iter (insert_reservation_table rid) tids d = (Ok tt, d') ->
  d' = with_reservations d (reservations d)
         (reservation_tables d ++ ((fun t => (rid, t)) <$> tids)) (next_reservation_id d) /\
  Forall (fun t => t ∈ table_id <$> dining_tables d) tids.
Proof.
  revert d. induction tids as [|t tids IH]; intros d E.
  - injection E as <-. destruct d; simpl. by rewrite app_nil_r.
  - simpl in E. unfold tx_bind, insert_reservation_table at 1 in E.
    repeat case_bool_decide; try discriminate.
    apply IH in E as [-> Hts]. simpl in *. split.
    + by rewrite <- app_assoc.
    + by constructor.
Qed.

(** An insert of a reservation that succeeds took the counter's id and
    appended a Pending reservation. *)
Lemma insert_reservation_Ok name contact dt tm uid d rid d' :
  insert_reservation name contact dt tm uid d = (Ok rid, d') ->
  rid = next_reservation_id d /\
  d' = with_reservations d
         (reservations d ++ [mk_reservation rid name contact dt tm Pending uid])
         (reservation_tables d) (rid + 1).
Proof.
  unfold insert_reservation. try (destruct (too_long _); [discriminate|]). case_bool_decide; [discriminate|].
  destruct uid; [case_bool_decide|]; intros; by simplify_eq.
Qed.

(** A table id that names no table makes the loop fail. *)
Lemma tx_iter_insert_missing rid tids t d :
  t ∈ tids -> t ∉ table_id <$> dining_tables d ->
  exists e d', tx_iter (insert_reservation_table rid) tids d = (Err e, d').
Proof.
  revert d. induction tids as [|t' tids IH]; intros d Hin Hnot; [by apply elem_of_nil in Hin|].
  simpl. unfold tx_bind.
  destruct (insert_reservation_table rid t' d) as [[[]|e] d1] eqn:E; [|eauto].
  apply elem_of_cons in Hin as [->|Hin].
  - unfold insert_reservation_table in E. repeat case_bool_decide; try discriminate; tauto.
  - apply IH; [done|]. pose proof (insert_reservation_table_tables rid t' d) as Ht.
    rewrite E in Ht. simpl in Ht. by rewrite Ht.
Qed.

(** ** A decision procedure for [wf] *)

Definition wfb (d : db) : bool :=
  bool_decide (NoDup (user_id <$> users d)) && bool_decide (NoDup (username <$> users d))
  && bool_decide (NoDup (email <$> users d)) && bool_decide (NoDup (table_id <$> dining_tables d))
  && bool_decide (NoDup (table_number <$> dining_tables d))
  && bool_decide (NoDup (res_id <$> reservations d)) && bool_decide (NoDup (reservation_tables d))
  && bool_decide (Forall (fun rt => rt.1 ∈ res_id <$> reservations d) (reservation_tables d))
  && bool_decide (Forall (fun rt => rt.2 ∈ table_id <$> dining_tables d) (reservation_tables d))
  && forallb (fun r => match res_user_id r with
                       | Some u => bool_decide (u ∈ user_id <$> users d) | None => true end)
       (reservations d)
  && bool_decide (ids_in_range (next_user_id d) (user_id <$> users d))
  && bool_decide (ids_in_range (next_table_id d) (table_id <$> dining_tables d))
  && bool_decide (ids_in_range (next_reservation_id d) (res_id <$> reservations d))
  && bool_decide (counter_ok (next_user_id d)) && bool_decide (counter_ok (next_table_id d))
  && bool_decide (counter_ok (next_reservation_id d)).

Lemma wfb_sound d : wfb d = true -> wf d.
Proof.
  unfold wfb. rewrite !andb_true_iff, !bool_decide_eq_true, forallb_forall.
  intros [[[[[[[[[[[[[[[? ?] ?] ?] ?] ?] ?] ?] ?] Hu] ?] ?] ?] ?] ?] ?].
  constructor; try done.
  apply Forall_forall. intros r Hr u Hru. apply list_elem_of_In, Hu in Hr.
  rewrite Hru in Hr. by apply bool_decide_eq_true in Hr.
Qed.

Lemma empty_db_wf : wf empty_db.
Proof. apply wfb_sound. reflexivity. Qed.

(** ** Properties *)

(** Uniqueness of [table_number] (spec, section 8): inserting a
    dining table under a number already taken fails with the unique-key
    error and, once the session rolls back, leaves every row as it was;
    a fresh number with an id left is inserted under the counter's id. *)
Section table_unique.
Context `{SqlCollation}.

Lemma insert_table_unique number cap d :
  (String.length number <= column_width ColTableNumber)%nat -> next_table_id d <= int_max ->
  (taken table_number (dining_tables d) number = true ->
   exists d', run_session (insert_table number cap) d = (Err (IntegrityError UniqueTableNumber), d') /\
     same_rows d d') /\
  (taken table_number (dining_tables d) number = false ->
   run_session (insert_table number cap) d =
     (Ok (next_table_id d),
      with_tables d (dining_tables d ++ [mk_table (next_table_id d) number cap]) (next_table_id d + 1))).
Proof.
  intros Hlen Hmax. unfold run_session, insert_table. assert (too_long [(ColTableNumber, number)] = None) as -> by fits.
  rewrite bool_decide_false by lia. split.
  - intros Hin. rewrite Hin. by eexists.
  - intros Hnin. by rewrite Hnin.
Qed.

End table_unique.

(** The binary collation (code points compared), which runs the
    witnesses. *)
Definition binary_collation : SqlCollation :=
  {| coll_eq := String.eqb; coll_eq_refl := String.eqb_refl |}.

(** ** Witnesses *)

#[local] Existing Instance binary_collation.

Lemma insert_table_unique_witness :
  (exists d', run_session (insert_table "T1" 2) (run_session (insert_table "T1" 4) empty_db).2 =
     (Err (IntegrityError UniqueTableNumber), d') /\
     same_rows (run_session (insert_table "T1" 4) empty_db).2 d') /\
  run_session (insert_table "T2" 2) (run_session (insert_table "T1" 4) empty_db).2 =
    (Ok 2, mk_db [] [mk_table 1 "T1" 4; mk_table 2 "T2" 2] [] [] 1 3 1).
Proof.
  split.
  - apply (insert_table_unique "T1" 2 (run_session (insert_table "T1" 4) empty_db).2); vm_decide.
  - apply (insert_table_unique "T2" 2 (run_session (insert_table "T1" 4) empty_db).2); vm_decide.
Defined.

End Store.
