(* ===== verification/Availability.v ===== *)
(** [Availability]: the Availability Resolver, [get_table_status]
    ([app.py] lines 96-106).

    The handler parses the [date] argument with ['%Y-%m-%d'] but passes
    the [time] argument to the query as the raw string (line 102), which
    MySQL converts to a [TIME] to compare it with the column.  That
    conversion belongs to the database server: the class
    [SqlTimeCompare] states what every conversion consistent with MySQL
    does on the strings ['%H:%M'] accepts, and leaves the other strings
    open; the lemmas hold for every instance.  [parsed_time_compare] is
    the instance the witnesses run with. *)

From S2P Require Import Prelude DateTime Json Store.
From Stdlib Require Import String.
Import Strptime Json Store.

Class SqlTimeCompare := {
  sql_time_eq : time_of_day -> string -> bool;
  sql_time_eq_hm : forall t s t', parse_time s = Ok t' -> sql_time_eq t s = bool_decide (t = t')
}.

(** The conversion that accepts exactly the strings of ['%H:%M']. *)
#[export] Instance parsed_time_compare : SqlTimeCompare.
Proof.
  refine {| sql_time_eq t s :=
              match parse_time s with Ok t' => bool_decide (t = t') | Err _ => false end |}.
  intros t s t' ->. reflexivity.
Defined.

Module Availability.
Local Open Scope Z_scope.
Local Open Scope list_scope.

(** [Reservation.status.in_(['Pending', 'Accepted'])] *)
Definition holds_table (st : reservation_status) : bool :=
  match st with Pending | Accepted => true | Rejected | Cancelled => false end.

(** The predicate of the spec (section 3): a table is occupied for a slot
    when a Pending or Accepted reservation of that exact slot holds it. *)
Definition holds_slot (d : db) (dt : date) (tm : time_of_day) (tid : Z) (r : reservation) : Prop :=
  r ∈ reservations d /\ (res_id r, tid) ∈ reservation_tables d /\
  reservation_date r = dt /\ reservation_time r = tm /\ holds_table (status r) = true.

Definition occupied (d : db) (dt : date) (tm : time_of_day) (tid : Z) : Prop :=
  exists r, holds_slot d dt tm tid r.


Record table_status_row := mk_row { row_table : dining_table; row_is_booked : bool }.

Definition row_to_json (row : table_status_row) : json :=
  JObj [("id", JNum (table_id (row_table row)));
        ("table_number", JStr (table_number (row_table row)));
        ("capacity", JNum (capacity (row_table row)));
        ("is_booked", JBool (row_is_booked row))].

Definition strptime_message (e : strptime_error) : string :=
  match e with
  | DoesNotMatch => "time data does not match format"
  | UnconvertedData => "unconverted data remains"
  | OutOfRange => "day is out of range for month"
  end.

Section with_time_compare.
Context `{SqlTimeCompare}.

(** The [filter] of the subquery on the joined reservation. *)
Definition slot_filter (dt : date) (tm : string) (r : reservation) : bool :=
  bool_decide (reservation_date r = dt) && sql_time_eq (reservation_time r) tm
  && holds_table (status r).

(** [booked_ids]: the [table_id] of every row of [reservation_tables]
    joined ([.join(Reservation)]) to a reservation that passes the
    filter, as a set. *)
Definition booked_ids (d : db) (dt : date) (tm : string) : list Z :=
  flat_map (fun rt =>
    flat_map (fun r => if bool_decide (res_id r = rt.1) && slot_filter dt tm r
                       then [rt.2] else [])
             (reservations d))
    (reservation_tables d).

(** [DiningTable.query.all()] in primary-key order, each with
    [table.id in booked_ids]. *)
Definition table_status_rows (d : db) (dt : date) (tm : string) : list table_status_row :=
  let booked := booked_ids d dt tm in
  (fun t => mk_row t (bool_decide (table_id t ∈ booked))) <$> dining_tables d.

Definition get_table_status (date_arg time_arg : option string) (d : db) : response :=
  match date_arg, time_arg with
  | Some ds, Some ts =>
      if String.eqb ds "" || String.eqb ts "" then
        error_response 400 "Date and time query parameters are required"
      else
        match parse_date ds with
        | Err e => error_response 500 (strptime_message e)
        | Ok dt => mk_response 200 (JList (row_to_json <$> table_status_rows d dt ts))
        end
  | _, _ => error_response 400 "Date and time query parameters are required"
  end.

(** ** The subquery *)

Lemma booked_ids_spec d dt ts tid :
  tid ∈ booked_ids d dt ts <->
  exists r, r ∈ reservations d /\ (res_id r, tid) ∈ reservation_tables d /\
    slot_filter dt ts r = true.
Proof.
  unfold booked_ids. rewrite list_elem_of_In, in_flat_map. split.
  - intros ([rid t] & Hrt & Hin). apply in_flat_map in Hin as (r & Hr & Hin).
    destruct (bool_decide (res_id r = (rid, t).1) && slot_filter dt ts r) eqn:E;
      [|destruct Hin].
    destruct Hin as [<-|[]]. apply andb_true_iff in E as [E1 E2].
    apply bool_decide_eq_true in E1. simpl in *. subst.
    exists r. rewrite !list_elem_of_In. auto.
  - intros (r & Hr & Hrt & Hf). exists (res_id r, tid).
    rewrite <- list_elem_of_In. split; [done|].
    apply in_flat_map. exists r. rewrite <- list_elem_of_In. split; [done|].
    simpl. rewrite bool_decide_true, Hf by done. by left.
Qed.

Lemma slot_filter_hm dt ts tm r :
  parse_time ts = Ok tm ->
  slot_filter dt ts r = true <->
  reservation_date r = dt /\ reservation_time r = tm /\ holds_table (status r) = true.
Proof.
  intros Hts. unfold slot_filter. rewrite (sql_time_eq_hm _ _ _ Hts).
  rewrite !andb_true_iff, !bool_decide_eq_true. tauto.
Qed.

Lemma booked_ids_occupied d dt ts tm tid :
  parse_time ts = Ok tm -> tid ∈ booked_ids d dt ts <-> occupied d dt tm tid.
Proof.
  intros Hts. rewrite booked_ids_spec. unfold occupied, holds_slot.
  setoid_rewrite (slot_filter_hm dt ts tm _ Hts). naive_solver.
Qed.

Lemma parse_date_nonempty ds dt : parse_date ds = Ok dt -> String.eqb ds "" = false.
Proof. intros Hp. apply String.eqb_neq. intros ->. discriminate Hp. Qed.

Lemma parse_time_nonempty ts tm : parse_time ts = Ok tm -> String.eqb ts "" = false.
Proof. intros Hp. apply String.eqb_neq. intros ->. discriminate Hp. Qed.

(** A valid date and a non-empty time reach the query. *)
Lemma get_table_status_rows d ds ts dt :
  parse_date ds = Ok dt -> ts <> "" ->
  get_table_status (Some ds) (Some ts) d = mk_response 200 (JList (row_to_json <$> table_status_rows d dt ts)).
Proof.
  intros Hds Hts%String.eqb_neq. unfold get_table_status.
  by rewrite (parse_date_nonempty _ _ Hds), Hts, Hds.
Qed.

(** A row of [table_status_rows] is booked exactly when its table is
    occupied. *)
Lemma table_status_rows_occupied d dt ts tm :
  parse_time ts = Ok tm ->
  Forall (fun row => row_is_booked row = true <-> occupied d dt tm (table_id (row_table row)))
    (table_status_rows d dt ts).
Proof.
  intros Hts. apply Forall_fmap, Forall_forall. intros t _. simpl.
  rewrite bool_decide_eq_true. by apply booked_ids_occupied.
Qed.


(** ** Properties *)


(** C3: for a date and a time the formats accept, [get_table_status]
    answers 200 with one row per dining table, in the order of
    [DiningTable.query.all()], and a row says [is_booked] exactly when a
    Pending or Accepted reservation of that slot holds the table (the
    availability predicate of the spec, section 3). *)
Theorem get_table_status_occupied d ds ts dt tm :
  parse_date ds = Ok dt -> parse_time ts = Ok tm ->
  exists rows,
    get_table_status (Some ds) (Some ts) d = mk_response 200 (JList (row_to_json <$> rows)) /\
    row_table <$> rows = dining_tables d /\
    Forall (fun row => row_is_booked row = true <-> occupied d dt tm (table_id (row_table row)))
      rows.
Proof.
  intros Hds Hts. exists (table_status_rows d dt ts).
  rewrite (get_table_status_rows d ds ts dt Hds) by (apply String.eqb_neq, (parse_time_nonempty _ _ Hts)).
  split; [done|]. split; [|by apply table_status_rows_occupied].
  unfold table_status_rows. by rewrite <- list_fmap_compose, list_fmap_id.
Qed.

(** A missing or empty [date] or [time] argument is answered with 400. *)
Lemma get_table_status_missing date_arg time_arg d :
  date_arg = None \/ date_arg = Some "" \/ time_arg = None \/ time_arg = Some "" ->
  get_table_status date_arg time_arg d =
    error_response 400 "Date and time query parameters are required".
Proof.
  intros Hmiss. unfold get_table_status.
  destruct date_arg as [ds|], time_arg as [ts|]; try done.
  destruct Hmiss as [?|[[= ->]|[?|[= ->]]]]; try discriminate; simpl;
    [done | by rewrite orb_true_r].
Qed.

(** C28: a [date] argument that ['%Y-%m-%d'] rejects is answered with 500,
    the [ValueError] caught by the handler's [except Exception], and not
    with the 400 [InvalidDate] of the spec (section 4.2). *)
Theorem get_table_status_bad_date d ds ts e :
  ds <> "" -> ts <> "" -> parse_date ds = Err e ->
  get_table_status (Some ds) (Some ts) d = error_response 500 (strptime_message e).
Proof.
  intros Hds Hts He. unfold get_table_status.
  apply String.eqb_neq in Hds, Hts. by rewrite Hds, Hts, He.
Qed.

(** C29: the [time] argument is never validated: for a valid date, any
    non-empty [time] argument, even one that ['%H:%M'] rejects, is
    answered with 200 (the spec, section 4.2, asks for [InvalidTime]). *)
Theorem get_table_status_time_unchecked d ds ts dt :
  ts <> "" -> parse_date ds = Ok dt ->
  status_code (get_table_status (Some ds) (Some ts) d) = 200.
Proof.
  intros Hts Hds. by rewrite (get_table_status_rows d ds ts dt Hds Hts).
Qed.

End with_time_compare.

(** ** Witnesses *)

(** Two tables; table 1 held by an Accepted reservation at 2025-06-01
    19:00, table 2 held by a Rejected one. *)
Definition demo_db : db :=
  mk_db []
    [mk_table 1 "T1" 4; mk_table 2 "T2" 2]
    [mk_reservation 1 "Ann" "555-0100" (mk_date 2025 6 1) (mk_time 19 0) Accepted None;
     mk_reservation 2 "Bob" "555-0101" (mk_date 2025 6 1) (mk_time 19 0) Rejected None]
    [(1, 1); (2, 2)] 1 3 3.

Lemma get_table_status_occupied_witness :
  exists rows,
    get_table_status (Some "2025-06-01") (Some "19:00") demo_db
      = mk_response 200 (JList (row_to_json <$> rows)) /\
    row_table <$> rows = dining_tables demo_db /\
    Forall (fun row => row_is_booked row = true <->
                       occupied demo_db (mk_date 2025 6 1) (mk_time 19 0) (table_id (row_table row)))
      rows.
Proof. apply get_table_status_occupied; reflexivity. Defined.

Lemma get_table_status_missing_witness :
  get_table_status (Some "2025-06-01") None demo_db =
    error_response 400 "Date and time query parameters are required".
Proof. apply get_table_status_missing. right; right; left; reflexivity. Defined.

Lemma get_table_status_bad_date_witness :
  get_table_status (Some "2025-13-01") (Some "19:00") demo_db =
    error_response 500 (strptime_message DoesNotMatch).
Proof. apply get_table_status_bad_date; [discriminate | discriminate | reflexivity]. Defined.

Lemma get_table_status_time_unchecked_witness :
  status_code (get_table_status (Some "2025-06-01") (Some "7pm") demo_db) = 200.
Proof. apply (get_table_status_time_unchecked _ _ _ (mk_date 2025 6 1)); [discriminate | reflexivity]. Defined.


End Availability.
