(* ===== verification/Booking.v ===== *)
(** [Booking]: the Booking Coordinator, [create_reservation] ([app.py]
    lines 108-132).

    The handler checks that the six fields are present and that
    [table_ids] is truthy (400 otherwise), removes duplicate table ids with
    [list(set(...))], then inside [try] parses the date and the time,
    inserts the reservation ([flush]), inserts one row of
    [reservation_tables] per table id and commits; any exception rolls the
    session back and is answered with 500.  Availability is not checked.

    [list(set(xs))] iterates in an order CPython does not specify: the
    class [SetList] states what the handler relies on (no duplicates, the
    same elements) and the lemmas hold for every instance; [sorted_set_list]
    (the order CPython gives small integers) runs the witnesses.

    Values of a type the model does not cover are answered with 500 before
    any statement: a [table_ids] that is not a list of integers, a [name]
    or [contact] that is not a string, a [userId] that is neither null nor
    an integer.  (Python would coerce some of them, e.g. a string of
    digits as [table_ids] books one table per digit.) *)

From S2P Require Import Prelude DateTime Json Store Availability.
From Stdlib Require Import String.
Import Strptime Json Store Availability.

Class SetList := {
  set_list : list Z -> list Z;
  set_list_NoDup : forall xs, NoDup (set_list xs);
  set_list_elem_of : forall xs x, x ∈ set_list xs <-> x ∈ xs
}.

#[export] Instance sorted_set_list : SetList.
Proof.
  refine {| set_list xs := merge_sort Z.le (remove_dups xs) |}.
  - intros xs. rewrite (merge_sort_Permutation Z.le). apply NoDup_remove_dups.
  - intros xs x. rewrite (merge_sort_Permutation Z.le). apply elem_of_remove_dups.
Defined.

Module Booking.
Local Open Scope Z_scope.
Local Open Scope list_scope.
Local Open Scope tx_scope.

Definition required_fields : list string :=
  ["name"; "contact"; "date"; "time"; "table_ids"; "userId"].

(** The exceptions raised in the [try] block before the first statement. *)
Inductive create_error :=
| BadDate (e : strptime_error)
| BadTime (e : strptime_error)
| BadField (field : string).

(** The fields of a request, once read. *)
Record booking := mk_booking {
  b_name : string; b_contact : string; b_date : date; b_time : time_of_day;
  b_user : option Z }.

Definition decode_table_ids (v : json) : option (list Z) :=
  match v with
  | JList l => mapM (fun x => match x with JNum z => Some z | _ => None end) l
  | _ => None
  end.

Definition decode_user (v : json) : option (option Z) :=
  match v with JNull => Some None | JNum z => Some (Some z) | _ => None end.

Definition field_string (data : body) (k : string) : result create_error string :=
  of_option (BadField k) (as_string (data !! k)).

(** Lines 118-120: the date, then the time, then the columns. *)
Definition read_booking (data : body) : result create_error booking :=
  (ds <- field_string data "date" ;;
   dt <- match parse_date ds with Ok dt => Ok dt | Err e => Err (BadDate e) end ;;
   ts <- field_string data "time" ;;
   tm <- match parse_time ts with Ok tm => Ok tm | Err e => Err (BadTime e) end ;;
   name <- field_string data "name" ;;
   contact <- field_string data "contact" ;;
   uid <- of_option (BadField "userId") (data !! "userId" ≫= decode_user) ;;
   Ok (mk_booking name contact dt tm uid))%rr.

(** Lines 120-126: the statements of the unit of work. *)
Definition booking_tx (b : booking) (tids : list Z) : tx Z :=
  rid <-- insert_reservation (b_name b) (b_contact b) (b_date b) (b_time b) (b_user b) ;;;
  tx_iter (insert_reservation_table rid) tids ;;;
  tx_ret rid.

Definition create_error_message (e : create_error) : string :=
  match e with
  | BadDate _ | BadTime _ => "time data does not match format"
  | BadField k => "invalid value for " ++ k
  end.

Definition store_error_message (e : store_error) : string :=
  match e with
  | IntegrityError _ => "IntegrityError"
  | DataError _ => "DataError"
  | AutoIncrementExhausted => "Failed to read auto-increment value from storage engine"
  end.

Section with_set_list.
Context `{SetList}.

Definition create_reservation (data : body) (d : db) : response * db :=
  if negb (forallb (fun f => bool_decide (is_Some (data !! f))) required_fields)
     || negb (truthy_opt (data !! "table_ids"))
  then (error_response 400 "Missing required fields", d)
  else
    match data !! "table_ids" ≫= decode_table_ids with
    | None => (error_response 500 "unhashable table_ids", d)
    | Some tids =>
        let unique_table_ids := set_list tids in
        match read_booking data with
        | Err e => (error_response 500 (create_error_message e), d)
        | Ok b =>
            match run_session (booking_tx b unique_table_ids) d with
            | (Ok rid, d') =>
                (mk_response 201 (JObj [("message", JStr "Reservation successful!");
                                        ("id", JNum rid)]), d')
            | (Err e, d') => (error_response 500 (store_error_message e), d')
            end
        end
    end.

(** ** Lemmas *)

#[local] Arguments decode_table_ids : simpl never.
#[local] Arguments truthy : simpl never.

Lemma decode_table_ids_nums tids : decode_table_ids (JList (JNum <$> tids)) = Some tids.
Proof.
  unfold decode_table_ids. induction tids as [|t tids IH]; [done|].
  cbn [fmap list_fmap mapM]. rewrite IH. done.
Qed.

Lemma truthy_nums (tids : list Z) : tids <> [] -> truthy (JList (JNum <$> tids)) = true.
Proof. intros Hne. unfold truthy. rewrite bool_decide_false; [done|]. by destruct tids. Qed.

Lemma fresh_rid_no_rows d t : wf d -> (next_reservation_id d, t) ∉ reservation_tables d.
Proof.
  intros Hwf Hin. pose proof (wf_assoc_fk_res d Hwf) as Hfk.
  eapply Forall_forall in Hfk; [|exact Hin]. simpl in Hfk.
  eapply ids_in_range_fresh; [apply (wf_res_ids d Hwf)|exact Hfk].
Qed.

Lemma insert_reservation_ok d name contact dt tm uid :
  (String.length name <= column_width ColCustomerName)%nat ->
  (String.length contact <= column_width ColContactInfo)%nat ->
  next_reservation_id d <= int_max ->
  (forall u, uid = Some u -> u ∈ user_id <$> users d) ->
  insert_reservation name contact dt tm uid d =
    (Ok (next_reservation_id d),
     with_reservations d
       (reservations d ++ [mk_reservation (next_reservation_id d) name contact dt tm Pending uid])
       (reservation_tables d) (next_reservation_id d + 1)).
Proof.
  intros Hn Hc Hmax Hu. unfold insert_reservation.
  assert (too_long [(ColCustomerName, name); (ColContactInfo, contact)] = None) as Hfit by fits.
  rewrite ?Hfit.
  rewrite bool_decide_false by lia.
  destruct uid as [u|]; [|done]. by rewrite bool_decide_true by auto.
Qed.

(** A request that reaches the unit of work: the guard passes and the
    fields are read. *)
Lemma create_reservation_unfold data d tids b :
  (forall f, f ∈ required_fields -> is_Some (data !! f)) ->
  data !! "table_ids" = Some (JList (JNum <$> tids)) -> tids <> [] ->
  read_booking data = Ok b ->
  create_reservation data d =
    match run_session (booking_tx b (set_list tids)) d with
    | (Ok rid, d') =>
        (mk_response 201 (JObj [("message", JStr "Reservation successful!"); ("id", JNum rid)]), d')
    | (Err e, d') => (error_response 500 (store_error_message e), d')
    end.
Proof.
  intros Hf Ht Hne Hb. unfold create_reservation.
  replace (forallb _ required_fields) with true.
  2:{ symmetry. apply forallb_forall. intros f Hin. apply bool_decide_eq_true, Hf.
      by apply list_elem_of_In. }
  rewrite Ht. simpl. rewrite truthy_nums by done. simpl.
  rewrite decode_table_ids_nums, Hb. done.
Qed.

Section success.
Variables (data : body) (d : db) (tids : list Z) (b : booking).
Hypothesis Hwf : wf d.
Hypothesis Hfields : forall f, f ∈ required_fields -> is_Some (data !! f).
Hypothesis Htids : data !! "table_ids" = Some (JList (JNum <$> tids)).
Hypothesis Hne : tids <> [].
Hypothesis Hb : read_booking data = Ok b.
Hypothesis Huser : forall u, b_user b = Some u -> u ∈ user_id <$> users d.
Hypothesis Htables : Forall (fun t => t ∈ table_id <$> dining_tables d) tids.
Hypothesis Hmax : next_reservation_id d <= int_max.
Hypothesis Hname : (String.length (b_name b) <= column_width ColCustomerName)%nat.
Hypothesis Hcontact : (String.length (b_contact b) <= column_width ColContactInfo)%nat.

Definition new_reservation : reservation :=
  mk_reservation (next_reservation_id d) (b_name b) (b_contact b) (b_date b) (b_time b)
    Pending (b_user b).

Definition booked_db : db :=
  with_reservations d (reservations d ++ [new_reservation])
    (reservation_tables d ++ ((fun t => (next_reservation_id d, t)) <$> set_list tids))
    (next_reservation_id d + 1).

Lemma create_reservation_eq :
  create_reservation data d =
    (mk_response 201 (JObj [("message", JStr "Reservation successful!");
                            ("id", JNum (next_reservation_id d))]), booked_db).
Proof.
  rewrite (create_reservation_unfold data d tids b) by done.
  unfold run_session, booking_tx, tx_bind at 1.
  rewrite insert_reservation_ok by done. unfold tx_bind.
  rewrite tx_iter_insert_ok; simpl; try done.
  - rewrite fmap_app. apply elem_of_app. right. by left.
  - apply Forall_forall. intros t Ht. rewrite set_list_elem_of in Ht.
    by apply (proj1 (Forall_forall _ _) Htables).
  - apply set_list_NoDup.
  - apply Forall_forall. intros t _. by apply fresh_rid_no_rows.
Qed.

Lemma booked_db_rows_of_new t :
  (next_reservation_id d, t) ∈ reservation_tables booked_db <-> t ∈ tids.
Proof.
  simpl. rewrite elem_of_app, list_elem_of_fmap.
  split; [intros [Hin|(t' & [= <-] & Ht)]|intros Ht].
  - by apply fresh_rid_no_rows in Hin.
  - by apply set_list_elem_of.
  - right. exists t. split; [done|]. by apply set_list_elem_of.
Qed.

Lemma new_reservation_fresh :
  Forall (fun r => res_id r <> next_reservation_id d) (reservations d).
Proof.
  apply Forall_forall. intros r Hr Heq. eapply ids_in_range_fresh.
  - apply (wf_res_ids d Hwf).
  - rewrite <- Heq. by apply list_elem_of_fmap_2.
Qed.

(** C1: a request whose fields are present and readable, whose tables
    exist, whose user (if any) exists and which finds an id left is
    answered 201 with the new id; the reservation is then found by that
    id with status Pending and the request's fields, it is associated
    with exactly the requested tables, and the earlier reservations are
    kept. *)
Theorem create_reservation_success :
  exists d',
    create_reservation data d =
      (mk_response 201 (JObj [("message", JStr "Reservation successful!");
                              ("id", JNum (next_reservation_id d))]), d') /\
    find_reservation d' (next_reservation_id d) = Some new_reservation /\
    status new_reservation = Pending /\
    (forall t, (next_reservation_id d, t) ∈ reservation_tables d' <-> t ∈ tids) /\
    (forall r, r ∈ reservations d -> r ∈ reservations d').
Proof.
  exists booked_db. rewrite create_reservation_eq. split; [done|]. split; [|split; [done|]].
  - unfold find_reservation, booked_db, with_reservations. cbn [reservations].
    rewrite filter_app, filter_none by exact new_reservation_fresh.
    rewrite (filter_cons_True _ new_reservation []) by reflexivity. done.
  - split; [apply booked_db_rows_of_new|]. intros r Hr. simpl. set_solver.
Qed.

(** C9: duplicate table ids in the request give one association each:
    the rows of [reservation_tables] of the new reservation have no
    duplicate and there are as many as distinct requested ids (for
    [3, 3, 5], two). *)
Theorem create_reservation_dedup resp d' :
  create_reservation data d = (resp, d') ->
  NoDup (filter (fun rt => rt.1 = next_reservation_id d) (reservation_tables d')) /\
  List.length (filter (fun rt => rt.1 = next_reservation_id d) (reservation_tables d'))
    = List.length (remove_dups tids).
Proof.
  rewrite create_reservation_eq. intros [= <- <-]. simpl.
  rewrite filter_app, filter_none, filter_all, app_nil_l.
  - split.
    + apply NoDup_fmap_2; [intros x y [=]; done|]. apply set_list_NoDup.
    + rewrite length_fmap. apply Permutation_length, NoDup_Permutation.
      * apply set_list_NoDup.
      * apply NoDup_remove_dups.
      * intros x. by rewrite set_list_elem_of, elem_of_remove_dups.
  - apply Forall_fmap, Forall_forall. by intros.
  - apply Forall_forall. intros rt Hrt Heq. apply (fresh_rid_no_rows d rt.2 Hwf).
    rewrite <- Heq. by destruct rt.
Qed.

(** C10: no availability check at booking time (the weak-consistency
    gap of the spec, section 9): when a requested table is already held
    by a Pending or Accepted reservation of the same slot, the request
    still succeeds and two reservations then hold the table for the
    slot. *)
Theorem create_reservation_double_booking t :
  t ∈ tids -> occupied d (b_date b) (b_time b) t ->
  exists resp d', create_reservation data d = (resp, d') /\ status_code resp = 201 /\
    exists r1 r2, res_id r1 <> res_id r2 /\
      holds_slot d' (b_date b) (b_time b) t r1 /\ holds_slot d' (b_date b) (b_time b) t r2.
Proof.
  intros Ht [r1 (Hr1 & Hrt1 & Hd1 & Ht1 & Hh1)].
  eexists _, booked_db. rewrite create_reservation_eq. split; [done|]. split; [done|].
  exists r1, new_reservation. split.
  { pose proof new_reservation_fresh as Hf. eapply Forall_forall in Hf; [|exact Hr1].
    simpl. congruence. }
  split; repeat split; simpl; try done; try set_solver.
  apply elem_of_app. right. apply list_elem_of_fmap. exists t.
  split; [done|]. by apply set_list_elem_of.
Qed.
End success.

Lemma booking_tx_wf b tids : tx_wf (booking_tx b tids).
Proof.
  unfold booking_tx. apply tx_wf_bind; [apply insert_reservation_wf|intros rid].
  apply tx_wf_bind; [apply tx_wf_iter; intros; apply insert_reservation_table_wf|].
  intros. apply tx_wf_ret.
Qed.

Lemma insert_reservation_tables name contact dt tm uid d :
  dining_tables (insert_reservation name contact dt tm uid d).2 = dining_tables d.
Proof. unfold insert_reservation. repeat case_match; by repeat case_bool_decide. Qed.

Lemma booking_tx_missing b tids t d :
  t ∈ tids -> t ∉ table_id <$> dining_tables d ->
  exists e d', booking_tx b tids d = (Err e, d').
Proof.
  intros Ht Hnot. unfold booking_tx, tx_bind.
  pose proof (insert_reservation_tables (b_name b) (b_contact b) (b_date b) (b_time b) (b_user b) d)
    as Htab.
  destruct (insert_reservation _ _ _ _ _ d) as [[rid|e] d1]; [|eauto]. simpl in Htab.
  destruct (tx_iter_insert_missing rid tids t d1 Ht) as (e & d2 & ->); [by rewrite Htab|].
  eauto.
Qed.

(** C2: atomicity of the unit of work (spec, sections 4.3 and 7): a
    request answered with anything but 201 leaves every row of every table
    as it was; only auto-increment values may have been consumed. *)
Theorem create_reservation_atomic data d resp d' :
  create_reservation data d = (resp, d') -> status_code resp <> 201 -> same_rows d d'.
Proof.
  unfold create_reservation. intros E Hc.
  repeat case_match; simplify_eq/=; try done.
  eapply run_session_Err_rows. eassumption.
Qed.

(** C25: a request that lacks one of the six fields, or whose [table_ids]
    is empty or otherwise falsy, is answered with 400 and changes
    nothing. *)
Theorem create_reservation_missing data d :
  (exists f, f ∈ required_fields /\ data !! f = None) \/ truthy_opt (data !! "table_ids") = false ->
  create_reservation data d = (error_response 400 "Missing required fields", d).
Proof.
  intros Hmiss. unfold create_reservation.
  replace (negb _ || negb _) with true; [done|]. symmetry.
  destruct Hmiss as [(f & Hf & Hnone)|Hfalse]; [|by rewrite Hfalse, orb_true_r].
  apply orb_true_intro. left. apply negb_true_iff, not_true_iff_false.
  rewrite forallb_forall. intros Hall.
  apply list_elem_of_In, Hall, bool_decide_eq_true in Hf. rewrite Hnone in Hf.
  by apply is_Some_None in Hf.
Qed.

(** [create_reservation] keeps the store well formed, on every branch. *)
Lemma create_reservation_wf data d : wf d -> wf (create_reservation data d).2.
Proof.
  intros Hwf. unfold create_reservation. repeat case_match; simplify_eq/=; try done.
  all: match goal with
       | H : run_session ?m ?d0 = _ |- _ =>
           pose proof (run_session_wf m d0 (booking_tx_wf _ _) Hwf) as Hw; rewrite H in Hw; exact Hw
       end.
Qed.

(** C26: a table id that names no dining table is answered with 500 and
    no row is written (the spec, section 4.3, asks for [UnknownTable]: the
    code relies on the foreign key of [reservation_tables]). *)
Theorem create_reservation_unknown_table data d tids b t :
  (forall f, f ∈ required_fields -> is_Some (data !! f)) ->
  data !! "table_ids" = Some (JList (JNum <$> tids)) -> read_booking data = Ok b ->
  t ∈ tids -> t ∉ table_id <$> dining_tables d ->
  exists msg d', create_reservation data d = (error_response 500 msg, d') /\ same_rows d d'.
Proof.
  intros Hf Htids Hb Ht Hnot.
  rewrite (create_reservation_unfold data d tids b) by (done || by intros ->; apply elem_of_nil in Ht).
  rewrite <- set_list_elem_of in Ht.
  destruct (booking_tx_missing b (set_list tids) t d Ht Hnot) as (e & d1 & He).
  destruct (run_session (booking_tx b (set_list tids)) d) as [r d2] eqn:Hs.
  unfold run_session in Hs. rewrite He in Hs. injection Hs as <- <-.
  eexists _, _. split; [reflexivity|]. done.
Qed.

(** ** Properties *)
End with_set_list.

(** ** Witnesses *)

Lemma required_fields_present (data : body) :
  forallb (fun f => bool_decide (is_Some (data !! f))) required_fields = true ->
  forall f, f ∈ required_fields -> is_Some (data !! f).
Proof.
  rewrite forallb_forall. intros Hall f Hf.
  apply (bool_decide_eq_true (is_Some _)), Hall. by apply list_elem_of_In.
Qed.


(** The request of the spec's scenario (section 8), with table 1 twice. *)
Definition demo_request : body :=
  list_to_map [("name", JStr "Ann"); ("contact", JStr "555-0100");
               ("date", JStr "2025-07-04"); ("time", JStr "18:00");
               ("table_ids", JList [JNum 1; JNum 2; JNum 1]); ("userId", JNull)].

Definition demo_booking : booking :=
  mk_booking "Ann" "555-0100" (mk_date 2025 7 4) (mk_time 18 0) None.

(** T1 (capacity 4) and T2 (capacity 2), no reservation yet. *)
Definition tables_db : db := mk_db [] [mk_table 1 "T1" 4; mk_table 2 "T2" 2] [] [] 1 3 1.

(** The same tables, T1 already held for the slot by reservation 1. *)
Definition held_db : db :=
  mk_db [] [mk_table 1 "T1" 4; mk_table 2 "T2" 2]
    [mk_reservation 1 "Bob" "555-0101" (mk_date 2025 7 4) (mk_time 18 0) Accepted None]
    [(1, 1)] 1 3 2.

Ltac booking_hyp :=
  first [ reflexivity | discriminate | vm_decide | (intros ??; discriminate)
        | (apply wfb_sound; reflexivity) | (apply required_fields_present; reflexivity)
        | (vm_compute; congruence) ].

Lemma create_reservation_success_witness :
  exists d',
    create_reservation demo_request tables_db =
      (mk_response 201 (JObj [("message", JStr "Reservation successful!"); ("id", JNum 1)]), d') /\
    find_reservation d' 1 = Some (new_reservation tables_db demo_booking) /\
    status (new_reservation tables_db demo_booking) = Pending /\
    (forall t, (1, t) ∈ reservation_tables d' <-> t ∈ [1; 2; 1]) /\
    (forall r, r ∈ reservations tables_db -> r ∈ reservations d').
Proof. apply (create_reservation_success demo_request tables_db [1; 2; 1] demo_booking); booking_hyp. Defined.

Lemma create_reservation_dedup_witness :
  NoDup (filter (fun rt => rt.1 = 1) (reservation_tables (create_reservation demo_request tables_db).2)) /\
  List.length (filter (fun rt => rt.1 = 1) (reservation_tables (create_reservation demo_request tables_db).2))
    = 2%nat.
Proof.
  apply (create_reservation_dedup demo_request tables_db [1; 2; 1] demo_booking)
    with (resp := (create_reservation demo_request tables_db).1); booking_hyp.
Defined.

Lemma create_reservation_double_booking_witness :
  exists resp d', create_reservation demo_request held_db = (resp, d') /\ status_code resp = 201 /\
    exists r1 r2, res_id r1 <> res_id r2 /\
      holds_slot d' (mk_date 2025 7 4) (mk_time 18 0) 1 r1 /\
      holds_slot d' (mk_date 2025 7 4) (mk_time 18 0) 1 r2.
Proof.
  apply (create_reservation_double_booking demo_request held_db [1; 2; 1] demo_booking); try booking_hyp.
  exists (mk_reservation 1 "Bob" "555-0101" (mk_date 2025 7 4) (mk_time 18 0) Accepted None).
  repeat split; vm_decide.
Defined.

Lemma create_reservation_atomic_witness :
  same_rows tables_db
    (create_reservation (<["table_ids" := JList [JNum 1; JNum 9]]> demo_request) tables_db).2.
Proof.
  apply (create_reservation_atomic (<["table_ids" := JList [JNum 1; JNum 9]]> demo_request)
           tables_db (create_reservation (<["table_ids" := JList [JNum 1; JNum 9]]> demo_request)
                        tables_db).1).
  - vm_compute. reflexivity.
  - vm_compute. discriminate.
Defined.

Lemma create_reservation_missing_witness :
  create_reservation (<["table_ids" := JList []]> demo_request) tables_db =
    (error_response 400 "Missing required fields", tables_db).
Proof. apply create_reservation_missing. right. reflexivity. Defined.

Lemma create_reservation_unknown_table_witness :
  exists msg d',
    create_reservation (<["table_ids" := JList [JNum 1; JNum 9]]> demo_request) tables_db =
      (error_response 500 msg, d') /\ same_rows tables_db d'.
Proof.
  apply (create_reservation_unknown_table _ tables_db [1; 9] demo_booking 9); booking_hyp.
Defined.



End Booking.
