(* ===== verification/Lifecycle.v ===== *)
(** [Lifecycle]: the Status Lifecycle Manager, [cancel_reservation],
    [update_reservation_status] and [delete_reservation] ([app.py] lines
    142-173).

    Each handler loads the reservation with [db.session.get] (404 when it
    is absent), changes it and commits.  [update_reservation_status] first
    checks that the requested status is ['Accepted'] or ['Rejected'] (400
    otherwise), before it looks the reservation up.  Neither handler looks
    at the current status: [code_transition] is the relation they
    implement, [spec_transition] the lifecycle of the spec (section 4.4). *)

From S2P Require Import Prelude DateTime Json Store Availability.
From Stdlib Require Import String.
Import Strptime Json Store Availability.

Module Lifecycle.
Local Open Scope Z_scope.
Local Open Scope list_scope.

(** [new_status in ['Accepted', 'Rejected']], after [not new_status]. *)
Definition review_status_of (v : option json) : option reservation_status :=
  match v with
  | Some (JStr s) =>
      if String.eqb s "Accepted" then Some Accepted
      else if String.eqb s "Rejected" then Some Rejected
      else None
  | _ => None
  end.

(** Lines 142-148. *)
Definition cancel_reservation (id : Z) (d : db) : response * db :=
  match find_reservation d id with
  | None => (error_response 404 "Reservation not found", d)
  | Some _ =>
      (message_response 200 "Reservation cancelled successfully",
       (run_session (update_status id Cancelled) d).2)
  end.

(** Lines 156-165. *)
Definition update_reservation_status (id : Z) (data : body) (d : db) : response * db :=
  match review_status_of (data !! "status") with
  | None => (error_response 400 "Invalid status provided", d)
  | Some st =>
      match find_reservation d id with
      | None => (error_response 404 "Reservation not found", d)
      | Some _ =>
          (message_response 200 ("Reservation #" ++ pretty id ++ " status updated to "
                                 ++ status_to_string st),
           (run_session (update_status id st) d).2)
      end
  end.

(** Lines 167-173. *)
Definition delete_reservation (id : Z) (d : db) : response * db :=
  match find_reservation d id with
  | None => (error_response 404 "Reservation not found.", d)
  | Some _ =>
      (message_response 200 ("Reservation #" ++ pretty id ++ " deleted successfully."),
       (run_session (delete_reservation_rows id) d).2)
  end.

(** ** The two lifecycles *)

(** The spec's: Pending to Accepted or Rejected, Pending or Accepted to
    Cancelled. *)
Inductive spec_transition : reservation_status -> reservation_status -> Prop :=
| spec_accept : spec_transition Pending Accepted
| spec_reject : spec_transition Pending Rejected
| spec_cancel_pending : spec_transition Pending Cancelled
| spec_cancel_accepted : spec_transition Accepted Cancelled.

(** The code's: the staff review sets Accepted or Rejected and the holder
    cancels, whatever the current status. *)
Inductive code_transition : reservation_status -> reservation_status -> Prop :=
| code_review s t : t = Accepted \/ t = Rejected -> code_transition s t
| code_cancel s : code_transition s Cancelled.

(** ** Lemmas *)

Lemma find_reservation_spec d id r :
  wf d -> find_reservation d id = Some r <-> r ∈ reservations d /\ res_id r = id.
Proof. intros Hwf. apply head_filter_key, (wf_reservations_pk d Hwf). Qed.

Lemma find_reservation_None d id :
  wf d -> find_reservation d id = None <-> forall r, r ∈ reservations d -> res_id r <> id.
Proof.
  intros Hwf. split.
  - intros Hn r Hr Hid. assert (find_reservation d id = Some r) as Hs by
      (apply find_reservation_spec; auto). congruence.
  - intros Hall. destruct (find_reservation d id) as [r|] eqn:Hf; [|done].
    apply find_reservation_spec in Hf as [? ?]; [|done]. exfalso. by eapply Hall.
Qed.

Lemma review_status_of_Some v st :
  review_status_of v = Some st <->
  (v = Some (JStr "Accepted") /\ st = Accepted) \/ (v = Some (JStr "Rejected") /\ st = Rejected).
Proof.
  unfold review_status_of. destruct v as [[]|]; try (split; [discriminate|naive_solver]).
  destruct (String.eqb_spec s "Accepted") as [->|Ha];
    [|destruct (String.eqb_spec s "Rejected") as [->|Hr]]; split; try naive_solver.
Qed.

Lemma update_status_elem_of id st d r' :
  r' ∈ reservations (update_status id st d).2 <->
  exists r, r ∈ reservations d /\ r' = if bool_decide (res_id r = id) then set_status st r else r.
Proof. simpl. rewrite list_elem_of_fmap. naive_solver. Qed.

Lemma update_status_other id st d r :
  res_id r <> id -> (r ∈ reservations (update_status id st d).2 <-> r ∈ reservations d).
Proof.
  intros Hid. rewrite update_status_elem_of. split.
  - intros (r0 & Hr0 & ->). case_bool_decide; [by destruct Hid|done].
  - intros Hr. exists r. by rewrite bool_decide_false.
Qed.

Lemma find_after_update_status d id st r :
  wf d -> find_reservation d id = Some r ->
  find_reservation (update_status id st d).2 id = Some (set_status st r).
Proof.
  intros Hwf Hf. apply find_reservation_spec in Hf as [Hr Hid]; [|done].
  apply find_reservation_spec; [apply (proj1 (update_status_wf id st d Hwf))|].
  split; [|done]. apply update_status_elem_of. exists r. by rewrite bool_decide_true.
Qed.

(** A status that holds no table frees the tables of that reservation and
    only those. *)
Lemma update_status_occupied id st d dt tm t :
  holds_table st = false ->
  occupied (update_status id st d).2 dt tm t <-> exists r, res_id r <> id /\ holds_slot d dt tm t r.
Proof.
  intros Hst. unfold occupied, holds_slot. split.
  - intros (r' & Hr' & Hrt & Hd & Ht & Hh). apply update_status_elem_of in Hr' as (r & Hr & ->).
    case_bool_decide as Hid; [simpl in Hh; congruence|]. exists r. naive_solver.
  - intros (r & Hid & Hr & Hrt & Hd & Ht & Hh). exists r.
    rewrite update_status_other by done. naive_solver.
Qed.

Lemma delete_rows_elem_of id d r :
  r ∈ reservations (delete_reservation_rows id d).2 <-> r ∈ reservations d /\ res_id r <> id.
Proof. simpl. rewrite list_elem_of_filter. tauto. Qed.

Lemma delete_rows_tables id d rt :
  rt ∈ reservation_tables (delete_reservation_rows id d).2 <->
  rt ∈ reservation_tables d /\ rt.1 <> id.
Proof. simpl. rewrite list_elem_of_filter. tauto. Qed.

Lemma delete_rows_occupied id d dt tm t :
  occupied (delete_reservation_rows id d).2 dt tm t <->
  exists r, res_id r <> id /\ holds_slot d dt tm t r.
Proof.
  unfold occupied, holds_slot. setoid_rewrite delete_rows_elem_of.
  setoid_rewrite delete_rows_tables. naive_solver.
Qed.

(** ** Properties *)

(** Staff review on an existing reservation answers 200, gives the
    reservation the requested status and changes no other reservation
    and no row of [reservation_tables]. *)
Lemma update_reservation_status_ok id data d st r :
  wf d -> review_status_of (data !! "status") = Some st -> find_reservation d id = Some r ->
  exists d', update_reservation_status id data d =
      (message_response 200 ("Reservation #" ++ pretty id ++ " status updated to "
                             ++ status_to_string st), d') /\
    find_reservation d' id = Some (set_status st r) /\
    (forall r', res_id r' <> id -> (r' ∈ reservations d' <-> r' ∈ reservations d)) /\
    reservation_tables d' = reservation_tables d.
Proof.
  intros Hwf Hst Hf. unfold update_reservation_status. rewrite Hst, Hf.
  eexists. split; [reflexivity|]. split; [by apply find_after_update_status|].
  split; [intros r' Hid; apply update_status_other, Hid|done].
Qed.

(** C24: any [status] other than the strings ['Accepted'] and
    ['Rejected'] (missing, empty, ['Cancelled'], ['Pending'], a number) is
    answered with 400 and changes nothing, whether the reservation exists
    or not: the status is checked before the lookup. *)
Theorem update_reservation_status_invalid id data d :
  data !! "status" <> Some (JStr "Accepted") -> data !! "status" <> Some (JStr "Rejected") ->
  update_reservation_status id data d = (error_response 400 "Invalid status provided", d).
Proof.
  intros Ha Hr. unfold update_reservation_status.
  destruct (review_status_of (data !! "status")) as [st|] eqn:Hst; [|done].
  apply review_status_of_Some in Hst. naive_solver.
Qed.

(** An id that names no reservation is answered with 404 by
    [cancel_reservation], [delete_reservation] and, for a valid status,
    [update_reservation_status], and changes nothing. *)
Lemma lifecycle_unknown_reservation id data d st :
  find_reservation d id = None -> review_status_of (data !! "status") = Some st ->
  cancel_reservation id d = (error_response 404 "Reservation not found", d) /\
  delete_reservation id d = (error_response 404 "Reservation not found.", d) /\
  update_reservation_status id data d = (error_response 404 "Reservation not found", d).
Proof.
  intros Hf Hst. unfold cancel_reservation, delete_reservation, update_reservation_status.
  by rewrite Hf, Hst.
Qed.

(** C11: cancelling succeeds whatever the current status, Rejected and
    Cancelled included (the spec, section 4.4, allows it from Pending and
    Accepted only), and it frees the reservation's tables: afterwards a
    table is occupied for a slot exactly when another reservation holds
    it. *)
Theorem cancel_reservation_any_status id d r :
  wf d -> find_reservation d id = Some r ->
  exists d', cancel_reservation id d = (message_response 200 "Reservation cancelled successfully", d') /\
    find_reservation d' id = Some (set_status Cancelled r) /\
    (forall dt tm t, occupied d' dt tm t <-> exists r', res_id r' <> id /\ holds_slot d dt tm t r').
Proof.
  intros Hwf Hf. unfold cancel_reservation. rewrite Hf.
  eexists. split; [reflexivity|]. split; [by apply find_after_update_status|].
  intros. by apply update_status_occupied.
Qed.

(** C12: rejecting a reservation frees its tables with no other state
    change (spec, section 8): afterwards a table is occupied for a slot
    exactly when another reservation holds it. *)
Theorem reject_frees_tables id data d r :
  data !! "status" = Some (JStr "Rejected") -> find_reservation d id = Some r ->
  forall dt tm t, occupied (update_reservation_status id data d).2 dt tm t <->
    exists r', res_id r' <> id /\ holds_slot d dt tm t r'.
Proof.
  intros Hst Hf dt tm t. unfold update_reservation_status.
  rewrite Hst, Hf. by apply update_status_occupied.
Qed.

(** C13: deleting a reservation removes it and, by cascade, every row of
    [reservation_tables] that refers to it, keeps every other reservation
    and row, and frees its tables. *)
Theorem delete_reservation_cascade id d r :
  wf d -> find_reservation d id = Some r ->
  exists d', delete_reservation id d =
      (message_response 200 ("Reservation #" ++ pretty id ++ " deleted successfully."), d') /\
    find_reservation d' id = None /\
    (forall t, (id, t) ∉ reservation_tables d') /\
    (forall r', res_id r' <> id -> (r' ∈ reservations d' <-> r' ∈ reservations d)) /\
    (forall rt, rt.1 <> id -> (rt ∈ reservation_tables d' <-> rt ∈ reservation_tables d)) /\
    (forall dt tm t, occupied d' dt tm t <-> exists r', res_id r' <> id /\ holds_slot d dt tm t r').
Proof.
  intros Hwf Hf. unfold delete_reservation. rewrite Hf.
  eexists. split; [reflexivity|]. rewrite (run_session_total _ _ tt) by reflexivity.
  split; [|split; [|split; [|split]]].
  - apply find_reservation_None; [apply (proj1 (delete_reservation_rows_wf id d Hwf))|].
    intros r' Hr'. by apply delete_rows_elem_of in Hr' as [_ ?].
  - intros t Ht. by apply delete_rows_tables in Ht as [_ ?].
  - intros r' Hid. rewrite delete_rows_elem_of. tauto.
  - intros rt Hid. rewrite delete_rows_tables. tauto.
  - intros. apply delete_rows_occupied.
Qed.

(** The three handlers keep the store well formed. *)
Lemma lifecycle_wf id data d :
  wf d ->
  wf (cancel_reservation id d).2 /\ wf (update_reservation_status id data d).2 /\
  wf (delete_reservation id d).2.
Proof.
  intros Hwf. unfold cancel_reservation, update_reservation_status, delete_reservation.
  split; [|split]; repeat case_match; cbn [snd]; try done; apply run_session_wf; auto with rr.
Qed.

Lemma spec_transition_code s t : spec_transition s t -> code_transition s t.
Proof. destruct 1; first [by apply code_cancel | apply code_review; auto]. Qed.

(** C14: the status changes that a successful review or cancel request
    makes to an existing reservation are exactly [code_transition]: to
    Accepted, Rejected or Cancelled, from any status. *)
Theorem handlers_realize_code_transition d id r t :
  wf d -> find_reservation d id = Some r ->
  code_transition (status r) t <->
  (exists data resp d', update_reservation_status id data d = (resp, d') /\
     status_code resp = 200 /\ find_reservation d' id = Some (set_status t r)) \/
  (exists resp d', cancel_reservation id d = (resp, d') /\
     status_code resp = 200 /\ find_reservation d' id = Some (set_status t r)).
Proof.
  intros Hwf Hf. split.
  - intros [s t' Ht|s].
    + left. exists (<["status" := JStr (status_to_string t')]> ∅).
      unfold update_reservation_status. rewrite lookup_insert_eq.
      destruct Ht as [->| ->]; simpl; rewrite Hf; (do 2 eexists; split; [reflexivity|]);
        (split; [done|by apply find_after_update_status]).
    + right. unfold cancel_reservation. rewrite Hf. do 2 eexists. split; [reflexivity|].
      split; [done|by apply find_after_update_status].
  - intros [(data & resp & d' & E & Hc & Hf')|(resp & d' & E & Hc & Hf')].
    + unfold update_reservation_status in E.
      destruct (review_status_of (data !! "status")) as [st|] eqn:Hst; [|by injection E as <- <-].
      rewrite Hf in E. injection E as <- <-.
      change (find_reservation (update_status id st d).2 id = Some (set_status t r)) in Hf'.
      rewrite (find_after_update_status d id st r Hwf Hf) in Hf'.
      injection Hf' as <-. apply code_review.
      apply review_status_of_Some in Hst. naive_solver.
    + unfold cancel_reservation in E. rewrite Hf in E. injection E as <- <-.
      change (find_reservation (update_status id Cancelled d).2 id = Some (set_status t r)) in Hf'.
      rewrite (find_after_update_status d id Cancelled r Hwf Hf) in Hf'.
      injection Hf' as <-. apply code_cancel.
Qed.

(** C17: a Rejected or Cancelled reservation, which the spec's lifecycle
    never lets become Accepted, is accepted by the staff review with 200,
    and it then holds its tables again for its slot. *)
Theorem lifecycle_reaccept d id r :
  wf d -> find_reservation d id = Some r -> status r = Rejected \/ status r = Cancelled ->
  ~ spec_transition (status r) Accepted /\
  exists d', update_reservation_status id (<["status" := JStr "Accepted"]> ∅) d =
      (message_response 200 ("Reservation #" ++ pretty id ++ " status updated to Accepted"), d') /\
    find_reservation d' id = Some (set_status Accepted r) /\
    (forall t, (id, t) ∈ reservation_tables d ->
       occupied d' (reservation_date r) (reservation_time r) t).
Proof.
  intros Hwf Hf Hst. split; [by destruct Hst as [-> | ->]; inversion 1|].
  unfold update_reservation_status. rewrite lookup_insert_eq. simpl. rewrite Hf.
  eexists. split; [reflexivity|].
  pose proof (find_after_update_status d id Accepted r Hwf Hf) as Hf'.
  split; [exact Hf'|]. intros t Ht.
  apply find_reservation_spec in Hf' as [Hr' Hid]; [|apply (proj1 (update_status_wf id Accepted d Hwf))].
  exists (set_status Accepted r). repeat split; try done. by rewrite Hid.
Qed.

(** ** Witnesses *)

(** Reservation 1 (Rejected) held table 1 and reservation 2 (Accepted)
    holds table 2, both at 2025-06-01 19:00. *)
Definition lc_db : db :=
  mk_db [] [mk_table 1 "T1" 4; mk_table 2 "T2" 2]
    [mk_reservation 1 "Ann" "555-0100" (mk_date 2025 6 1) (mk_time 19 0) Rejected None;
     mk_reservation 2 "Bob" "555-0101" (mk_date 2025 6 1) (mk_time 19 0) Accepted None]
    [(1, 1); (2, 2)] 1 3 3.

Definition lc_res1 : reservation :=
  mk_reservation 1 "Ann" "555-0100" (mk_date 2025 6 1) (mk_time 19 0) Rejected None.
Definition lc_res2 : reservation :=
  mk_reservation 2 "Bob" "555-0101" (mk_date 2025 6 1) (mk_time 19 0) Accepted None.

Lemma lc_db_wf : wf lc_db.
Proof. apply wfb_sound. reflexivity. Qed.

Lemma update_reservation_status_ok_witness :
  exists d', update_reservation_status 2 (<["status" := JStr "Rejected"]> ∅) lc_db =
      (message_response 200 "Reservation #2 status updated to Rejected", d') /\
    find_reservation d' 2 = Some (set_status Rejected lc_res2) /\
    (forall r', res_id r' <> 2 -> (r' ∈ reservations d' <-> r' ∈ reservations lc_db)) /\
    reservation_tables d' = reservation_tables lc_db.
Proof. apply (update_reservation_status_ok 2 _ lc_db Rejected lc_res2); [exact lc_db_wf | reflexivity | reflexivity]. Defined.

Lemma update_reservation_status_invalid_witness :
  update_reservation_status 42 (<["status" := JStr "Cancelled"]> ∅) lc_db =
    (error_response 400 "Invalid status provided", lc_db).
Proof. apply update_reservation_status_invalid; discriminate. Defined.

Lemma lifecycle_unknown_reservation_witness :
  cancel_reservation 42 lc_db = (error_response 404 "Reservation not found", lc_db) /\
  delete_reservation 42 lc_db = (error_response 404 "Reservation not found.", lc_db) /\
  update_reservation_status 42 (<["status" := JStr "Accepted"]> ∅) lc_db =
    (error_response 404 "Reservation not found", lc_db).
Proof. apply (lifecycle_unknown_reservation _ _ _ Accepted); reflexivity. Defined.

Lemma cancel_reservation_any_status_witness :
  exists d', cancel_reservation 1 lc_db = (message_response 200 "Reservation cancelled successfully", d') /\
    find_reservation d' 1 = Some (set_status Cancelled lc_res1) /\
    (forall dt tm t, occupied d' dt tm t <-> exists r', res_id r' <> 1 /\ holds_slot lc_db dt tm t r').
Proof. apply cancel_reservation_any_status; [exact lc_db_wf | reflexivity]. Defined.

Lemma reject_frees_tables_witness :
  occupied (update_reservation_status 2 (<["status" := JStr "Rejected"]> ∅) lc_db).2
    (mk_date 2025 6 1) (mk_time 19 0) 2 <->
  exists r', res_id r' <> 2 /\ holds_slot lc_db (mk_date 2025 6 1) (mk_time 19 0) 2 r'.
Proof. apply (reject_frees_tables 2 _ lc_db lc_res2); reflexivity. Defined.

Lemma delete_reservation_cascade_witness :
  exists d', delete_reservation 2 lc_db =
      (message_response 200 "Reservation #2 deleted successfully.", d') /\
    find_reservation d' 2 = None /\
    (forall t, (2, t) ∉ reservation_tables d') /\
    (forall r', res_id r' <> 2 -> (r' ∈ reservations d' <-> r' ∈ reservations lc_db)) /\
    (forall rt, rt.1 <> 2 -> (rt ∈ reservation_tables d' <-> rt ∈ reservation_tables lc_db)) /\
    (forall dt tm t, occupied d' dt tm t <-> exists r', res_id r' <> 2 /\ holds_slot lc_db dt tm t r').
Proof. apply (delete_reservation_cascade 2 lc_db lc_res2); [exact lc_db_wf | reflexivity]. Defined.

Lemma handlers_realize_code_transition_witness :
  code_transition Rejected Accepted <->
  (exists data resp d', update_reservation_status 1 data lc_db = (resp, d') /\
     status_code resp = 200 /\ find_reservation d' 1 = Some (set_status Accepted lc_res1)) \/
  (exists resp d', cancel_reservation 1 lc_db = (resp, d') /\
     status_code resp = 200 /\ find_reservation d' 1 = Some (set_status Accepted lc_res1)).
Proof. apply (handlers_realize_code_transition lc_db 1 lc_res1); [exact lc_db_wf | reflexivity]. Defined.

Lemma lifecycle_reaccept_witness :
  ~ spec_transition Rejected Accepted /\
  exists d', update_reservation_status 1 (<["status" := JStr "Accepted"]> ∅) lc_db =
      (message_response 200 "Reservation #1 status updated to Accepted", d') /\
    find_reservation d' 1 = Some (set_status Accepted lc_res1) /\
    (forall t, (1, t) ∈ reservation_tables lc_db ->
       occupied d' (mk_date 2025 6 1) (mk_time 19 0) t).
Proof. apply (lifecycle_reaccept lc_db 1 lc_res1); [exact lc_db_wf | reflexivity | left; reflexivity]. Defined.

End Lifecycle.
