(* ===== verification/Queries.v ===== *)
(** [Queries]: the Query Facade, [DiningTable.to_dict] and
    [Reservation.to_dict] ([app.py] lines 52-58 and 65),
    [get_my_reservations] (lines 135-140) and [get_all_reservations]
    (lines 151-154).

    SQL's [ORDER BY] fixes the order of rows with different keys only: the
    class [SqlOrderBy] states what every implementation gives (a
    permutation of the rows, sorted by the key) and the lemmas hold for
    every instance; [merge_order_by] runs the witnesses.  Dates and times
    are compared through [date_key] and [time_key], which order valid
    dates and times chronologically, as MySQL compares [DATE] and [TIME]
    values. *)

From S2P Require Import Prelude DateTime Json Store.
From Stdlib Require Import String.
Import Strptime Json Store.

Class SqlOrderBy := {
  order_by {A} (R : relation A) `{RelDecision A A R} : list A -> list A;
  order_by_perm {A} (R : relation A) `{RelDecision A A R} l : order_by R l ≡ₚ l;
  order_by_sorted {A} (R : relation A) `{RelDecision A A R} `{!Total R} l :
    Sorted R (order_by R l)
}.

#[export] Instance merge_order_by : SqlOrderBy.
Proof.
  refine {| order_by A R _ := merge_sort R |}.
  - intros A R ? l. apply merge_sort_Permutation.
  - intros A R ? ? l. by apply Sorted_merge_sort.
Defined.

Module Queries.
Local Open Scope Z_scope.
Local Open Scope list_scope.

Definition date_key (dt : date) : Z := (year dt * 100 + month dt) * 100 + day dt.
Definition time_key (tm : time_of_day) : Z := hour tm * 60 + minute tm.

(** [order_by(Reservation.reservation_date.desc())] *)
Definition date_desc (r1 r2 : reservation) : Prop :=
  date_key (reservation_date r2) <= date_key (reservation_date r1).

(** [order_by(reservation_date.desc(), reservation_time.desc())] *)
Definition date_time_desc (r1 r2 : reservation) : Prop :=
  date_key (reservation_date r2) < date_key (reservation_date r1) \/
  (date_key (reservation_date r2) = date_key (reservation_date r1) /\
   time_key (reservation_time r2) <= time_key (reservation_time r1)).

#[export] Instance date_desc_dec : RelDecision date_desc.
Proof. intros r1 r2. unfold date_desc. apply _. Defined.
#[export] Instance date_time_desc_dec : RelDecision date_time_desc.
Proof. intros r1 r2. unfold date_time_desc. apply _. Defined.

#[export] Instance date_desc_trans : Transitive date_desc.
Proof. intros r1 r2 r3. unfold date_desc. lia. Qed.
#[export] Instance date_time_desc_trans : Transitive date_time_desc.
Proof. intros r1 r2 r3. unfold date_time_desc. lia. Qed.
#[export] Instance date_desc_total : Total date_desc.
Proof. intros r1 r2. unfold date_desc. lia. Qed.
#[export] Instance date_time_desc_total : Total date_time_desc.
Proof. intros r1 r2. unfold date_time_desc. lia. Qed.

(** [DiningTable.to_dict] *)
Definition table_to_json (t : dining_table) : json :=
  JObj [("id", JNum (table_id t)); ("table_number", JStr (table_number t));
        ("capacity", JNum (capacity t))].

(** [self.tables]: the secondary relationship joins the rows of
    [reservation_tables] of the reservation to [dining_tables], in the
    order of those rows. *)
Definition booked_tables (d : db) (r : reservation) : list dining_table :=
  omap (find_table d)
    ((fun rt => rt.2) <$> filter (fun rt => rt.1 = res_id r) (reservation_tables d)).

(** [Reservation.to_dict] *)
Definition reservation_to_json (d : db) (r : reservation) : json :=
  JObj [("id", JNum (res_id r)); ("customer_name", JStr (customer_name r));
        ("contact_info", JStr (contact_info r));
        ("reservation_date", JStr (format_date (reservation_date r)));
        ("reservation_time", JStr (format_time (reservation_time r)));
        ("status", JStr (status_to_string (status r)));
        ("booked_tables", JList (table_to_json <$> booked_tables d r))].

Section with_order.
Context `{SqlOrderBy}.

(** Lines 135-140. *)
Definition get_my_reservations (uid : Z) (d : db) : response :=
  match find_user d uid with
  | None => error_response 404 "User not found"
  | Some _ =>
      mk_response 200
        (JList (reservation_to_json d <$>
                order_by date_desc (filter (fun r => res_user_id r = Some uid) (reservations d))))
  end.

(** Lines 151-154. *)
Definition get_all_reservations (d : db) : response :=
  mk_response 200 (JList (reservation_to_json d <$> order_by date_time_desc (reservations d))).

(** ** Lemmas *)

(** Every pair of rows is in the order of [R], not only neighbours. *)
Lemma order_by_strongly_sorted {A} (R : relation A) `{RelDecision A A R} `{!Total R}
    `{!Transitive R} l :
  StronglySorted R (order_by R l).
Proof. apply Sorted_StronglySorted; [apply _|apply order_by_sorted; apply _]. Qed.

End with_order.

Lemma find_table_spec d tid t :
  wf d -> find_table d tid = Some t <-> t ∈ dining_tables d /\ table_id t = tid.
Proof. intros Hwf. apply head_filter_key, (wf_tables_pk d Hwf). Qed.


Lemma NoDup_snd_filter_fst (rts : list (Z * Z)) k :
  NoDup rts -> NoDup ((fun rt => rt.2) <$> filter (fun rt => rt.1 = k) rts).
Proof.
  induction 1 as [|rt rts Hrt Hrts IH]; [constructor|].
  rewrite filter_cons. case_decide as Hk; simpl; [|done].
  constructor; [|done]. intros (rt' & Heq & Hin)%list_elem_of_fmap.
  apply list_elem_of_filter in Hin as [Hk' Hin]. apply Hrt.
  destruct rt, rt'; simpl in *; subst. done.
Qed.

(** ** Properties *)

Section with_order_props.
Context `{SqlOrderBy}.

(** [get_all_reservations] answers 200 with every reservation exactly
    once, each rendered by [to_dict], and every row comes before the rows
    of an earlier date, and of an earlier time on the same date. *)
Lemma get_all_reservations_sorted d :
  wf d ->
  exists rs, get_all_reservations d = mk_response 200 (JList (reservation_to_json d <$> rs)) /\
    rs ≡ₚ reservations d /\ NoDup (res_id <$> rs) /\ StronglySorted date_time_desc rs.
Proof.
  intros Hwf. exists (order_by date_time_desc (reservations d)). split; [done|].
  split; [apply order_by_perm|]. split; [|apply (order_by_strongly_sorted date_time_desc)].
  rewrite (order_by_perm date_time_desc). apply (wf_reservations_pk d Hwf).
Qed.

(** C18: [get_my_reservations] answers 404 for an unknown user, and
    otherwise 200 with exactly that user's reservations, newest date
    first; reservations of the same date come in no order the code fixes
    (the spec, section 4.5, asks for insertion order). *)
Theorem get_my_reservations_spec uid d :
  (find_user d uid = None -> get_my_reservations uid d = error_response 404 "User not found") /\
  (forall u, find_user d uid = Some u ->
   exists rs, get_my_reservations uid d = mk_response 200 (JList (reservation_to_json d <$> rs)) /\
     rs ≡ₚ filter (fun r => res_user_id r = Some uid) (reservations d) /\
     StronglySorted date_desc rs).
Proof.
  split; [intros Hu; unfold get_my_reservations; by rewrite Hu|].
  intros u Hu. unfold get_my_reservations. rewrite Hu. eexists. split; [reflexivity|].
  split; [apply order_by_perm|apply (order_by_strongly_sorted date_desc)].
Qed.
End with_order_props.

(** In a well-formed store, the [booked_tables] of a reservation's
    [to_dict] are exactly the tables its [reservation_tables] rows name,
    each once. *)
Lemma booked_tables_spec d r :
  wf d ->
  (forall t, t ∈ booked_tables d r <->
     t ∈ dining_tables d /\ (res_id r, table_id t) ∈ reservation_tables d) /\
  NoDup (booked_tables d r).
Proof.
  intros Hwf. unfold booked_tables. split.
  - intros t. rewrite list_elem_of_omap. split.
    + intros (tid & Htid & Hf). apply find_table_spec in Hf as [Ht <-]; [|done].
      apply list_elem_of_fmap in Htid as ([r' t'] & Heq & Hin).
      apply list_elem_of_filter in Hin as [Hk Hin]. simpl in *. subst. done.
    + intros [Ht Hin]. exists (table_id t). split; [|by apply find_table_spec].
      apply list_elem_of_fmap. exists (res_id r, table_id t). split; [done|].
      by apply list_elem_of_filter.
  - apply (NoDup_omap_key table_id); [intros k x Hx; by apply find_table_spec in Hx as [_ ?]|].
    apply NoDup_snd_filter_fst, (wf_assoc_pk d Hwf).
Qed.

(** ** Witnesses *)

(** Ann (user 1) holds reservation 1 (2025-06-01 19:00, table 1) and
    reservation 3 (2025-07-04 18:00, tables 1 and 2); reservation 2 is
    anonymous. *)
Definition q_db : db :=
  mk_db [mk_user 1 "ann" "pbkdf2$x" "ann@example.com" "555-0100"]
    [mk_table 1 "T1" 4; mk_table 2 "T2" 2]
    [mk_reservation 1 "Ann" "555-0100" (mk_date 2025 6 1) (mk_time 19 0) Accepted (Some 1);
     mk_reservation 2 "Bob" "555-0101" (mk_date 2025 6 1) (mk_time 20 0) Pending None;
     mk_reservation 3 "Ann" "555-0100" (mk_date 2025 7 4) (mk_time 18 0) Pending (Some 1)]
    [(1, 1); (2, 2); (3, 2); (3, 1)] 2 3 4.

Lemma q_db_wf : wf q_db.
Proof. apply wfb_sound. reflexivity. Qed.

Lemma get_all_reservations_sorted_witness :
  exists rs, get_all_reservations q_db = mk_response 200 (JList (reservation_to_json q_db <$> rs)) /\
    rs ≡ₚ reservations q_db /\ NoDup (res_id <$> rs) /\ StronglySorted date_time_desc rs.
Proof. apply get_all_reservations_sorted. exact q_db_wf. Defined.

Lemma get_my_reservations_spec_witness :
  (find_user q_db 7 = None -> get_my_reservations 7 q_db = error_response 404 "User not found") /\
  (forall u, find_user q_db 7 = Some u ->
   exists rs, get_my_reservations 7 q_db = mk_response 200 (JList (reservation_to_json q_db <$> rs)) /\
     rs ≡ₚ filter (fun r => res_user_id r = Some 7) (reservations q_db) /\
     StronglySorted date_desc rs).
Proof. apply get_my_reservations_spec. Defined.

Lemma booked_tables_spec_witness :
  (forall t, t ∈ booked_tables q_db (mk_reservation 3 "Ann" "555-0100" (mk_date 2025 7 4)
                                       (mk_time 18 0) Pending (Some 1)) <->
     t ∈ dining_tables q_db /\ (3, table_id t) ∈ reservation_tables q_db) /\
  NoDup (booked_tables q_db (mk_reservation 3 "Ann" "555-0100" (mk_date 2025 7 4)
                              (mk_time 18 0) Pending (Some 1))).
Proof. apply booked_tables_spec. exact q_db_wf. Defined.

End Queries.
