(* ===== verification/Auth.v ===== *)
(** [Auth]: [register_client], [login_client] and [login_admin] ([app.py]
    lines 68-93), with [User.set_password] and [User.check_password]
    (lines 39-40).

    Password hashing belongs to werkzeug: the class [PasswordHasher] states
    the one law the handlers rely on (a hash generated from a password
    checks against that password) and the lemmas hold for every instance;
    [Password.werkzeug_hasher] is the instance modelled on werkzeug.
    The lookups [filter_by(username=...)] and [filter_by(email=...)]
    compare under the database collation ([SqlCollation]), as the unique
    keys do.
    [generate_password_hash] draws a random salt; the model takes it as an
    input of the request.  A password that is not a string makes
    [generate_password_hash] or [check_password_hash] raise (500).  A
    username, email or phone that is not a string would be compared and
    stored through MySQL's coercions, which the model does not follow:
    [register_client] answers it with 500 and [login_client] finds no
    user for such a username. *)

From S2P Require Import Prelude DateTime Json Store.
From Stdlib Require Import String.
Import Json Store.

Class PasswordHasher := {
  generate_password_hash : string -> string -> string;   (** salt, password *)
  check_password_hash : string -> string -> bool;        (** hash, password *)
  check_generate : forall salt pw, check_password_hash (generate_password_hash salt pw) pw = true
}.

(** A hasher that keeps the password readable behind its salt, for the
    witnesses. *)
#[export] Instance plain_hasher : PasswordHasher.
Proof.
  refine {| generate_password_hash salt pw := (salt ++ "$" ++ pw)%string;
            check_password_hash h pw :=
              existsb (fun n => String.eqb h (substring 0 n h ++ "$" ++ pw)%string)
                      (seq 0 (S (String.length h))) |}.
  intros salt pw. apply existsb_exists. exists (String.length salt). split.
  - apply in_seq. split; [lia|]. clear. induction salt; simpl; lia.
  - apply String.eqb_eq. f_equal. clear. induction salt as [|a salt IH]; simpl; [done|].
    congruence.
Defined.

Module Auth.
Local Open Scope Z_scope.
Local Open Scope list_scope.

Section with_hasher.
Context `{SqlCollation, PasswordHasher}.

(** [User.query.filter_by(username=...).first()] and the same by email:
    the first row, in primary-key order, whose column compares equal
    under the collation. *)
Definition find_user_by_name (d : db) (name : string) : option user :=
  head (filter (fun u => coll_eq (username u) name = true) (users d)).
Definition find_user_by_email (d : db) (mail : string) : option user :=
  head (filter (fun u => coll_eq (email u) mail = true) (users d)).

(** Lines 68-79.  The password reaches a string operation only in
    [set_password] (line 76), after the two lookups. *)
Definition register_client (data : body) (salt : string) (d : db) : response * db :=
  if negb (forallb (fun k => truthy_opt (data !! k)) ["username"; "password"; "email"; "phone"])
  then (error_response 400 "All fields are required", d)
  else
    match as_string (data !! "username"), as_string (data !! "email"),
          as_string (data !! "phone") with
    | Some name, Some mail, Some phone =>
        if bool_decide (is_Some (find_user_by_name d name)) then
          (error_response 409 "Username already exists", d)
        else if bool_decide (is_Some (find_user_by_email d mail)) then
          (error_response 409 "Email address already registered", d)
        else
          match as_string (data !! "password") with
          | None => (internal_server_error, d)
          | Some pw =>
              match run_session (insert_user name (generate_password_hash salt pw) mail phone) d with
              | (Ok _, d') => (message_response 201 "User registered successfully", d')
              | (Err _, d') => (internal_server_error, d')
              end
          end
    | _, _, _ => (internal_server_error, d)
    end.

(** Lines 81-87. *)
Definition login_client (data : body) (d : db) : response :=
  match as_string (data !! "username") ≫= find_user_by_name d with
  | None => error_response 401 "Invalid username or password"
  | Some u =>
      match as_string (data !! "password") with
      | None => internal_server_error
      | Some pw =>
          if check_password_hash (password_hash u) pw then
            mk_response 200 (JObj [("message", JStr "Client login successful");
                                   ("user", JObj [("id", JNum (user_id u));
                                                  ("username", JStr (username u))])])
          else error_response 401 "Invalid username or password"
      end
  end.

End with_hasher.

(** Python's [==] between a field and a string literal: false for a
    missing field and for a value that is not a string. *)
Definition field_eq (v : option json) (lit : string) : bool :=
  match as_string v with Some s => String.eqb s lit | None => false end.

(** Lines 89-93. *)
Definition login_admin (data : body) : response :=
  if field_eq (data !! "username") "admin" && field_eq (data !! "password") "admin123"
  then message_response 200 "Admin login successful"
  else error_response 401 "Invalid admin credentials".

(** The four fields of a registration, as non-empty strings. *)
Definition register_fields (data : body) (name pw mail phone : string) : Prop :=
  data !! "username" = Some (JStr name) /\ data !! "password" = Some (JStr pw) /\
  data !! "email" = Some (JStr mail) /\ data !! "phone" = Some (JStr phone) /\
  name <> "" /\ pw <> "" /\ mail <> "" /\ phone <> "".

(** ** Lemmas *)

Section with_collation_lemmas.
Context `{SqlCollation}.

Lemma head_filter_coll {A} (key : A -> string) (rows : list A) s :
  head (filter (fun x => coll_eq (key x) s = true) rows) = None <-> taken key rows s = false.
Proof.
  induction rows as [|x rows IH]; [done|]. rewrite filter_cons. cbn [taken existsb].
  unfold taken in IH. destruct (coll_eq (key x) s); cbn; [done|]. by rewrite decide_False.
Qed.

Lemma find_user_by_name_None d n : find_user_by_name d n = None <-> taken username (users d) n = false.
Proof. apply head_filter_coll. Qed.
Lemma find_user_by_email_None d m : find_user_by_email d m = None <-> taken email (users d) m = false.
Proof. apply head_filter_coll. Qed.

End with_collation_lemmas.

Section with_hasher_lemmas.
Context `{SqlCollation, PasswordHasher}.

(** With the four fields present, the handler goes on to the two
    uniqueness checks and the insert. *)
Lemma register_client_fields data salt name pw mail phone d :
  register_fields data name pw mail phone ->
  register_client data salt d =
    if bool_decide (is_Some (find_user_by_name d name)) then
      (error_response 409 "Username already exists", d)
    else if bool_decide (is_Some (find_user_by_email d mail)) then
      (error_response 409 "Email address already registered", d)
    else
      match run_session (insert_user name (generate_password_hash salt pw) mail phone) d with
      | (Ok _, d') => (message_response 201 "User registered successfully", d')
      | (Err _, d') => (internal_server_error, d')
      end.
Proof.
  intros (Hu & Hp & He & Hph & Hn1 & Hn2 & Hn3 & Hn4).
  apply String.eqb_neq in Hn1, Hn2, Hn3, Hn4.
  unfold register_client. simpl. rewrite Hu, Hp, He, Hph. simpl. by rewrite Hn1, Hn2, Hn3, Hn4.
Qed.

(** The insert of a fresh user, when the counter has room. *)
Lemma insert_user_fresh name hash mail phone d :
  too_long [(ColUsername, name); (ColPasswordHash, hash); (ColEmail, mail); (ColPhoneNumber, phone)] = None ->
  taken username (users d) name = false -> taken email (users d) mail = false -> next_user_id d <= int_max ->
  run_session (insert_user name hash mail phone) d =
    (Ok (next_user_id d),
     with_users d (users d ++ [mk_user (next_user_id d) name hash mail phone]) (next_user_id d + 1)).
Proof.
  intros Hfit Hn Hm Hmax. unfold run_session, insert_user. rewrite Hfit.
  rewrite bool_decide_false by lia. by rewrite Hn, Hm.
Qed.

End with_hasher_lemmas.

Lemma field_eq_spec v lit : field_eq v lit = true <-> v = Some (JStr lit).
Proof.
  unfold field_eq, as_string.
  destruct v as [[]|]; rewrite ?String.eqb_eq; split; intros; by simplify_eq.
Qed.

Section with_collation_rows.
Context `{SqlCollation}.


(** A stored username finds a row. *)
Lemma find_user_by_name_stored d u : u ∈ users d -> is_Some (find_user_by_name d (username u)).
Proof.
  intros Hu. apply not_eq_None_Some. rewrite find_user_by_name_None.
  apply not_false_iff_true, taken_elem, list_elem_of_fmap_2, Hu.
Qed.

Lemma find_user_by_name_snoc d n u :
  taken username (users d) n = false -> username u = n ->
  find_user_by_name (with_users d (users d ++ [u]) (next_user_id d + 1)) n = Some u.
Proof.
  intros Hn Hu. unfold find_user_by_name. cbn [users with_users].
  rewrite filter_app. apply head_filter_coll in Hn. destruct (filter _ (users d)) eqn:E; [|done].
  rewrite app_nil_l, filter_cons_True; [done|]. subst. apply coll_eq_refl.
Qed.

End with_collation_rows.

(** ** Properties *)

Section with_hasher_props.
Context `{SqlCollation, PasswordHasher}.

(** A registration with the four fields as non-empty strings, a
    fresh username, a fresh email and room in the [users] counter answers
    201 and appends exactly one user, with the next id and the password's
    hash, to the store. *)
Lemma register_client_success data salt name pw mail phone d :
  register_fields data name pw mail phone ->
  too_long [(ColUsername, name); (ColPasswordHash, generate_password_hash salt pw);
            (ColEmail, mail); (ColPhoneNumber, phone)] = None ->
  taken username (users d) name = false -> taken email (users d) mail = false ->
  next_user_id d <= int_max ->
  register_client data salt d =
    (message_response 201 "User registered successfully",
     with_users d (users d ++ [mk_user (next_user_id d) name (generate_password_hash salt pw) mail phone])
       (next_user_id d + 1)).
Proof.
  intros Hf Hfit Hn Hm Hmax. rewrite (register_client_fields _ _ _ _ _ _ _ Hf).
  rewrite !bool_decide_false
    by (apply eq_None_not_Some; by apply find_user_by_name_None || apply find_user_by_email_None).
  by rewrite insert_user_fresh.
Qed.

(** C21: a username that compares equal, under the collation, to a
    stored one is answered with 409 before the email is looked at, such
    an email with a free username with the other 409, and neither
    changes the store. *)
Theorem register_client_duplicate data salt name pw mail phone d :
  register_fields data name pw mail phone ->
  (taken username (users d) name = true ->
   register_client data salt d = (error_response 409 "Username already exists", d)) /\
  (taken username (users d) name = false -> taken email (users d) mail = true ->
   register_client data salt d = (error_response 409 "Email address already registered", d)).
Proof.
  intros Hf. rewrite (register_client_fields _ _ _ _ _ _ _ Hf). split.
  - intros Hn. rewrite bool_decide_true; [done|].
    apply not_eq_None_Some. rewrite find_user_by_name_None. congruence.
  - intros Hn Hm. rewrite bool_decide_false
      by (apply eq_None_not_Some; by apply find_user_by_name_None).
    rewrite bool_decide_true; [done|]. apply not_eq_None_Some. rewrite find_user_by_email_None. congruence.
Qed.

(** A registration missing one of the four fields, or giving it as
    an empty string, is answered with 400 and changes nothing. *)
Lemma register_client_missing data salt d k :
  k ∈ ["username"; "password"; "email"; "phone"] ->
  data !! k = None \/ data !! k = Some (JStr "") ->
  register_client data salt d = (error_response 400 "All fields are required", d).
Proof.
  intros Hk Hv. unfold register_client.
  replace (forallb _ _) with false; [done|]. symmetry. apply not_true_iff_false.
  rewrite forallb_forall. intros Hall. apply list_elem_of_In, Hall in Hk.
  by destruct Hv as [Hv|Hv]; rewrite Hv in Hk.
Qed.

(** [register_client] keeps the store well formed on every input:
    usernames and emails stay unique. *)
Lemma register_client_wf data salt d : wf d -> wf (register_client data salt d).2.
Proof.
  intros Hwf. unfold register_client.
  repeat case_match; simplify_eq/=; try done;
    match goal with
    | E : run_session ?m d = (_, ?d') |- wf ?d' =>
        pose proof (run_session_wf m d ltac:(auto with rr) Hwf) as Hw; by rewrite E in Hw
    end.
Qed.

(** C19: after a registration answered with 201, logging in with the same
    username and password answers 200 with the new user's id. *)
Theorem register_login_roundtrip data login salt name pw mail phone d resp d' :
  register_fields data name pw mail phone ->
  register_client data salt d = (resp, d') -> status_code resp = 201 ->
  login !! "username" = Some (JStr name) -> login !! "password" = Some (JStr pw) ->
  login_client login d' =
    mk_response 200 (JObj [("message", JStr "Client login successful");
                           ("user", JObj [("id", JNum (next_user_id d)); ("username", JStr name)])]).
Proof.
  intros Hf Hreg Hcode Hlu Hlp. rewrite (register_client_fields _ _ _ _ _ _ _ Hf) in Hreg.
  case_bool_decide as Hn; [by simplify_eq|]. case_bool_decide as Hm; [by simplify_eq|].
  apply eq_None_not_Some, find_user_by_name_None in Hn.
  apply eq_None_not_Some, find_user_by_email_None in Hm.
  destruct (too_long [(ColUsername, name); (ColPasswordHash, generate_password_hash salt pw);
                      (ColEmail, mail); (ColPhoneNumber, phone)]) eqn:Hfit.
  { unfold run_session, insert_user in Hreg. rewrite Hfit in Hreg. by simplify_eq. }
  destruct (decide (next_user_id d <= int_max)) as [Hmax|Hmax].
  - rewrite insert_user_fresh in Hreg by done. simplify_eq.
    unfold login_client. rewrite Hlu, Hlp. simpl.
    rewrite find_user_by_name_snoc by done. simpl. by rewrite check_generate.
  - unfold run_session, insert_user in Hreg. rewrite Hfit, bool_decide_true in Hreg by lia.
    by simplify_eq.
Qed.


(** C30: for a stored username, a request without a [password] string
    reaches [check_password_hash] with [None] and is answered with 500,
    not with the 401 of a wrong password. *)
Theorem login_client_missing_password data d u :
  u ∈ users d -> data !! "username" = Some (JStr (username u)) ->
  as_string (data !! "password") = None ->
  login_client data d = internal_server_error.
Proof.
  intros Hin Hu Hp. unfold login_client. rewrite Hu. simpl.
  destruct (find_user_by_name_stored d u Hin) as [u' ->]. simpl. by rewrite Hp.
Qed.

End with_hasher_props.

(** [login_admin] answers 200 exactly for the fixed pair [admin] /
    [admin123], whatever the store holds. *)
Lemma login_admin_spec data :
  status_code (login_admin data) = 200 <->
  data !! "username" = Some (JStr "admin") /\ data !! "password" = Some (JStr "admin123").
Proof.
  unfold login_admin. rewrite <- !field_eq_spec.
  destruct (field_eq _ "admin"), (field_eq _ "admin123"); simpl; naive_solver.
Qed.

(** ** Witnesses *)

(** A collation that ignores the case of ASCII letters, as MySQL's
    default does. *)
Definition ascii_lower (c : Ascii.ascii) : Ascii.ascii :=
  let n := Ascii.N_of_ascii c in
  if ((65 <=? n) && (n <=? 90))%N then Ascii.ascii_of_N (n + 32) else c.

Definition ascii_ci_collation : SqlCollation.
Proof.
  refine {| coll_eq a b := bool_decide (ascii_lower <$> list_ascii_of_string a =
                                        ascii_lower <$> list_ascii_of_string b) |}.
  intros s. by apply bool_decide_eq_true.
Defined.

#[local] Existing Instance binary_collation.

(** Ann is registered (under [plain_hasher]); Bob registers. *)
Definition auth_db : db :=
  mk_db [mk_user 1 "ann" (generate_password_hash "s1" "pw1") "ann@example.com" "555-0100"]
    [] [] [] 2 1 1.

Definition reg_data (name mail : string) : body :=
  list_to_map [("username", JStr name); ("password", JStr "hunter2");
               ("email", JStr mail); ("phone", JStr "555-0101")].

Definition login_data (name pw : string) : body :=
  list_to_map [("username", JStr name); ("password", JStr pw)].

Ltac auth_hyp :=
  first [ reflexivity | vm_decide | (apply wfb_sound; reflexivity)
        | (split_and!; first [reflexivity | discriminate]) | (left; reflexivity) ].

Lemma register_client_success_witness :
  register_client (reg_data "bob" "bob@example.com") "s2" auth_db =
    (message_response 201 "User registered successfully",
     with_users auth_db
       (users auth_db ++ [mk_user 2 "bob" (generate_password_hash "s2" "hunter2") "bob@example.com" "555-0101"])
       3).
Proof. apply register_client_success; auth_hyp. Defined.

(** Under the case-insensitive collation, [Ann] is taken by [ann]. *)
Lemma register_client_duplicate_witness :
  ((@taken ascii_ci_collation _ username (users auth_db) "Ann" = true ->
    @register_client ascii_ci_collation _ (reg_data "Ann" "x@example.com") "s2" auth_db =
      (error_response 409 "Username already exists", auth_db)) /\
   (@taken ascii_ci_collation _ username (users auth_db) "Ann" = false ->
    @taken ascii_ci_collation _ email (users auth_db) "x@example.com" = true ->
    @register_client ascii_ci_collation _ (reg_data "Ann" "x@example.com") "s2" auth_db =
      (error_response 409 "Email address already registered", auth_db))) /\
  @taken ascii_ci_collation _ username (users auth_db) "Ann" = true.
Proof.
  split; [apply (@register_client_duplicate ascii_ci_collation _ _ _ _ "hunter2" _ "555-0101"); auth_hyp
         | reflexivity].
Defined.

Lemma register_client_missing_witness :
  register_client (list_to_map [("username", JStr "bob"); ("password", JStr "")]) "s2" auth_db =
    (error_response 400 "All fields are required", auth_db).
Proof. apply (register_client_missing _ _ _ "email"); [auth_hyp | left; reflexivity]. Defined.

Lemma register_login_roundtrip_witness :
  login_client (login_data "bob" "hunter2") (register_client (reg_data "bob" "bob@example.com") "s2" auth_db).2 =
    mk_response 200 (JObj [("message", JStr "Client login successful");
                           ("user", JObj [("id", JNum 2); ("username", JStr "bob")])]).
Proof.
  apply (register_login_roundtrip (reg_data "bob" "bob@example.com") _ "s2" "bob" "hunter2"
           "bob@example.com" "555-0101" auth_db
           (register_client (reg_data "bob" "bob@example.com") "s2" auth_db).1);
    [auth_hyp | apply surjective_pairing | auth_hyp..].
Defined.


Lemma login_client_missing_password_witness :
  login_client (list_to_map [("username", JStr "ann")]) auth_db = internal_server_error.
Proof.
  apply (login_client_missing_password _ _ (mk_user 1 "ann" (generate_password_hash "s1" "pw1")
                                              "ann@example.com" "555-0100")); auth_hyp.
Defined.

End Auth.
