(* ===== verification/Server.v ===== *)
(** [Server]: the route table of [app.py] (the [@app.route] decorators,
    lines 68-167) as one request type and one dispatcher, a run of the
    server as the sequence of requests it handles, and the stores the
    server can reach.

    Each request is one Flask request with its own database session; the
    store gives every session read-committed isolation and the handlers
    read and commit within one session, so a run of concurrent requests
    is modelled by the order in which their sessions commit ([serve] on a
    list).  The [<int:...>] converter of werkzeug accepts only
    non-negative integers: a negative id matches no route and is answered
    with Flask's 404 page.  Dining tables have no route: they are written
    into the database from outside ([reachable_seed]). *)

From S2P Require Import Prelude DateTime Json Store Availability Booking Lifecycle Queries Auth.
From Stdlib Require Import String.
Import Strptime Json Store Availability Booking Lifecycle Queries Auth.

Module Server.
Local Open Scope Z_scope.
Local Open Scope list_scope.

Inductive request :=
| GetTables (date_arg time_arg : option string)   (** GET /api/tables *)
| PostReservation (data : body)                   (** POST /api/reservations *)
| GetMyReservations (user_id : Z)                 (** GET /api/my-reservations/<int:user_id> *)
| PutCancel (id : Z)                              (** PUT /api/reservations/<int:id>/cancel *)
| GetReservations                                 (** GET /api/reservations *)
| PutStatus (id : Z) (data : body)                (** PUT /api/reservations/<int:id>/status *)
| DeleteReservation (id : Z)                      (** DELETE /api/reservations/<int:id> *)
| PostRegister (data : body) (salt : string)      (** POST /api/register *)
| PostLoginClient (data : body)                   (** POST /api/login/client *)
| PostLoginAdmin (data : body).                   (** POST /api/login/admin *)

(** Flask's answer when no route matches. *)
Definition not_found : response := error_page 404 "Not Found".

Section with_env.
Context `{SqlTimeCompare, SetList, SqlOrderBy, SqlCollation, PasswordHasher}.

(** A route with an [<int:...>] segment. *)
Definition int_route (n : Z) (k : db -> response * db) (d : db) : response * db :=
  if bool_decide (0 <= n) then k d else (not_found, d).

Definition handle (q : request) (d : db) : response * db :=
  match q with
  | GetTables date_arg time_arg => (get_table_status date_arg time_arg d, d)
  | PostReservation data => create_reservation data d
  | GetMyReservations uid => int_route uid (fun d => (get_my_reservations uid d, d)) d
  | PutCancel id => int_route id (cancel_reservation id) d
  | GetReservations => (get_all_reservations d, d)
  | PutStatus id data => int_route id (update_reservation_status id data) d
  | DeleteReservation id => int_route id (delete_reservation id) d
  | PostRegister data salt => register_client data salt d
  | PostLoginClient data => (login_client data d, d)
  | PostLoginAdmin data => (login_admin data, d)
  end.

(** The requests in the order their sessions commit. *)
Fixpoint serve (qs : list request) (d : db) : list response * db :=
  match qs with
  | [] => ([], d)
  | q :: qs =>
      let rd := handle q d in
      let rs := serve qs rd.2 in
      (rd.1 :: rs.1, rs.2)
  end.

(** The stores the server can reach from an empty schema
    ([db.create_all()], line 178): dining tables inserted from outside,
    then any request. *)
Inductive reachable : db -> Prop :=
| reachable_empty : reachable empty_db
| reachable_seed d number cap : reachable d -> reachable (run_session (insert_table number cap) d).2
| reachable_handle d q : reachable d -> reachable (handle q d).2.

(** The requests that only read. *)
Definition read_only (q : request) : bool :=
  match q with
  | GetTables _ _ | GetMyReservations _ | GetReservations | PostLoginClient _ | PostLoginAdmin _ => true
  | _ => false
  end.

(** ** Lemmas *)

Lemma int_route_wf n k d : (wf d -> wf (k d).2) -> wf d -> wf (int_route n k d).2.
Proof. unfold int_route. case_bool_decide; auto. Qed.

Lemma handle_wf q d : wf d -> wf (handle q d).2.
Proof.
  intros Hwf. destruct q as [| |uid|id| |id data|id| | |]; simpl; try done.
  - by apply create_reservation_wf.
  - by apply int_route_wf.
  - apply int_route_wf; [|done]. intros Hd. apply (lifecycle_wf id ∅ d Hd).
  - apply int_route_wf; [|done]. intros Hd. apply (lifecycle_wf id data d Hd).
  - apply int_route_wf; [|done]. intros Hd. apply (lifecycle_wf id ∅ d Hd).
  - by apply register_client_wf.
Qed.

Lemma read_only_handle q d : read_only q = true -> (handle q d).2 = d.
Proof. destruct q; simpl; try done; intros _; unfold int_route; by case_bool_decide. Qed.

Lemma serve_reachable qs d : reachable d -> reachable (serve qs d).2.
Proof.
  revert d. induction qs as [|q qs IH]; intros d Hd; simpl; [done|].
  apply IH. by constructor.
Qed.



(** The hypotheses under which [create_reservation] reaches its unit of
    work and the unit commits (as in [Booking.create_reservation_success]). *)
Definition bookable (data : body) (d : db) (tids : list Z) (b : booking) : Prop :=
  (forall f, f ∈ required_fields -> is_Some (data !! f)) /\
  data !! "table_ids" = Some (JList (JNum <$> tids)) /\ tids <> [] /\ read_booking data = Ok b /\
  (forall u, b_user b = Some u -> u ∈ user_id <$> users d) /\
  Forall (fun t => t ∈ table_id <$> dining_tables d) tids /\
  (String.length (b_name b) <= column_width ColCustomerName)%nat /\
  (String.length (b_contact b) <= column_width ColContactInfo)%nat.

(** The row of a table the slot leaves free. *)
Lemma table_status_rows_free d dt ts tm t :
  parse_time ts = Ok tm -> t ∈ table_id <$> dining_tables d -> ~ occupied d dt tm t ->
  exists tab, table_id tab = t /\ mk_row tab false ∈ table_status_rows d dt ts.
Proof.
  intros Hts (tab & -> & Htab)%list_elem_of_fmap Hfree. exists tab. split; [done|].
  apply list_elem_of_fmap. exists tab. split; [|done].
  rewrite bool_decide_false; [done|]. by rewrite (booked_ids_occupied _ _ _ _ _ Hts).
Qed.

End with_env.

(** ** Properties *)

Section with_env_props.
Context `{SqlTimeCompare, SetList, SqlOrderBy, SqlCollation, PasswordHasher}.


(** C4: every store the server reaches is well formed: keys and unique
    columns have no duplicates, every foreign key names an existing row
    and every id lies below the auto-increment counters, which stay at
    most [2^31]. *)
Theorem reachable_wf d : reachable d -> wf d.
Proof.
  induction 1 as [|d number cap _ IH|d q _ IH].
  - apply empty_db_wf.
  - apply run_session_wf; auto with rr.
  - by apply handle_wf.
Qed.

(** A read-only request (table status, reservation lists, logins)
    leaves the store as it is, so the same request served twice in a row
    gets the same answer (the spec's idempotent read, section 8). *)
Lemma read_only_idempotent q d :
  read_only q = true ->
  exists r, serve [q; q] d = ([r; r], d).
Proof.
  intros Hq. exists (handle q d).1. simpl. rewrite !read_only_handle by done. done.
Qed.

(** C8: the check-then-book race of the spec (sections 5 and 9): two
    clients ask for the same slot and both see table [t] free, then both
    book it; both bookings are answered 201 and two reservations then
    hold [t] for the slot. *)
Theorem interleaved_double_booking d ds ts dt tm data1 data2 tids1 tids2 b1 b2 t :
  wf d -> parse_date ds = Ok dt -> parse_time ts = Ok tm ->
  bookable data1 d tids1 b1 -> bookable data2 d tids2 b2 ->
  b_date b1 = dt -> b_time b1 = tm -> b_date b2 = dt -> b_time b2 = tm ->
  t ∈ tids1 -> t ∈ tids2 -> ~ occupied d dt tm t -> next_reservation_id d + 1 <= int_max ->
  exists rows c1 c2 d',
    serve [GetTables (Some ds) (Some ts); GetTables (Some ds) (Some ts);
           PostReservation data1; PostReservation data2] d =
      ([mk_response 200 (JList (row_to_json <$> rows)); mk_response 200 (JList (row_to_json <$> rows));
        c1; c2], d') /\
    (exists tab, table_id tab = t /\ mk_row tab false ∈ rows) /\
    status_code c1 = 201 /\ status_code c2 = 201 /\
    exists r1 r2, res_id r1 <> res_id r2 /\ holds_slot d' dt tm t r1 /\ holds_slot d' dt tm t r2.
Proof.
  intros Hwf Hds Hts (Hf1 & Ht1 & Hne1 & Hb1 & Hu1 & Htab1 & Hn1 & Hc1)
    (Hf2 & Ht2 & Hne2 & Hb2 & Hu2 & Htab2 & Hn2 & Hc2)
    Hd1 Htm1 Hd2 Htm2 Hin1 Hin2 Hfree Hmax.
  assert (Hwf1 := create_reservation_wf data1 d Hwf).
  rewrite (create_reservation_eq data1 d tids1 b1) in Hwf1 by (done || lia).
  exists (table_status_rows d dt ts). eexists _, _, _. split.
  { cbn [serve handle fst snd].
    rewrite (get_table_status_rows d ds ts dt Hds) by (apply String.eqb_neq, (parse_time_nonempty _ _ Hts)).
    rewrite (create_reservation_eq data1 d tids1 b1) by (done || lia). cbn [fst snd].
    rewrite (create_reservation_eq data2 (booked_db d tids1 b1) tids2 b2) by (done || simpl; lia).
    reflexivity. }
  split; [apply (table_status_rows_free _ _ _ tm); [done| |done]; by apply (proj1 (Forall_forall _ _) Htab1)|].
  do 2 (split; [done|]).
  exists (new_reservation d b1), (new_reservation (booked_db d tids1 b1) b2).
  split; [simpl; lia|]. unfold holds_slot. simpl. rewrite !elem_of_app, !list_elem_of_fmap.
  split; (split; [set_solver|]); (split; [|by subst]).
  - left. right. exists t. split; [done|]. by apply set_list_elem_of.
  - right. exists t. split; [done|]. by apply set_list_elem_of.
Qed.

End with_env_props.

(** ** The scenario of the spec (section 8) *)

#[local] Existing Instance binary_collation.

(** Tables T1 (capacity 4) and T2 (capacity 2), written from outside. *)
Definition seed_db : db :=
  (run_session (insert_table "T2" 2) (run_session (insert_table "T1" 4) empty_db).2).2.

Definition booking_request (name : string) (tids : list Z) (uid : json) : body :=
  list_to_map [("name", JStr name); ("contact", JStr "555-0100");
               ("date", JStr "2025-07-04"); ("time", JStr "18:00");
               ("table_ids", JList (JNum <$> tids)); ("userId", uid)].

Definition slot_query : request := GetTables (Some "2025-07-04") (Some "18:00").

Definition scenario : list request :=
  [PostRegister (list_to_map [("username", JStr "ann"); ("password", JStr "pw1");
                              ("email", JStr "ann@example.com"); ("phone", JStr "555-0100")]) "s1";
   slot_query;
   PostReservation (booking_request "Ann" [1; 2] (JNum 1));
   slot_query;
   PutStatus 1 (<["status" := JStr "Accepted"]> ∅);
   GetMyReservations 1;
   DeleteReservation 1;
   slot_query].

Definition table_json (id : Z) (number : string) (cap : Z) : list (string * json) :=
  [("id", JNum id); ("table_number", JStr number); ("capacity", JNum cap)].

Definition slot_answer (booked : bool) : response :=
  mk_response 200 (JList [JObj (table_json 1 "T1" 4 ++ [("is_booked", JBool booked)]);
                          JObj (table_json 2 "T2" 2 ++ [("is_booked", JBool booked)])]).

(** The end-to-end scenario of the spec (section 8), served in
    order from the two seeded tables with the instances of the
    interfaces that run: the slot is free, a reservation of T1 and T2
    makes both tables booked, the owner's list shows it Accepted with
    both tables after the review, and its deletion frees both tables. *)
Lemma scenario_answers :
  (serve scenario seed_db).1 =
    [message_response 201 "User registered successfully";
     slot_answer false;
     mk_response 201 (JObj [("message", JStr "Reservation successful!"); ("id", JNum 1)]);
     slot_answer true;
     message_response 200 "Reservation #1 status updated to Accepted";
     mk_response 200 (JList [JObj [("id", JNum 1); ("customer_name", JStr "Ann");
                                   ("contact_info", JStr "555-0100");
                                   ("reservation_date", JStr "2025-07-04");
                                   ("reservation_time", JStr "18:00");
                                   ("status", JStr "Accepted");
                                   ("booked_tables", JList [JObj (table_json 1 "T1" 4);
                                                            JObj (table_json 2 "T2" 2)])]]);
     message_response 200 "Reservation #1 deleted successfully.";
     slot_answer false].
Proof. vm_compute. reflexivity. Qed.

(** ** Witnesses *)

Lemma reachable_wf_witness : wf (serve scenario seed_db).2.
Proof.
  apply reachable_wf, serve_reachable, reachable_seed, reachable_seed, reachable_empty.
Defined.

Lemma read_only_idempotent_witness :
  exists r, serve [GetReservations; GetReservations] seed_db = ([r; r], seed_db).
Proof. apply read_only_idempotent. reflexivity. Defined.

Ltac server_hyp :=
  first [ reflexivity | vm_decide | (apply wfb_sound; reflexivity)
        | (intros (r & Hr & _); by apply elem_of_nil in Hr)
        | (split_and!; first [ apply required_fields_present; reflexivity | reflexivity
                             | discriminate | (intros ??; discriminate) | vm_decide ]) ].

Lemma interleaved_double_booking_witness :
  exists rows c1 c2 d',
    serve [slot_query; slot_query; PostReservation (booking_request "Ann" [1] JNull);
           PostReservation (booking_request "Bob" [1; 2] JNull)] seed_db =
      ([mk_response 200 (JList (row_to_json <$> rows)); mk_response 200 (JList (row_to_json <$> rows));
        c1; c2], d') /\
    (exists tab, table_id tab = 1 /\ mk_row tab false ∈ rows) /\
    status_code c1 = 201 /\ status_code c2 = 201 /\
    exists r1 r2, res_id r1 <> res_id r2 /\
      holds_slot d' (mk_date 2025 7 4) (mk_time 18 0) 1 r1 /\
      holds_slot d' (mk_date 2025 7 4) (mk_time 18 0) 1 r2.
Proof.
  apply (interleaved_double_booking seed_db "2025-07-04" "18:00" (mk_date 2025 7 4) (mk_time 18 0)
           _ _ [1] [1; 2] (mk_booking "Ann" "555-0100" (mk_date 2025 7 4) (mk_time 18 0) None)
           (mk_booking "Bob" "555-0100" (mk_date 2025 7 4) (mk_time 18 0) None));
    server_hyp.
Defined.

End Server.
