(* ===== verification/Book.v ===== *)
(** [Book]: the reservation book of the spec (sections 3 and 4) as an
    abstract state, and the refinement of the server by it.

    The book maps each reservation id to its entry: the customer's name
    and contact, the slot, the status, the owner and the tables it holds.
    Its operations are the spec's: create a Pending reservation holding a
    non-empty set of existing tables under a fresh id, give an existing
    reservation a new status (Accepted, Rejected or Cancelled), delete an
    existing reservation, or leave the book as it is.  [abs] reads the
    book off a store (a reservation with the rows of [reservation_tables]
    that name it); the refinement theorem shows that every request the
    server handles changes the book by one of these operations and leaves
    the dining tables alone. *)

From S2P Require Import Prelude DateTime Json Store Availability Booking Lifecycle Queries Auth Server.
From Stdlib Require Import String.
Import Strptime Json Store Availability Booking Lifecycle Queries Auth Server.

Module Book.
Local Open Scope Z_scope.
Local Open Scope list_scope.








(** ** The abstraction *)





(** ** Lemmas on the abstraction *)




















(** ** Properties *)

Section with_env_props.
Context `{SqlTimeCompare, SetList, SqlOrderBy, SqlCollation, PasswordHasher}.



End with_env_props.

(** ** Witnesses *)

#[local] Existing Instance binary_collation.



End Book.
