(* ===== verification/Http.v ===== *)
(** [Http]: the requests as they reach the views, with the [Content-Type]
    and the body text of the five routes that call [request.get_json()]
    (lines 70, 83, 91, 110 and 158).  The body is decoded by
    [JsonText.loads] the way Flask's [Request.get_json] does it (a
    content type other than JSON is a 415, undecodable text a 400), and
    the view then works on whatever JSON value came out: [data.get(k)] on
    anything but an object raises [AttributeError], and [field in data]
    in [create_reservation] tests list membership on an array and
    substrings on a string before [data['table_ids']] raises [TypeError].
    An exception the view does not catch is Flask's 500 page.  A body
    the decoder cannot represent (a float, a code point above U+00FF) is
    outside the model: [handle_http] answers [None] for it. *)

From S2P Require Import Prelude Json JsonText Store Availability Booking Lifecycle Queries Auth Server.
From Stdlib Require Import Ascii String.
Import Json JsonText Store Availability Booking Lifecycle Queries Auth Server.

Module Http.
Local Open Scope Z_scope.
Local Open Scope list_scope.

(** werkzeug's [Request.is_json]: the mimetype (the [Content-Type]
    without its parameters, lower-cased) is [application/json] or
    [application/*+json]. *)
Definition ends_with (suffix s : string) : bool :=
  let n := String.length s in
  let m := String.length suffix in
  (m <=? n)%nat && String.eqb (substring (n - m) m s) suffix.

Definition is_json (mimetype : string) : bool :=
  String.eqb mimetype "application/json" ||
  (String.prefix "application/" mimetype && ends_with "+json" mimetype).

Inductive get_json_error := UnsupportedMediaType | BadRequest.

(** [Request.get_json()] (Flask 2.3 and later): [None] is a body outside
    the model. *)
Definition get_json (mimetype : string) (text : list ascii) : option (result get_json_error json) :=
  if is_json mimetype then
    match loads text with
    | Ok v => Some (Ok v)
    | Err (JSONDecodeError _) => Some (Err BadRequest)
    | Err _ => None
    end
  else Some (Err UnsupportedMediaType).

(** [on_json_loading_failed]: the [UnsupportedMediaType] and [BadRequest]
    exceptions of werkzeug. *)
Definition get_json_error_page (e : get_json_error) : response :=
  match e with
  | UnsupportedMediaType => error_page 415 "Unsupported Media Type"
  | BadRequest => error_page 400 "Bad Request"
  end.

(** [p in s] on two [str]: [p] occurs in [s]. *)
Fixpoint is_substring (p s : list ascii) : bool :=
  bool_decide (p `prefix_of` s) ||
  match s with [] => false | _ :: s' => is_substring p s' end.

(** [field in data] on a value that is not a [dict]: equality with an
    element of a list, a substring of a string; [None] is the [TypeError]
    of a value that is not iterable. *)
Definition is_str (field : string) (x : json) : bool :=
  match x with JStr s => String.eqb s field | _ => false end.

Definition contains_field (data : json) (field : string) : option bool :=
  match data with
  | JList l => Some (existsb (is_str field) l)
  | JStr s => Some (is_substring (list_ascii_of_string field) (list_ascii_of_string s))
  | _ => None
  end.

Section with_env.
Context `{SqlTimeCompare, SetList, SqlOrderBy, SqlCollation, PasswordHasher}.

(** Lines 110-112 on any decoded value: a [dict] goes on to
    [create_reservation]; on a list or a string the membership tests run,
    and once all six names are found [data['table_ids']] raises
    [TypeError]; any other value raises at the first [in]. *)
Definition create_reservation_json (data : json) (d : db) : response * db :=
  match data with
  | JObj kv => create_reservation (list_to_map kv) d
  | _ =>
      match mapM (contains_field data) required_fields with
      | None => (internal_server_error, d)
      | Some found =>
          if forallb id found then (internal_server_error, d)
          else (error_response 400 "Missing required fields", d)
      end
  end.

(** [data.get(...)] on the decoded value: [AttributeError] unless it is a
    [dict]. *)
Definition with_dict (view : body -> db -> response * db) (data : json) (d : db) : response * db :=
  match data with
  | JObj kv => view (list_to_map kv) d
  | _ => (internal_server_error, d)
  end.

(** [data = request.get_json()] as the view's first statement. *)
Definition with_json (mimetype : string) (text : list ascii) (view : json -> db -> response * db)
    (d : db) : option (response * db) :=
  match get_json mimetype text with
  | None => None
  | Some (Err e) => Some (get_json_error_page e, d)
  | Some (Ok data) => Some (view data d)
  end.

Inductive http_request :=
| HGetTables (date_arg time_arg : option string)
| HPostReservation (mimetype : string) (text : list ascii)
| HGetMyReservations (user_id : Z)
| HPutCancel (id : Z)
| HGetReservations
| HPutStatus (id : Z) (mimetype : string) (text : list ascii)
| HDeleteReservation (id : Z)
| HPostRegister (mimetype : string) (text : list ascii) (salt : string)
| HPostLoginClient (mimetype : string) (text : list ascii)
| HPostLoginAdmin (mimetype : string) (text : list ascii).

(** The route table of [app.py] on raw requests; routes without a body
    are [Server.handle]. *)
Definition handle_http (q : http_request) (d : db) : option (response * db) :=
  match q with
  | HGetTables a b => Some (handle (GetTables a b) d)
  | HPostReservation mt t => with_json mt t create_reservation_json d
  | HGetMyReservations u => Some (handle (GetMyReservations u) d)
  | HPutCancel id => Some (handle (PutCancel id) d)
  | HGetReservations => Some (handle GetReservations d)
  | HPutStatus id mt t =>
      if bool_decide (0 <= id)
      then with_json mt t (with_dict (fun data => update_reservation_status id data)) d
      else Some (not_found, d)
  | HDeleteReservation id => Some (handle (DeleteReservation id) d)
  | HPostRegister mt t salt => with_json mt t (with_dict (fun data => register_client data salt)) d
  | HPostLoginClient mt t => with_json mt t (with_dict (fun data d => (login_client data d, d))) d
  | HPostLoginAdmin mt t => with_json mt t (with_dict (fun data d => (login_admin data, d))) d
  end.

End with_env.

(** The body of a request, when its route reads one. *)
Definition http_body (q : http_request) : option (string * list ascii) :=
  match q with
  | HPostReservation mt t | HPutStatus _ mt t | HPostRegister mt t _
  | HPostLoginClient mt t | HPostLoginAdmin mt t => Some (mt, t)
  | _ => None
  end.

(** The body is JSON text of an object. *)
Definition body_is_object (mt : string) (t : list ascii) : bool :=
  is_json mt && match loads t with Ok (JObj _) => true | _ => false end.

(** ** Lemmas *)

Lemma forallb_wf_fmap {A} (f : A -> json) (l : list A) :
  (forall x, json_wf (f x) = true) -> forallb json_wf (f <$> l) = true.
Proof. intros Hf. induction l as [|x l IH]; cbn; [done|]. by rewrite Hf, IH. Qed.

Lemma reservation_to_json_wf d r : json_wf (reservation_to_json d r) = true.
Proof.
  unfold reservation_to_json. cbn [json_wf forallb snd].
  rewrite forallb_wf_fmap by reflexivity. reflexivity.
Qed.

Ltac payload_wf :=
  cbn [payload fst snd json_wf];
  first [ reflexivity
        | rewrite forallb_wf_fmap; [reflexivity | first [reflexivity | apply reservation_to_json_wf]] ].

Lemma existsb_is_str l f : existsb (is_str f) l = true <-> JStr f ∈ l.
Proof.
  rewrite existsb_exists. setoid_rewrite <-list_elem_of_In. split.
  - intros ([| | |s| |] & Hin & Hs); try done. cbn in Hs. by apply String.eqb_eq in Hs as ->.
  - intros Hin. exists (JStr f). split; [done|]. apply String.eqb_refl.
Qed.

Lemma forallb_id_fmap {A} (g : A -> bool) l : forallb id (g <$> l) = forallb g l.
Proof. induction l; cbn; congruence. Qed.

Section with_env_lemmas.
Context `{SqlTimeCompare, SetList, SqlOrderBy, SqlCollation, PasswordHasher}.

Lemma handle_http_payload_wf q d r d' :
  handle_http q d = Some (r, d') -> json_wf (payload r) = true.
Proof.
  intros Hq%(f_equal (option_map fst)). cbn [option_map fst] in Hq.
  destruct q; cbn [handle_http handle] in Hq;
    unfold with_json, with_dict, create_reservation_json, int_route, get_table_status,
      create_reservation, get_my_reservations, cancel_reservation, get_all_reservations,
      update_reservation_status, delete_reservation, register_client, login_client, login_admin in Hq;
    repeat (case_match || case_bool_decide); try discriminate Hq; injection Hq as <-;
    first [by destruct e | payload_wf].
Qed.

End with_env_lemmas.

(** ** Properties *)

Section with_env_properties.
Context `{SqlTimeCompare, SetList, SqlOrderBy, SqlCollation, PasswordHasher}.

(** Whatever raw request the server answers, the body it writes
    ([jsonify] under [debug=True]) decodes with [json.loads] back to the
    payload of the answer, keys sorted: every payload of every view, error
    pages included, is a JSON value whose objects have distinct keys. *)
Lemma handle_http_responses_decode q d r d' :
  handle_http q d = Some (r, d') ->
  loads (response_text app_debug (payload r)) = Ok (sort_json (payload r)).
Proof. intros Hq. apply loads_encode; [by eapply handle_http_payload_wf|cbn; set_solver|done]. Qed.

(** C31: a request whose body is not the JSON text of an object (a
    content type other than JSON, text that does not decode, or a JSON
    array, string, number, boolean or null) leaves the database as it was
    and is answered 415, 400 or 500 (404 for a negative id, whose route
    does not match): the views never validate the decoded value. *)
Theorem handle_http_bad_body q mt t d r d' :
  http_body q = Some (mt, t) -> body_is_object mt t = false ->
  handle_http q d = Some (r, d') ->
  d' = d /\ status_code r ∈ [400; 404; 415; 500].
Proof.
  intros Hb Hobj Hq. destruct q; cbn [http_body] in Hb; simplify_eq; cbn [handle_http] in Hq;
    unfold body_is_object, with_json, get_json, with_dict, create_reservation_json in *;
    repeat (case_match || case_bool_decide); simplify_eq; cbn; split; try done; vm_decide.
Qed.

(** C32: a JSON array sent to [POST /api/reservations] passes the
    required-field check when it holds the six field names as strings,
    and then [data['table_ids']] raises [TypeError]: the answer is a 500
    where the spec asks for a validation error; lacking a name, it is
    the 400 of a missing field.  Neither changes the database. *)
Theorem create_reservation_array_body mt t l d :
  is_json mt = true -> loads t = Ok (JList l) ->
  ((forall f, f ∈ required_fields -> JStr f ∈ l) ->
     handle_http (HPostReservation mt t) d = Some (internal_server_error, d)) /\
  ((exists f, f ∈ required_fields /\ JStr f ∉ l) ->
     handle_http (HPostReservation mt t) d = Some (error_response 400 "Missing required fields", d)).
Proof.
  intros Hj Hl. cbn [handle_http]. unfold with_json, get_json, create_reservation_json.
  rewrite Hj, Hl. change (mapM (contains_field (JList l)) required_fields)
    with (Some ((fun f => existsb (is_str f) l) <$> required_fields)). cbv beta iota.
  rewrite forallb_id_fmap. split.
  - intros Hall. rewrite (proj2 (forallb_forall _ _)); [done|].
    intros f Hf%list_elem_of_In. by apply existsb_is_str, Hall.
  - intros (f & Hf & Hnot). destruct (forallb _ _) eqn:Hall; [|done].
    exfalso. apply Hnot, existsb_is_str. apply (proj1 (forallb_forall _ _) Hall), list_elem_of_In, Hf.
Qed.

End with_env_properties.

(** ** Witnesses *)

#[local] Existing Instance binary_collation.

Lemma handle_http_responses_decode_witness :
  handle_http (HGetTables (Some "2025-07-04") (Some "18:00")) seed_db =
    Some (handle (GetTables (Some "2025-07-04") (Some "18:00")) seed_db) /\
  loads (response_text app_debug (payload (handle (GetTables (Some "2025-07-04") (Some "18:00")) seed_db).1)) =
    Ok (sort_json (payload (handle (GetTables (Some "2025-07-04") (Some "18:00")) seed_db).1)).
Proof.
  split; [reflexivity|].
  apply (handle_http_responses_decode (HGetTables (Some "2025-07-04") (Some "18:00")) seed_db _ seed_db).
  reflexivity.
Defined.

Lemma handle_http_bad_body_witness :
  handle_http (HPostRegister "application/json" (lit "[1, 2]") "salt") seed_db =
    Some (internal_server_error, seed_db) /\
  status_code internal_server_error ∈ [400; 404; 415; 500].
Proof.
  split; [reflexivity|].
  apply (handle_http_bad_body (HPostRegister "application/json" (lit "[1, 2]") "salt")
           "application/json" (lit "[1, 2]") seed_db _ seed_db); reflexivity.
Defined.

Lemma create_reservation_array_body_witness :
  handle_http (HPostReservation "application/json" (dumps None (JList (JStr <$> required_fields)))) seed_db =
    Some (internal_server_error, seed_db).
Proof.
  apply (create_reservation_array_body "application/json" _ (JStr <$> required_fields) seed_db);
    [reflexivity|reflexivity|].
  intros f Hf. apply list_elem_of_fmap. by exists f.
Defined.

End Http.
