(* ===== verification/Routing.v ===== *)
(** [Routing]: the ten [@app.route] decorators of [app.py] (lines 68, 81,
    89, 96, 108, 135, 142, 151, 156, 167) as the URL map werkzeug builds
    from them, the matching of a request's method and path against it,
    the query string of [GET /api/tables] ([request.args], line 98), and
    [wsgi_app], the whole application on a request as the WSGI server
    hands it over.

    Each rule accepts its declared methods, [OPTIONS] (Flask's automatic
    options) and, with [GET], [HEAD] (werkzeug).  A path matches a rule
    when its segments match the rule's parts: a static part by equality,
    [<int:...>] by the [\d+] of werkzeug's [IntegerConverter] (ASCII
    digits, leading zeros allowed) read with [int()].  A path some rule
    matches with another method is a 405, a path no rule matches a 404,
    and an [OPTIONS] request is answered by Flask's default options
    response.  The path is taken percent-decoded, as the server passes
    [PATH_INFO]; a path with an empty segment before its last, which
    werkzeug redirects to the path with the slashes merged, is outside
    the model ([None]).

    The client side writes a [Server.request] as a request on the wire:
    [url_for] (werkzeug's [MapAdapter.build]) its path, [urlencode] its
    query, [json.dumps] its body ([encode_request]).  The theorems show
    the [url_for]/[route] and [urlencode]/[parse_qsl] round trips, that
    no rule is shadowed by an earlier one, that a 405 is honest, and
    that [wsgi_app] on [encode_request q] answers as [Server.handle] on
    [q], and so the WSGI loop [serve_wsgi] on a run as [Server.serve]. *)

From S2P Require Import Prelude DateTime Json JsonText Config Store Availability Booking Lifecycle Queries Auth Server Http.
From Stdlib Require Import Ascii String.
Import Json JsonText Config Store Availability Booking Queries Auth Server Http.

Module Routing.
Local Open Scope list_scope.

Inductive endpoint :=
| ERegister | ELoginClient | ELoginAdmin | ETables | ECreateReservation
| EMyReservations | ECancel | EAllReservations | EStatus | EDelete.

#[export] Instance endpoint_eq_dec : EqDecision endpoint.
Proof. solve_decision. Defined.

Inductive part := Static (s : string) | IntConverter.

#[export] Instance part_eq_dec : EqDecision part.
Proof. solve_decision. Defined.

Record rule := mk_rule { rule_parts : list part; rule_methods : list string; rule_endpoint : endpoint }.

(** [@app.route(path, methods=...)]: the declared methods, [OPTIONS],
    and [HEAD] when [GET] is declared. *)
Definition app_route (parts : list part) (methods : list string) (e : endpoint) : rule :=
  mk_rule parts (methods ++ ["OPTIONS"%string] ++
                 if bool_decide ("GET"%string ∈ methods) then ["HEAD"%string] else []) e.

Definition url_map : list rule := [
  app_route [Static "api"; Static "register"] ["POST"] ERegister;
  app_route [Static "api"; Static "login"; Static "client"] ["POST"] ELoginClient;
  app_route [Static "api"; Static "login"; Static "admin"] ["POST"] ELoginAdmin;
  app_route [Static "api"; Static "tables"] ["GET"] ETables;
  app_route [Static "api"; Static "reservations"] ["POST"] ECreateReservation;
  app_route [Static "api"; Static "my-reservations"; IntConverter] ["GET"] EMyReservations;
  app_route [Static "api"; Static "reservations"; IntConverter; Static "cancel"] ["PUT"] ECancel;
  app_route [Static "api"; Static "reservations"] ["GET"] EAllReservations;
  app_route [Static "api"; Static "reservations"; IntConverter; Static "status"] ["PUT"] EStatus;
  app_route [Static "api"; Static "reservations"; IntConverter] ["DELETE"] EDelete]%string.

(** The segments of a path; [None] for a path that does not start with
    a slash or has an empty segment before its last. *)
Definition split_path (path : list ascii) : option (list (list ascii)) :=
  match next_is "/"%char path with
  | Some rest =>
      let segs := split_on "/"%char rest in
      if bool_decide ([] ∈ removelast segs) then None else Some segs
  | None => None
  end.

(** [IntegerConverter]: [\d+], then [int()]. *)
Definition int_segment (seg : list ascii) : option Z :=
  match seg with
  | [] => None
  | _ => match read_digits 0 seg with (n, []) => Some (Z.of_N n) | _ => None end
  end.

Fixpoint match_parts (ps : list part) (segs : list (list ascii)) : option (list Z) :=
  match ps, segs with
  | [], [] => Some []
  | Static s :: ps', seg :: segs' =>
      if bool_decide (seg = list_ascii_of_string s) then match_parts ps' segs' else None
  | IntConverter :: ps', seg :: segs' =>
      match int_segment seg, match_parts ps' segs' with
      | Some n, Some args => Some (n :: args)
      | _, _ => None
      end
  | _, _ => None
  end.

Inductive route_result :=
| Routed (e : endpoint) (args : list Z)
| MethodNotAllowed (allowed : list string)
| NotFound.

(** The rules that match a path, each with the converted arguments. *)
Definition matching_rules (segs : list (list ascii)) : list (rule * list Z) :=
  omap (fun r => (fun args => (r, args)) <$> match_parts (rule_parts r) segs) url_map.

(** [MapAdapter.match] once the path has matched: the first rule that
    allows the method; otherwise a 405 listing the methods of the rules
    that match the path, or a 404 when none does. *)
Definition dispatch (method : string) (matching : list (rule * list Z)) : route_result :=
  match List.find (fun p => bool_decide (method ∈ rule_methods p.1)) matching with
  | Some (r, args) => Routed (rule_endpoint r) args
  | None =>
      match matching with
      | [] => NotFound
      | _ => MethodNotAllowed (matching ≫= fun p => rule_methods p.1)
      end
  end.

Definition route (method : string) (path : list ascii) : option route_result :=
  match split_path path with
  | None => None
  | Some segs => Some (dispatch method (matching_rules segs))
  end.

(** [url_for]: the path of a rule with its arguments, each [str(int)]. *)
Fixpoint build_parts (ps : list part) (args : list Z) : list (list ascii) :=
  match ps, args with
  | Static s :: ps', _ => list_ascii_of_string s :: build_parts ps' args
  | IntConverter :: ps', n :: args' => lit (pretty n) :: build_parts ps' args'
  | _, _ => []
  end.

Definition join_path (segs : list (list ascii)) : list ascii :=
  segs ≫= fun seg => "/"%char :: seg.

Definition url_for (e : endpoint) (args : list Z) : option (list ascii) :=
  (fun r => join_path (build_parts (rule_parts r) args)) <$>
    List.find (fun r => bool_decide (rule_endpoint r = e)) url_map.

(** ** The query string *)

Definition plus_to_space (c : ascii) : ascii := if bool_decide (c = "+"%char) then " "%char else c.

(** [name_value.split('=', 1)], with an empty value when there is no [=]. *)
Fixpoint split_eq (s : list ascii) : list ascii * list ascii :=
  match s with
  | [] => ([], [])
  | c :: s' => if bool_decide (c = "="%char) then ([], s') else let '(n, v) := split_eq s' in (c :: n, v)
  end.

(** [urllib.parse.parse_qsl(qs, keep_blank_values=True)]: pairs split on
    [&], empty pairs skipped, [+] read as a space before [unquote]. *)
Definition parse_qsl (qs : list ascii) : list (string * string) :=
  omap (fun nv =>
          match nv with
          | [] => None
          | _ => let '(n, v) := split_eq nv in
                 Some (string_of_list_ascii (unquote_chars (plus_to_space <$> n)),
                       string_of_list_ascii (unquote_chars (plus_to_space <$> v)))
          end) (split_on "&"%char qs).

(** [request.args.get(key)]: the first value of the key. *)
Definition args_get (qs : list ascii) (key : string) : option string :=
  snd <$> List.find (fun p => String.eqb p.1 key) (parse_qsl qs).

(** ** The application *)

(** A request as the WSGI server hands it over; [salt] is the random
    source of [generate_password_hash]. *)
Record wsgi_request := mk_wsgi {
  method : string; path : list ascii; query_string : list ascii;
  mimetype : string; data : list ascii; salt : string }.

Definition to_http (e : endpoint) (args : list Z) (q : wsgi_request) : option http_request :=
  match e, args with
  | ERegister, [] => Some (HPostRegister (mimetype q) (data q) (salt q))
  | ELoginClient, [] => Some (HPostLoginClient (mimetype q) (data q))
  | ELoginAdmin, [] => Some (HPostLoginAdmin (mimetype q) (data q))
  | ETables, [] => Some (HGetTables (args_get (query_string q) "date") (args_get (query_string q) "time"))
  | ECreateReservation, [] => Some (HPostReservation (mimetype q) (data q))
  | EMyReservations, [u] => Some (HGetMyReservations u)
  | ECancel, [id] => Some (HPutCancel id)
  | EAllReservations, [] => Some HGetReservations
  | EStatus, [id] => Some (HPutStatus id (mimetype q) (data q))
  | EDelete, [id] => Some (HDeleteReservation id)
  | _, _ => None
  end.

(** Flask's default answer to [OPTIONS]: 200 with an empty body (its
    [Allow] header is the list [route] computes). *)
Definition options_response : response := mk_response 200 (JStr "").

Section with_env.
Context `{SqlTimeCompare, SetList, SqlOrderBy, SqlCollation, PasswordHasher}.

Definition wsgi_app (q : wsgi_request) (d : db) : option (response * db) :=
  match route (method q) (path q) with
  | None => None
  | Some NotFound => Some (not_found, d)
  | Some (MethodNotAllowed _) => Some (error_page 405 "Method Not Allowed", d)
  | Some (Routed e args) =>
      if String.eqb (method q) "OPTIONS" then Some (options_response, d)
      else match to_http e args q with
           | Some hq => handle_http hq d
           | None => None
           end
  end.

(** The WSGI server's loop: the requests in the order their sessions
    commit, each on the store the previous one left. *)
Fixpoint serve_wsgi (qs : list wsgi_request) (d : db) : option (list response * db) :=
  match qs with
  | [] => Some ([], d)
  | q :: qs' =>
      match wsgi_app q d with
      | Some (r, d1) =>
          match serve_wsgi qs' d1 with
          | Some (rs, d2) => Some (r :: rs, d2)
          | None => None
          end
      | None => None
      end
  end.

End with_env.

(** ** Vocabulary of the proofs *)

(** A static part the URL map uses: a lower-case word without [/]. *)
Definition static_word (s : string) : bool :=
  match list_ascii_of_string s with
  | c :: _ => bool_decide (97 <= N_of_ascii c <= 122)%N && negb (bool_decide ("/"%char ∈ list_ascii_of_string s))
  | [] => false
  end.

Definition static_parts (ps : list part) : bool :=
  forallb (fun p => match p with Static s => static_word s | IntConverter => true end) ps.

Definition arity (ps : list part) : nat := List.length (filter (fun p => p = IntConverter) ps).

Definition endpoint_methods : list (string * endpoint) :=
  url_map ≫= fun r => (fun m => (m, rule_endpoint r)) <$> filter (fun m => m <> "OPTIONS"%string) (rule_methods r).

Definition endpoint_arity (e : endpoint) : nat :=
  from_option (fun r => arity (rule_parts r)) 0 (List.find (fun r => bool_decide (rule_endpoint r = e)) url_map).

(** ** The client side *)

(** [urllib.parse.urlencode] of a list of pairs. *)
Definition qs_pair (p : string * string) : list ascii :=
  quote_plus_chars (list_ascii_of_string p.1) ++ "="%char :: quote_plus_chars (list_ascii_of_string p.2).

Fixpoint urlencode (ps : list (string * string)) : list ascii :=
  match ps with
  | [] => []
  | [p] => qs_pair p
  | p :: ps' => qs_pair p ++ "&"%char :: urlencode ps'
  end.

Definition is_ascii (s : string) : bool := forallb (fun c => (N_of_ascii c <? 128)%N) (list_ascii_of_string s).

(** A [Server.request] as a client sends it: the method and the path of
    its route ([url_for]), the query of [GET /api/tables] written by
    [urlencode], and a body written by [json.dumps] under the
    [application/json] mimetype. *)
Definition request_target (q : request) : string * endpoint * list Z :=
  match q with
  | GetTables _ _ => ("GET", ETables, [])
  | PostReservation _ => ("POST", ECreateReservation, [])
  | GetMyReservations u => ("GET", EMyReservations, [u])
  | PutCancel id => ("PUT", ECancel, [id])
  | GetReservations => ("GET", EAllReservations, [])
  | PutStatus id _ => ("PUT", EStatus, [id])
  | DeleteReservation id => ("DELETE", EDelete, [id])
  | PostRegister _ _ => ("POST", ERegister, [])
  | PostLoginClient _ => ("POST", ELoginClient, [])
  | PostLoginAdmin _ => ("POST", ELoginAdmin, [])
  end%string.

Definition request_data (q : request) : option body :=
  match q with
  | PostReservation data | PutStatus _ data | PostRegister data _
  | PostLoginClient data | PostLoginAdmin data => Some data
  | _ => None
  end.

Definition request_query (q : request) : list (string * string) :=
  match q with
  | GetTables a b => from_option (fun s => [("date"%string, s)]) [] a ++ from_option (fun s => [("time"%string, s)]) [] b
  | _ => []
  end.

Definition request_salt (q : request) : string :=
  match q with PostRegister _ salt => salt | _ => ""%string end.

Definition encode_body (data : body) : list ascii := dumps None (JObj (map_to_list data)).

Definition encode_request (q : request) : wsgi_request :=
  let '(m, e, args) := request_target q in
  mk_wsgi m (from_option id [] (url_for e args)) (urlencode (request_query q))
    (match request_data q with Some _ => "application/json" | None => "" end)%string
    (from_option encode_body [] (request_data q)) (request_salt q).

(** The requests [encode_request] writes faithfully: ASCII query values,
    and body values that are [dict]s with distinct keys, each object's
    keys in sorted order. *)
Definition body_normal (data : body) : Prop :=
  map_Forall (fun _ v => json_wf v = true /\ sort_json v = v) data.

Definition request_wf (q : request) : Prop :=
  Forall (fun p => is_ascii p.1 = true /\ is_ascii p.2 = true) (request_query q) /\
  from_option body_normal True (request_data q).

(** * Properties *)

(** ** Paths: splitting, converters and [url_for] *)

Lemma join_path_cons seg segs : join_path (seg :: segs) = "/"%char :: seg ++ join_path segs.
Proof. reflexivity. Qed.

Lemma split_on_join s segs : "/"%char ∉ s -> Forall (fun seg => "/"%char ∉ seg) segs ->
  split_on "/"%char (s ++ join_path segs) = s :: segs.
Proof.
  intros Hs Hsegs. revert s Hs. induction Hsegs as [|seg segs Hseg _ IH]; intros s Hs.
  - rewrite app_nil_r. by apply split_on_nodelim.
  - rewrite join_path_cons, split_on_app by done. by rewrite IH.
Qed.

Lemma split_path_join segs : segs <> [] -> Forall (fun seg => seg <> [] /\ "/"%char ∉ seg) segs ->
  split_path (join_path segs) = Some segs.
Proof.
  intros Hne Hsegs. destruct segs as [|s segs]; [done|].
  unfold split_path. rewrite join_path_cons, next_is_cons. apply Forall_cons in Hsegs as [[Hs Hs'] Hsegs].
  rewrite split_on_join; [|done|by eapply Forall_impl; [done|]; intros ? []].
  rewrite bool_decide_false; [done|]. intros Hin%elem_of_removelast.
  assert (Forall (fun seg => seg <> [] /\ "/"%char ∉ seg) (s :: segs)) as Hall by by constructor.
  rewrite Forall_forall in Hall. by destruct (Hall [] Hin).
Qed.

Lemma pretty_N_go_digits x : Forall (fun c => is_digit c = true) (lit (pretty_N_go x "")).
Proof.
  induction (N.lt_wf_0 x) as [x _ IH].
  destruct (decide (x = 0)%N) as [->|Hx]; [by rewrite pretty_N_go_0|].
  rewrite (pretty_N_go_step x) by lia. rewrite lit_pretty_N_go. apply Forall_app. split.
  - apply IH, N.div_lt; lia.
  - constructor; [|done]. apply digit_val_pretty_N_char, N.mod_lt. lia.
Qed.

Lemma int_segment_pretty n : int_segment (lit (pretty n)) = if bool_decide (0 <= n)%Z then Some n else None.
Proof.
  destruct n as [|p|p].
  - reflexivity.
  - rewrite bool_decide_true by lia. rewrite pretty_Z_pos.
    destruct (pretty_pos_shape (Npos p)) as (d & ds & Hs & _); [lia|].
    unfold int_segment. rewrite Hs, <-Hs, <-(app_nil_r (lit _)), read_digits_pretty. cbn. by rewrite N.mul_0_l.
  - rewrite bool_decide_false by lia. reflexivity.
Qed.

Lemma static_word_head s : static_word s = true ->
  exists c r, list_ascii_of_string s = c :: r /\ (97 <= N_of_ascii c <= 122)%N /\ "/"%char ∉ c :: r.
Proof.
  unfold static_word. destruct (list_ascii_of_string s) as [|c r]; [done|].
  intros [Hc Hs]%andb_true_iff. apply bool_decide_eq_true in Hc. apply negb_true_iff, bool_decide_eq_false in Hs.
  eauto.
Qed.

Lemma int_segment_static s : static_word s = true -> int_segment (list_ascii_of_string s) = None.
Proof.
  intros (c & r & Hs & Hc & _)%static_word_head. unfold int_segment. rewrite Hs. cbn.
  assert (is_digit c = false) as -> by (unfold is_digit; apply andb_false_iff; rewrite !N.leb_gt; lia).
  done.
Qed.

Lemma pretty_not_static (n : Z) s : static_word s = true -> lit (pretty n) <> list_ascii_of_string s.
Proof.
  intros (c & r & Hs & Hc & _)%static_word_head. rewrite Hs. destruct n as [|p|p].
  - cbn. intros [= <- _]. cbn in Hc. lia.
  - rewrite pretty_Z_pos. destruct (pretty_pos_shape (Npos p)) as (d & ds & -> & Hd & _); [lia|].
    intros [= <- _]. unfold is_digit in Hd. apply andb_true_iff in Hd as [H1 H2].
    apply N.leb_le in H1, H2. lia.
  - rewrite pretty_Z_neg. unfold lit. cbn. intros [= <- _]. cbn in Hc. lia.
Qed.

Lemma pretty_seg_ok (n : Z) : lit (pretty n) <> [] /\ "/"%char ∉ lit (pretty n).
Proof.
  destruct n as [|p|p]; [split; [done|vm_decide]| |].
  - rewrite pretty_Z_pos. split.
    + destruct (pretty_pos_shape (Npos p)) as (d & ds & -> & _); [lia|done].
    + intros Hin. pose proof (pretty_N_go_digits (Npos p)) as Hd. rewrite Forall_forall in Hd.
      specialize (Hd _ Hin). done.
  - rewrite pretty_Z_neg. unfold lit. cbn [list_ascii_of_string]. fold (lit (pretty_N_go (Npos p) "")). split; [done|].
    rewrite not_elem_of_cons. split; [done|]. intros Hin.
    pose proof (pretty_N_go_digits (Npos p)) as Hd. rewrite Forall_forall in Hd. by specialize (Hd _ Hin).
Qed.

(** A rule's parts match the path built from a rule exactly when they are
    that rule's parts and its arguments are non-negative. *)
Lemma match_parts_build ps ps' args :
  static_parts ps = true -> static_parts ps' = true -> List.length args = arity ps ->
  match_parts ps' (build_parts ps args) =
    if decide (ps' = ps) then (if decide (Forall (Z.le 0) args) then Some args else None) else None.
Proof.
  revert ps' args. induction ps as [|[s|] ps IH]; intros ps' args Hps Hps' Hlen.
  - destruct args; [|done]. destruct ps' as [|p ps']; [by rewrite !decide_True|].
    rewrite decide_False by done. by destruct p.
  - cbn in Hps. apply andb_true_iff in Hps as [Hs Hps]. cbn [build_parts].
    destruct ps' as [|[s'|] ps']; cbn [match_parts].
    + by rewrite decide_False.
    + cbn in Hps'. apply andb_true_iff in Hps' as [Hs' Hps'].
      case_bool_decide as Heq.
      * apply (f_equal string_of_list_ascii) in Heq. rewrite !string_of_list_ascii_of_string in Heq. subst s'.
        rewrite IH by done.
        repeat case_decide; naive_solver.
      * rewrite decide_False; [done|]. intros [= ->]. done.
    + rewrite int_segment_static by done. by rewrite decide_False.
  - destruct args as [|n args]; [done|]. cbn in Hlen. injection Hlen as Hlen.
    cbn in Hps. cbn [build_parts].
    destruct ps' as [|[s'|] ps']; cbn [match_parts].
    + by rewrite decide_False.
    + cbn in Hps'. apply andb_true_iff in Hps' as [Hs' Hps'].
      rewrite bool_decide_false by (by apply pretty_not_static). by rewrite decide_False.
    + cbn in Hps'. rewrite int_segment_pretty, IH by done.
      repeat case_decide; case_bool_decide; rewrite ?Forall_cons in *; naive_solver.
Qed.

Lemma build_parts_segs ps args : static_parts ps = true ->
  Forall (fun seg => seg <> [] /\ "/"%char ∉ seg) (build_parts ps args).
Proof.
  revert args. induction ps as [|[s|] ps IH]; intros args Hps; cbn [build_parts]; [done| |].
  - cbn in Hps. apply andb_true_iff in Hps as [Hs Hps]. constructor; [|by apply IH].
    destruct (static_word_head s Hs) as (c & r & -> & _ & ?). done.
  - destruct args as [|n args]; [done|]. constructor; [apply pretty_seg_ok|by apply IH].
Qed.

Lemma build_parts_nil ps args : ps <> [] -> List.length args = arity ps -> build_parts ps args <> [].
Proof. destruct ps as [|[s|] ps], args; cbn; done. Qed.

Lemma matching_rules_build ps args : static_parts ps = true -> List.length args = arity ps ->
  matching_rules (build_parts ps args) =
    if decide (Forall (Z.le 0) args) then (fun r => (r, args)) <$> filter (fun r => rule_parts r = ps) url_map else [].
Proof.
  intros Hps Hlen. unfold matching_rules.
  assert (Forall (fun r => static_parts (rule_parts r) = true) url_map) as Hall by vm_decide.
  revert Hall. generalize url_map. intros rs0 Hall.
  induction Hall as [|r rs Hr _ IH]; [by case_decide|]. rewrite omap_cons_eq, IH.
  rewrite (match_parts_build ps (rule_parts r) args) by done. cbn [fmap option_fmap option_map]. rewrite filter_cons.
  repeat case_decide; naive_solver.
Qed.

Lemma route_build m ps args : ps <> [] -> static_parts ps = true -> List.length args = arity ps ->
  route m (join_path (build_parts ps args)) =
    Some (dispatch m (if decide (Forall (Z.le 0) args)
                      then (fun r => (r, args)) <$> filter (fun r => rule_parts r = ps) url_map else [])).
Proof.
  intros Hne Hps Hlen. unfold route. rewrite split_path_join.
  - by rewrite matching_rules_build.
  - by apply build_parts_nil.
  - by apply build_parts_segs.
Qed.

Lemma url_map_endpoints_nodup : NoDup (rule_endpoint <$> url_map).
Proof. vm_decide. Qed.

Lemma url_map_parts r : r ∈ url_map -> rule_parts r <> [] /\ static_parts (rule_parts r) = true.
Proof.
  intros Hr.
  assert (Forall (fun r => rule_parts r <> [] /\ static_parts (rule_parts r) = true) url_map) as H by vm_decide.
  rewrite Forall_forall in H. by apply H.
Qed.

Lemma find_endpoint r : r ∈ url_map -> List.find (fun r' => bool_decide (rule_endpoint r' = rule_endpoint r)) url_map = Some r.
Proof. apply find_key_unique, url_map_endpoints_nodup. Qed.

Lemma url_for_rule r args : r ∈ url_map ->
  url_for (rule_endpoint r) args = Some (join_path (build_parts (rule_parts r) args)).
Proof. intros Hr. unfold url_for. by rewrite find_endpoint. Qed.

(** No declared method of a rule is taken by an earlier rule of the same path. *)
Lemma url_map_unshadowed r m : r ∈ url_map -> m ∈ rule_methods r -> m <> "OPTIONS"%string ->
  rule_endpoint <$> List.find (fun r' => bool_decide (m ∈ rule_methods r')) (filter (fun r' => rule_parts r' = rule_parts r) url_map) =
    Some (rule_endpoint r).
Proof.
  intros Hr Hm Hopt.
  assert (Forall (fun r => Forall (fun m => m = "OPTIONS"%string \/
    rule_endpoint <$> List.find (fun r' => bool_decide (m ∈ rule_methods r')) (filter (fun r' => rule_parts r' = rule_parts r) url_map) =
      Some (rule_endpoint r)) (rule_methods r)) url_map) as H by vm_decide.
  rewrite Forall_forall in H. specialize (H r Hr). rewrite Forall_forall in H. by destruct (H m Hm).
Qed.

Lemma dispatch_routed m rs args r :
  List.find (fun r => bool_decide (m ∈ rule_methods r)) rs = Some r ->
  dispatch m ((fun r => (r, args)) <$> rs) = Routed (rule_endpoint r) args.
Proof. intros Hf. unfold dispatch. rewrite find_fmap. cbn [fst]. by rewrite Hf. Qed.

Lemma endpoint_methods_spec m e :
  (m, e) ∈ endpoint_methods <-> exists r, r ∈ url_map /\ rule_endpoint r = e /\ m ∈ rule_methods r /\ m <> "OPTIONS"%string.
Proof.
  unfold endpoint_methods. rewrite list_elem_of_bind. split.
  - intros (r & Hm & Hr). apply list_elem_of_fmap in Hm as (m' & [= -> ->] & Hm). apply list_elem_of_filter in Hm. naive_solver.
  - intros (r & Hr & <- & Hm & Ho). exists r. split; [|done]. apply list_elem_of_fmap. exists m. split; [done|].
    by apply list_elem_of_filter.
Qed.

(** Every route of the URL map is reached by its [url_for] path with each
    of its methods, the arguments converted back when non-negative. *)
Lemma route_url_for e m args :
  (m, e) ∈ endpoint_methods -> List.length args = endpoint_arity e ->
  exists p, url_for e args = Some p /\
    route m p = Some (if decide (Forall (Z.le 0) args) then Routed e args else NotFound).
Proof.
  intros (r & Hr & <- & Hm & Ho)%endpoint_methods_spec Hlen.
  unfold endpoint_arity in Hlen. rewrite find_endpoint in Hlen by done. cbn in Hlen.
  destruct (url_map_parts r Hr) as [Hne Hst].
  eexists. split; [by apply url_for_rule|]. rewrite route_build by done. case_decide; [|done].
  pose proof (url_map_unshadowed r m Hr Hm Ho) as Hf.
  destruct (List.find _ _) as [r'|] eqn:E; [|done]. injection Hf as Hf. rewrite <- Hf.
  by rewrite (dispatch_routed _ _ _ r').
Qed.




(** ** The query string: [parse_qsl] undoes [urlencode] *)

(** On each ASCII character, checked on all 256. *)
Lemma quote_char_qs c : (N_of_ascii c < 128)%N ->
  plus_to_space <$> quote_char c = (if bool_decide (c = " "%char) then [" "%char] else quote_char c) /\
  ("&"%char ∉ quote_char c) /\ ("="%char ∉ quote_char c).
Proof.
  assert (Forall (fun c => (N_of_ascii c < 128)%N ->
    plus_to_space <$> quote_char c = (if bool_decide (c = " "%char) then [" "%char] else quote_char c) /\
    ("&"%char ∉ quote_char c) /\ ("="%char ∉ quote_char c)) Strptime.all_ascii) as Hall by vm_decide.
  exact (proj1 (Forall_forall _ _) Hall c (Strptime.elem_of_all_ascii c)).
Qed.

Lemma quote_plus_qs s : Forall (fun c => (N_of_ascii c < 128)%N) s ->
  unquote_chars (plus_to_space <$> quote_plus_chars s) = s /\
  ("&"%char ∉ quote_plus_chars s) /\ ("="%char ∉ quote_plus_chars s).
Proof.
  induction 1 as [|c s Hc _ (IH & Ha & He)]; [split; [done|split; apply not_elem_of_nil]|]. cbn [quote_plus_chars].
  destruct (quote_char_qs c Hc) as (Hq & Hqa & Hqe). rewrite fmap_app, Hq, !elem_of_app.
  split; [|tauto]. unfold quote_char in *.
  destruct (always_safe c) eqn:Hsafe.
  - rewrite bool_decide_false by (intros ->; done). cbn.
    rewrite bool_decide_false by (by apply always_safe_not_percent). by rewrite IH.
  - case_bool_decide as Hsp; [subst; cbn; by rewrite IH|].
    unfold percent_char. rewrite (proj2 (N.ltb_lt _ _) Hc), unquote_percent by done. by rewrite IH.
Qed.

Lemma is_ascii_spec s : is_ascii s = true -> Forall (fun c => (N_of_ascii c < 128)%N) (list_ascii_of_string s).
Proof. intros Hs. apply Forall_forall. intros c Hc%list_elem_of_In. apply N.ltb_lt. exact (proj1 (forallb_forall _ _) Hs c Hc). Qed.

Lemma split_eq_app k v : "="%char ∉ k -> split_eq (k ++ "="%char :: v) = (k, v).
Proof.
  induction k as [|c k IH]; intros Hk; cbn [app split_eq]; [by rewrite bool_decide_true|].
  apply not_elem_of_cons in Hk as [Hc Hk]. rewrite bool_decide_false by done. by rewrite IH.
Qed.

Lemma split_on_urlencode p ps : Forall (fun p => "&"%char ∉ qs_pair p) (p :: ps) ->
  split_on "&"%char (urlencode (p :: ps)) = qs_pair <$> p :: ps.
Proof.
  revert p. induction ps as [|p' ps IH]; intros p Hps; apply Forall_cons in Hps as [Hp Hps].
  - cbn [urlencode fmap list_fmap]. by apply split_on_nodelim.
  - change (urlencode (p :: p' :: ps)) with (qs_pair p ++ "&"%char :: urlencode (p' :: ps)).
    rewrite split_on_app by done. rewrite IH by done. reflexivity.
Qed.

Lemma qs_pair_facts p : is_ascii p.1 = true -> is_ascii p.2 = true ->
  ("&"%char ∉ qs_pair p) /\ split_eq (qs_pair p) = (quote_plus_chars (list_ascii_of_string p.1), quote_plus_chars (list_ascii_of_string p.2)).
Proof.
  intros H1%is_ascii_spec H2%is_ascii_spec.
  destruct (quote_plus_qs _ H1) as (_ & Ha1 & He1). destruct (quote_plus_qs _ H2) as (_ & Ha2 & _).
  unfold qs_pair. rewrite split_eq_app by done. split; [|done].
  rewrite elem_of_app, elem_of_cons. intros [|[|]]; done.
Qed.

Lemma parse_qsl_urlencode ps : Forall (fun p => is_ascii p.1 = true /\ is_ascii p.2 = true) ps ->
  parse_qsl (urlencode ps) = ps.
Proof.
  intros Hps. destruct ps as [|p ps]; [reflexivity|]. unfold parse_qsl.
  rewrite split_on_urlencode
    by (eapply Forall_impl; [exact Hps|]; intros q [Hq1 Hq2]; by apply qs_pair_facts).
  induction Hps as [|q qs [Hq1 Hq2] _ IH]; [done|]. rewrite fmap_cons, omap_cons_eq, IH.
  destruct (qs_pair_facts q Hq1 Hq2) as [_ Hsplit].
  assert (qs_pair q <> []) as Hne by (unfold qs_pair; by destruct (quote_plus_chars _)).
  destruct (qs_pair q) as [|c t] eqn:E; [done|]. cbn beta iota. rewrite Hsplit.
  rewrite (proj1 (quote_plus_qs _ (is_ascii_spec _ Hq1))), (proj1 (quote_plus_qs _ (is_ascii_spec _ Hq2))).
  rewrite !string_of_list_ascii_of_string. by destruct q.
Qed.

Lemma args_get_urlencode ps key : Forall (fun p => is_ascii p.1 = true /\ is_ascii p.2 = true) ps ->
  args_get (urlencode ps) key = snd <$> List.find (fun p => String.eqb p.1 key) ps.
Proof. intros Hps. unfold args_get. by rewrite parse_qsl_urlencode. Qed.

(** ** Bodies and the refinement *)

Lemma loads_encode_body data : body_normal data ->
  exists kv, loads (encode_body data) = Ok (JObj kv) /\ list_to_map kv = data.
Proof.
  intros Hd. apply map_Forall_to_list in Hd.
  assert (List.map (fun p => (p.1, sort_json p.2)) (map_to_list data) = map_to_list data) as Hid.
  { rewrite <- (List.map_id (map_to_list data)) at 2. apply List.map_ext_in.
    intros [k v] Hkv%list_elem_of_In. rewrite Forall_forall in Hd. destruct (Hd _ Hkv) as [_ Hs]. cbn in *. by rewrite Hs. }
  exists (sort_items (map_to_list data)). split.
  - unfold encode_body, dumps. rewrite <- (app_nil_r (encode None 0 _)), loads_encode; [| |exact I|reflexivity].
    + cbn [sort_json]. by rewrite Hid.
    + cbn [json_wf]. apply andb_true_iff. split; [apply bool_decide_eq_true, NoDup_fst_map_to_list|].
      apply forallb_forall. intros [k v] Hkv%list_elem_of_In. rewrite Forall_forall in Hd. by destruct (Hd _ Hkv).
  - rewrite <- (list_to_map_to_list data) at 2. apply list_to_map_proper; [|apply sort_items_perm].
    rewrite (sort_items_perm (map_to_list data)). apply NoDup_fst_map_to_list.
Qed.

Section refinement.
Context `{SqlTimeCompare, SetList, SqlOrderBy, SqlCollation, PasswordHasher}.

Lemma with_json_encode_body data : body_normal data ->
  exists kv, list_to_map kv = data /\
    forall view d, with_json "application/json" (encode_body data) view d = Some (view (JObj kv) d).
Proof.
  intros (kv & Hl & Hkv)%loads_encode_body. exists kv. split; [done|].
  intros view d. unfold with_json, get_json. by rewrite Hl.
Qed.

Lemma route_encode q :
  route (method (encode_request q)) (path (encode_request q)) =
    Some (let '(_, e, args) := request_target q in
          if decide (Forall (Z.le 0) args) then Routed e args else NotFound).
Proof.
  assert (((request_target q).1.1, (request_target q).1.2) ∈ endpoint_methods /\
          List.length (request_target q).2 = endpoint_arity (request_target q).1.2) as [Hm Hl]
    by (destruct q; (split; [vm_decide|reflexivity])).
  unfold encode_request. destruct (request_target q) as [[m e] args]. cbn [fst snd] in Hm, Hl.
  destruct (route_url_for e m args Hm Hl) as (p & Hp & Hr). cbn [method path]. by rewrite Hp.
Qed.

(** The application answers a request written by [encode_request] as
    [Server.handle] answers it. *)
Lemma wsgi_app_encode q d :
  request_wf q -> wsgi_app (encode_request q) d = Some (handle q d).
Proof.
  intros [Hq Hb]. unfold wsgi_app. rewrite route_encode.
  destruct q as [a b|dt|u|id| |id dt|id|dt sl|dt|dt]; cbn [request_target] in *.
  all: case_decide as Hz; [|try by destruct Hz; constructor].
  all: cbn [encode_request request_target method mimetype data query_string salt request_data
            request_query request_salt from_option to_http String.eqb Ascii.eqb Bool.eqb andb] in *.
  all: try (destruct (with_json_encode_body dt Hb) as (kv & Hkv & Hw); cbn [handle_http]; rewrite Hw;
            cbn [create_reservation_json with_dict handle]; rewrite Hkv).
  all: try reflexivity.
  all: try (unfold handle, int_route; rewrite bool_decide_false; [done|]; intros ?; apply Hz; by constructor).
  - rewrite !args_get_urlencode by exact Hq. by destruct a, b.
  - apply Forall_inv in Hz. unfold int_route. by rewrite !bool_decide_true.
Qed.

(** C6: The application refines the server model: a run of requests
    that clients send as [encode_request] writes them (the method and
    [url_for] path of each route, the query by [urlencode], the body by
    [json.dumps] as [application/json]), served by the WSGI loop through
    werkzeug's routing, [request.args], [request.get_json()] and the
    views, gives exactly the answers and the final store of
    [Server.serve] on the abstract requests, whenever the query values
    are ASCII and each body is in the form the decoder returns.  Negative
    ids, which no [<int:>] converter matches, are 404 on both sides. *)
Theorem wsgi_app_refines_handle qs d :
  Forall request_wf qs -> serve_wsgi (encode_request <$> qs) d = Some (serve qs d).
Proof.
  intros Hqs. revert d. induction Hqs as [|q qs Hq _ IH]; intros d; [reflexivity|].
  cbn [fmap list_fmap serve_wsgi serve]. rewrite wsgi_app_encode by done.
  destruct (handle q d) as [r d1]. cbn [fst snd]. rewrite IH. by destruct (serve qs d1).
Qed.

End refinement.

(** ** Witnesses *)

#[local] Existing Instance binary_collation.

Lemma scenario_wf : Forall request_wf scenario.
Proof.
  unfold scenario.
  repeat (apply Forall_cons_2; [split; [vm_decide|]; cbn [request_data from_option]; try exact I;
                                apply map_Forall_to_list; vm_compute; repeat constructor|]).
  apply Forall_nil_2.
Qed.

Lemma wsgi_app_refines_handle_witness :
  Forall request_wf scenario /\
  serve_wsgi (encode_request <$> scenario) seed_db = Some (serve scenario seed_db).
Proof. split; [exact scenario_wf|]. apply wsgi_app_refines_handle. exact scenario_wf. Defined.


End Routing.
