(* ===== verification/Password.v ===== *)
(** [Password]: werkzeug.security as [User.set_password] and
    [User.check_password] call it ([app.py] lines 38-39, through
    [register_client] line 76 and [login_client] line 85), in Werkzeug 3:
    [generate_password_hash(password)] with its default method [scrypt]
    and salt length 16, [gen_salt], [_hash_internal] with the [scrypt]
    and [pbkdf2] methods, and [check_password_hash].

    hashlib's key derivation functions are primitives of OpenSSL: the
    class [Hashlib] states what the model uses of them ([scrypt] with the
    default parameters gives 64 bytes; [None] is the [ValueError] hashlib
    raises on parameters it rejects).  The salt is drawn by
    [secrets.choice]; the model takes the random numbers as a function
    [rnd] from the draw's index.  Text is a sequence of code points up to
    U+00FF, encoded in UTF-8 by [str.encode()].  [int()] on the
    parameters of a stored method is read as an optional sign and
    decimal digits (Python also skips surrounding whitespace and
    underscores between digits, which werkzeug never writes).

    [werkzeug_hasher] packs the model as an instance of [PasswordHasher],
    the interface the handlers of [Auth] are proved against, with its law
    discharged by [werkzeug_check_generate]; the request's salt string
    is then the random source. *)

From S2P Require Import Prelude Json JsonText Store Auth.
From Stdlib Require Import Ascii String.
Import JsonText Store.

(** [hashlib.scrypt(password, salt=, n=, r=, p=, maxmem=)] and
    [hashlib.pbkdf2_hmac(hash_name, password, salt, iterations)]. *)
Class Hashlib := {
  scrypt : list N -> list N -> Z -> Z -> Z -> option (list N);
  pbkdf2_hmac : list ascii -> list N -> list N -> Z -> option (list N);
  scrypt_default : forall pw salt, exists k, scrypt pw salt 32768 8 1 = Some k /\
    List.length k = 64%nat /\ Forall (fun b => (b < 256)%N) k
}.

Module Password.
Local Open Scope list_scope.

Inductive hash_error := ValueError | TypeError.

Definition SALT_CHARS : list ascii := lit "abcdefghijklmnopqrstuvwxyzABCDEFGHIJKLMNOPQRSTUVWXYZ0123456789".

Definition DEFAULT_PBKDF2_ITERATIONS : Z := 600000.

(** [secrets.choice(SALT_CHARS)] on the random number [k]. *)
Definition choice (k : N) : ascii := nth (N.to_nat (k mod 62)) SALT_CHARS "a"%char.

(** [gen_salt(length)]: [length] draws of [choice]. *)
Definition gen_salt (length : Z) (rnd : nat -> N) : result hash_error (list ascii) :=
  if (length <=? 0)%Z then Err ValueError
  else Ok ((fun i => choice (rnd i)) <$> seq 0 (Z.to_nat length)).

(** [str.encode()]: UTF-8. *)
Definition utf8_encode (s : list ascii) : list N :=
  s ≫= fun c => let n := N_of_ascii c in
                if (n <? 128)%N then [n] else [192 + n / 64; 128 + n mod 64]%N.

(** [bytes.hex()]: two lower-case hex digits per byte. *)
Definition bytes_hex (bs : list N) : list ascii :=
  bs ≫= fun b => [hex_lower (b / 16); hex_lower (b mod 16)]%N.

(** [int(s)] on a sign and decimal digits. *)
Definition py_int (s : list ascii) : option Z :=
  let '(sign, t) := match s with
                    | "-"%char :: t => ((-1)%Z, t)
                    | "+"%char :: t => (1%Z, t)
                    | _ => (1%Z, s)
                    end in
  match t with
  | [] => None
  | _ => match read_digits 0 t with (n, []) => Some (sign * Z.of_N n)%Z | _ => None end
  end.

(** [str(z)]. *)
Definition zstr (z : Z) : list ascii := lit (pretty z).

Section with_hashlib.
Context `{Hashlib}.

(** [_hash_internal(method, salt, password)]: the hash as hex and the
    method with its parameters written out. *)
Definition hash_internal (method salt password : list ascii)
    : result hash_error (list ascii * list ascii) :=
  let salt_bytes := utf8_encode salt in
  let password_bytes := utf8_encode password in
  match split_on ":"%char method with
  | m :: args =>
      if bool_decide (m = lit "scrypt") then
        match match args with [] => Some [32768; 8; 1]%Z | _ => mapM py_int args end with
        | Some [n; r; p] =>
            match scrypt password_bytes salt_bytes n r p with
            | Some k => Ok (bytes_hex k, lit "scrypt:" ++ zstr n ++ ":"%char :: zstr r ++ ":"%char :: zstr p)
            | None => Err ValueError
            end
        | _ => Err ValueError
        end
      else if bool_decide (m = lit "pbkdf2") then
        match match args with
              | [] => Some (lit "sha256", Some DEFAULT_PBKDF2_ITERATIONS)
              | [h] => Some (h, Some DEFAULT_PBKDF2_ITERATIONS)
              | [h; it] => Some (h, py_int it)
              | _ => None
              end with
        | Some (hash_name, Some iterations) =>
            match pbkdf2_hmac hash_name password_bytes salt_bytes iterations with
            | Some k => Ok (bytes_hex k, lit "pbkdf2:" ++ hash_name ++ ":"%char :: zstr iterations)
            | None => Err ValueError
            end
        | _ => Err ValueError
        end
      else Err ValueError
  | [] => Err ValueError
  end.

(** [generate_password_hash(password, method, salt_length)]:
    [f"{actual_method}${salt}${h}"]. *)
Definition generate_password_hash_with (method : list ascii) (salt_length : Z) (rnd : nat -> N)
    (password : list ascii) : result hash_error (list ascii) :=
  result_bind (gen_salt salt_length rnd) (fun salt =>
  result_bind (hash_internal method salt password) (fun hm =>
  Ok (hm.2 ++ "$"%char :: salt ++ "$"%char :: hm.1))).

(** [generate_password_hash(password)]: [scrypt], 16 characters of salt. *)
Definition generate_password_hash (rnd : nat -> N) (password : list ascii) : result hash_error (list ascii) :=
  generate_password_hash_with (lit "scrypt") 16 rnd password.

(** [s.split(c, 1)] as a pair, [None] when [c] does not occur. *)
Fixpoint split_once (c : ascii) (s : list ascii) : option (list ascii * list ascii) :=
  match s with
  | [] => None
  | x :: s' =>
      if bool_decide (x = c) then Some ([], s')
      else (fun p => (x :: p.1, p.2)) <$> split_once c s'
  end.

(** [hmac.compare_digest] on two [str]: [TypeError] unless both are ASCII. *)
Definition compare_digest (a b : list ascii) : result hash_error bool :=
  if forallb (fun c => (N_of_ascii c <? 128)%N) (a ++ b) then Ok (bool_decide (a = b)) else Err TypeError.

(** [check_password_hash(pwhash, password)]: [False] when
    [pwhash.split("$", 2)] does not give three parts. *)
Definition check_password_hash (pwhash password : list ascii) : result hash_error bool :=
  match split_once "$"%char pwhash with
  | Some (method, rest) =>
      match split_once "$"%char rest with
      | Some (salt, hashval) =>
          result_bind (hash_internal method salt password) (fun hm => compare_digest hm.1 hashval)
      | None => Ok false
      end
  | None => Ok false
  end.

(** The request's salt string read as the random source of [gen_salt]. *)
Definition draws (salt : string) (i : nat) : N :=
  from_option N_of_ascii 0%N (String.get i salt).

(** The instance for the handlers; an exception (which a hash the
    application generated never raises) is read as [False]. *)
Definition werkzeug_generate (salt pw : string) : string :=
  match generate_password_hash (draws salt) (list_ascii_of_string pw) with
  | Ok h => string_of_list_ascii h
  | Err _ => EmptyString
  end.

Definition werkzeug_check (h pw : string) : bool :=
  match check_password_hash (list_ascii_of_string h) (list_ascii_of_string pw) with
  | Ok b => b
  | Err _ => false
  end.

End with_hashlib.

(** * Properties *)

Lemma split_once_app c x y : c ∉ x -> split_once c (x ++ c :: y) = Some (x, y).
Proof.
  induction x as [|a x IH]; intros Hx; cbn [app split_once]; [by rewrite bool_decide_true|].
  apply not_elem_of_cons in Hx as [Ha Hx]. rewrite bool_decide_false by done. by rewrite IH.
Qed.

Lemma choice_salt_char k : choice k ∈ SALT_CHARS.
Proof.
  unfold choice. apply list_elem_of_In, nth_In.
  assert (k mod 62 < 62)%N by (apply N.mod_lt; lia). unfold SALT_CHARS, lit. cbn. lia.
Qed.

Lemma dollar_not_salt_char : "$"%char ∉ SALT_CHARS.
Proof. vm_decide. Qed.

Lemma gen_salt_16 rnd :
  gen_salt 16 rnd = Ok ((fun i => choice (rnd i)) <$> seq 0 16) /\
  "$"%char ∉ (fun i => choice (rnd i)) <$> seq 0 16.
Proof.
  split; [reflexivity|]. intros (i & Hi & _)%list_elem_of_fmap.
  apply dollar_not_salt_char. rewrite Hi. apply choice_salt_char.
Qed.

(** Every byte below 256 is written as two ASCII hex digits. *)
Lemma bytes_hex_ascii bs : Forall (fun b => (b < 256)%N) bs ->
  forallb (fun c => (N_of_ascii c <? 128)%N) (bytes_hex bs) = true.
Proof.
  induction 1 as [|b bs Hb _ IH]; [done|]. unfold bytes_hex in *. rewrite bind_cons, forallb_app, IH.
  assert (forall n, (n < 16)%N -> (N_of_ascii (hex_lower n) < 128)%N) as Hh.
  { intros n Hn. unfold hex_lower. destruct (n <? 10)%N; rewrite N_ascii_embedding; lia. }
  assert (b / 16 < 16)%N as H1%Hh by (apply N.Div0.div_lt_upper_bound; lia).
  assert (b mod 16 < 16)%N as H2%Hh by (apply N.mod_lt; lia).
  cbn [forallb]. apply N.ltb_lt in H1, H2. by rewrite H1, H2.
Qed.

Lemma bytes_hex_length bs : List.length (bytes_hex bs) = (2 * List.length bs)%nat.
Proof. induction bs as [|b bs IH]; [done|]. unfold bytes_hex in *. rewrite bind_cons, length_app, IH. cbn. lia. Qed.

Lemma hex_lower_inj n m : (n < 16)%N -> (m < 16)%N -> hex_lower n = hex_lower m -> n = m.
Proof.
  intros Hn Hm Heq. apply (f_equal N_of_ascii) in Heq. unfold hex_lower in Heq.
  destruct (n <? 10)%N eqn:En, (m <? 10)%N eqn:Em; rewrite !N_ascii_embedding in Heq;
    apply N.ltb_lt in En || apply N.ltb_ge in En; apply N.ltb_lt in Em || apply N.ltb_ge in Em; lia.
Qed.

Lemma bytes_hex_inj bs1 bs2 : Forall (fun b => (b < 256)%N) bs1 -> Forall (fun b => (b < 256)%N) bs2 ->
  bytes_hex bs1 = bytes_hex bs2 -> bs1 = bs2.
Proof.
  intros H1. revert bs2. induction H1 as [|b1 bs1 Hb1 _ IH]; intros bs2 H2 Heq; destruct H2 as [|b2 bs2 Hb2 H2].
  - done.
  - done.
  - done.
  - unfold bytes_hex in Heq. rewrite !bind_cons in Heq. cbn [app] in Heq.
    injection Heq as Hhi Hlo Hrest.
    assert (b1 / 16 < 16)%N by (apply N.Div0.div_lt_upper_bound; lia).
    assert (b2 / 16 < 16)%N by (apply N.Div0.div_lt_upper_bound; lia).
    apply hex_lower_inj in Hhi, Hlo; try (apply N.mod_lt; lia); try done.
    f_equal; [|by apply IH].
    rewrite (N.div_mod b1 16), (N.div_mod b2 16) by lia. lia.
Qed.

Lemma written_hash_length (rnd : nat -> N) k : List.length k = 64%nat ->
  List.length (lit "scrypt:32768:8:1" ++ "$"%char :: ((fun i => choice (rnd i)) <$> seq 0 16) ++ "$"%char :: bytes_hex k)
    = 162%nat.
Proof.
  intros Hl. rewrite length_app. cbn [List.length lit list_ascii_of_string].
  rewrite length_app, length_fmap, length_seq. cbn [List.length]. rewrite bytes_hex_length, Hl. lia.
Qed.

Lemma length_string_of_list_ascii l : String.length (string_of_list_ascii l) = List.length l.
Proof. induction l as [|c l IH]; cbn; [done|]. by rewrite IH. Qed.

Lemma compare_digest_refl a :
  forallb (fun c => (N_of_ascii c <? 128)%N) a = true -> compare_digest a a = Ok true.
Proof. intros Ha. unfold compare_digest. rewrite forallb_app, Ha. cbn. by rewrite bool_decide_true. Qed.

Section with_hashlib_properties.
Context `{Hashlib}.

Lemma hash_internal_scrypt salt pw :
  hash_internal (lit "scrypt") salt pw =
    match scrypt (utf8_encode pw) (utf8_encode salt) 32768 8 1 with
    | Some k => Ok (bytes_hex k, lit "scrypt:32768:8:1")
    | None => Err ValueError
    end.
Proof. reflexivity. Qed.

(** The method written into a hash reads back as the same parameters. *)
Lemma hash_internal_scrypt_written salt pw :
  hash_internal (lit "scrypt:32768:8:1") salt pw = hash_internal (lit "scrypt") salt pw.
Proof. reflexivity. Qed.

Lemma generate_password_hash_eq rnd pw k :
  scrypt (utf8_encode pw) (utf8_encode ((fun i => choice (rnd i)) <$> seq 0 16)) 32768 8 1 = Some k ->
  generate_password_hash rnd pw =
    Ok (lit "scrypt:32768:8:1" ++ "$"%char :: ((fun i => choice (rnd i)) <$> seq 0 16) ++ "$"%char :: bytes_hex k).
Proof.
  intros Hk. unfold generate_password_hash, generate_password_hash_with.
  rewrite (proj1 (gen_salt_16 rnd)). cbn [result_bind]. by rewrite hash_internal_scrypt, Hk.
Qed.

Lemma check_password_hash_written salt pw k :
  "$"%char ∉ salt -> scrypt (utf8_encode pw) (utf8_encode salt) 32768 8 1 = Some k ->
  Forall (fun b => (b < 256)%N) k ->
  check_password_hash (lit "scrypt:32768:8:1" ++ "$"%char :: salt ++ "$"%char :: bytes_hex k) pw = Ok true.
Proof.
  intros Hs Hk Hb. unfold check_password_hash.
  rewrite split_once_app by vm_decide. rewrite split_once_app by done. cbn iota beta.
  rewrite hash_internal_scrypt_written, hash_internal_scrypt, Hk. cbn [result_bind fst].
  by apply compare_digest_refl, bytes_hex_ascii.
Qed.

(** The hash [generate_password_hash] writes, with the [scrypt] output
    [k] it is built from. *)
Lemma generate_password_hash_written rnd pw :
  exists k, generate_password_hash rnd pw =
      Ok (lit "scrypt:32768:8:1" ++ "$"%char :: ((fun i => choice (rnd i)) <$> seq 0 16) ++ "$"%char :: bytes_hex k) /\
    scrypt (utf8_encode pw) (utf8_encode ((fun i => choice (rnd i)) <$> seq 0 16)) 32768 8 1 = Some k /\
    List.length k = 64%nat /\ Forall (fun b => (b < 256)%N) k.
Proof.
  destruct (scrypt_default (utf8_encode pw) (utf8_encode ((fun i => choice (rnd i)) <$> seq 0 16)))
    as (k & Hk & Hl & Hb).
  exists k. split; [by apply generate_password_hash_eq|done].
Qed.

(** C20: [check_password_hash] accepts the hash [generate_password_hash]
    writes for a password, with that password: the round trip behind
    [User.set_password] and [User.check_password], for every salt drawn
    and every password. *)
Theorem check_generate_password_hash rnd pw :
  exists h, generate_password_hash rnd pw = Ok h /\ check_password_hash h pw = Ok true.
Proof.
  destruct (generate_password_hash_written rnd pw) as (k & Hg & Hk & _ & Hb).
  eexists. split; [exact Hg|]. apply check_password_hash_written; [|done|done]. apply gen_salt_16.
Qed.

(** C40: the hash [generate_password_hash] writes is 162 characters long
    ([scrypt:32768:8:1], [$], 16 characters of salt, [$], 128 hex
    digits), so it fits the [String(255)] column [password_hash] (line 34). *)
Theorem generate_password_hash_length rnd pw :
  exists h, generate_password_hash rnd pw = Ok h /\ List.length h = 162%nat /\ (List.length h <= 255)%nat.
Proof.
  destruct (generate_password_hash_written rnd pw) as (k & Hg & _ & Hl & _).
  eexists. split; [exact Hg|]. rewrite written_hash_length by done. lia.
Qed.

Lemma werkzeug_check_generate salt pw : werkzeug_check (werkzeug_generate salt pw) pw = true.
Proof.
  unfold werkzeug_check, werkzeug_generate.
  destruct (generate_password_hash_written (draws salt) (list_ascii_of_string pw)) as (k & -> & Hk & _ & Hb).
  rewrite list_ascii_of_string_of_list_ascii, check_password_hash_written; [done| |done|done]. apply gen_salt_16.
Qed.

(** C23: a stored hash accepts another password only on a collision of
    [scrypt]: when [check_password_hash] accepts [pw'] against the hash
    [generate_password_hash] wrote for [pw], the two passwords have the
    same [scrypt] key under that salt. *)
Theorem check_password_hash_other rnd pw pw' salt h :
  gen_salt 16 rnd = Ok salt -> generate_password_hash rnd pw = Ok h -> check_password_hash h pw' = Ok true ->
  scrypt (utf8_encode pw') (utf8_encode salt) 32768 8 1 = scrypt (utf8_encode pw) (utf8_encode salt) 32768 8 1.
Proof.
  intros Hs Hg Hc. destruct (gen_salt_16 rnd) as [Hs' Hd]. assert (salt = (fun i => choice (rnd i)) <$> seq 0 16) as -> by congruence.
  destruct (generate_password_hash_written rnd pw) as (k & Hg' & Hk & _ & Hb).
  assert (h = lit "scrypt:32768:8:1" ++ "$"%char :: ((fun i => choice (rnd i)) <$> seq 0 16) ++ "$"%char :: bytes_hex k)
    as -> by congruence.
  unfold check_password_hash in Hc. rewrite split_once_app in Hc by vm_decide. cbn iota beta in Hc.
  rewrite split_once_app in Hc by done.
  cbn iota beta in Hc. rewrite hash_internal_scrypt_written, hash_internal_scrypt in Hc.
  destruct (scrypt_default (utf8_encode pw') (utf8_encode ((fun i => choice (rnd i)) <$> seq 0 16)))
    as (k' & Hk' & _ & Hb'). rewrite Hk' in Hc |- *. rewrite Hk. cbn [result_bind fst] in Hc.
  unfold compare_digest in Hc. destruct (forallb _ _); [|discriminate].
  injection Hc as Heq%bool_decide_eq_true. f_equal. by apply bytes_hex_inj.
Qed.
(** The hash [User.set_password] stores fits the [String(255)] column:
    a registration never fails on its length. *)
Lemma werkzeug_generate_fits salt pw :
  (String.length (werkzeug_generate salt pw) <= column_width ColPasswordHash)%nat.
Proof.
  unfold werkzeug_generate.
  destruct (generate_password_hash_written (draws salt) (list_ascii_of_string pw)) as (k & -> & _ & Hl & _).
  rewrite length_string_of_list_ascii, written_hash_length by done. cbn. lia.
Qed.

End with_hashlib_properties.

(** werkzeug's hashing as the [PasswordHasher] of the handlers. *)
Definition werkzeug_hasher `{Hashlib} : PasswordHasher :=
  Build_PasswordHasher werkzeug_generate werkzeug_check werkzeug_check_generate.

(** A stand-in for OpenSSL that runs: the first 64 bytes of the password
    and the salt. *)
Definition toy_hashlib : Hashlib.
Proof.
  refine {| scrypt pw salt _ _ _ := Some ((fun b => b mod 256)%N <$> take 64 (pw ++ salt ++ replicate 64 0%N));
            pbkdf2_hmac _ pw salt _ := Some ((fun b => b mod 256)%N <$> take 32 (pw ++ salt ++ replicate 32 0%N)) |}.
  intros pw salt. eexists. split; [reflexivity|]. split.
  - rewrite length_fmap, length_take, !length_app, length_replicate. lia.
  - apply Forall_fmap, Forall_forall. intros b _. cbn. apply N.mod_lt. lia.
Defined.

(** On that stand-in, the stored hash of [pw1] accepts [pw1] and
    rejects [pw2]; a hash without two [$] is rejected, a hash naming an
    unknown method raises [ValueError]. *)
Lemma werkzeug_hasher_runs :
  let h := @werkzeug_generate toy_hashlib "s1" "pw1" in
  @werkzeug_check toy_hashlib h "pw1" = true /\ @werkzeug_check toy_hashlib h "pw2" = false /\
  @check_password_hash toy_hashlib (lit "scrypt$abc") (lit "pw1") = Ok false /\
  @check_password_hash toy_hashlib (lit "md5$salt$00") (lit "pw1") = Err ValueError.
Proof. vm_compute. auto. Qed.

(** On the stand-in, which keeps only the first 64 bytes, two passwords
    that differ after their 64th character collide: the hash of one
    accepts the other. *)
Definition long_pw (c : ascii) : list ascii := repeat "x"%char 64 ++ [c].

Definition demo_salt : list ascii :=
  match gen_salt 16 (fun _ => 0%N) with Ok s => s | Err _ => [] end.
Definition demo_hash : list ascii :=
  match @generate_password_hash toy_hashlib (fun _ => 0%N) (long_pw "1"%char) with Ok h => h | Err _ => [] end.

Lemma check_password_hash_other_witness :
  gen_salt 16 (fun _ => 0%N) = Ok demo_salt /\
  @generate_password_hash toy_hashlib (fun _ => 0%N) (long_pw "1"%char) = Ok demo_hash /\
  @check_password_hash toy_hashlib demo_hash (long_pw "2"%char) = Ok true /\
  @scrypt toy_hashlib (utf8_encode (long_pw "2"%char)) (utf8_encode demo_salt) 32768 8 1 =
    @scrypt toy_hashlib (utf8_encode (long_pw "1"%char)) (utf8_encode demo_salt) 32768 8 1.
Proof.
  assert (Hs : gen_salt 16 (fun _ => 0%N) = Ok demo_salt) by (vm_compute; reflexivity).
  assert (Hg : @generate_password_hash toy_hashlib (fun _ => 0%N) (long_pw "1"%char) = Ok demo_hash)
    by (vm_compute; reflexivity).
  assert (Hc : @check_password_hash toy_hashlib demo_hash (long_pw "2"%char) = Ok true)
    by (vm_compute; reflexivity).
  split_and!; [exact Hs|exact Hg|exact Hc|].
  exact (@check_password_hash_other toy_hashlib _ _ _ _ _ Hs Hg Hc).
Defined.

End Password.
