(* ===== verification/Cors.v ===== *)
(** [Cors]: [CORS(app)] ([app.py] line 11), flask-cors with its default
    options ([origins='*'], [methods] all, [allow_headers='*'],
    [supports_credentials=False], [send_wildcard=False],
    [always_send=True], [vary_header=True], [resources=r'/*'],
    [intercept_exceptions=True]): an [after_request] function that adds
    the CORS headers to every response, error pages included.

    [get_cors_headers] is flask-cors's function of the same name on those
    options: the allowed origin is the request's [Origin] echoed back, or
    [*] when the request has none; a preflight ([OPTIONS] with an
    [Access-Control-Request-Method] found, as a substring, in the methods
    string) also gets the allowed headers (the requested ones, stripped
    and sorted) and the allowed methods; [Vary: Origin] goes with an
    echoed origin; headers with an empty value are dropped.  [upper()] is
    taken on ASCII letters.  [cors_app] is the application with the
    headers added: flask-cors never changes the status, the body or the
    store. *)

From S2P Require Import Prelude Json JsonText Store Availability Booking Queries Auth Server Http Routing.
From Stdlib Require Import Ascii String.
Import Json JsonText Store Availability Booking Queries Auth Server Http Routing.

Module Cors.
Local Open Scope list_scope.

(** The request headers flask-cors reads. *)
Record cors_request := mk_cors_request {
  origin : option string;
  ac_request_method : option string;
  ac_request_headers : option string }.

(** [', '.join(sorted(ALL_METHODS))], the [methods] option serialized. *)
Definition ALL_METHODS : string := "DELETE, GET, HEAD, OPTIONS, PATCH, POST, PUT".

(** [get_cors_origins(options, request_origin)] for [origins=['.*']]:
    an origin matches [.*], so it is echoed; without one, [always_send]
    gives the wildcard. *)
Definition get_cors_origins (request_origin : option string) : list string :=
  match request_origin with
  | Some o => if String.eqb o "" then ["*"%string] else [o]
  | None => ["*"%string]
  end.

(** [str.upper()] on ASCII letters. *)
Definition ascii_upper (c : ascii) : ascii :=
  let n := N_of_ascii c in
  if ((97 <=? n) && (n <=? 122))%N then ascii_of_N (n - 32) else c.

(** [str.strip()]: the whitespace characters up to U+00FF. *)
Definition py_space (c : ascii) : bool :=
  bool_decide (N_of_ascii c ∈ [9; 10; 11; 12; 13; 28; 29; 30; 31; 32; 133; 160]%N).

Fixpoint lstrip (s : list ascii) : list ascii :=
  match s with
  | c :: s' => if py_space c then lstrip s' else s
  | [] => []
  end.

Definition strip (s : list ascii) : list ascii := reverse (lstrip (reverse (lstrip s))).

(** [', '.join(sorted(h.strip() for h in acl_request_headers.split(',')))],
    every header matching [allow_headers=['.*']]; [None] without the
    request header. *)
Definition get_allow_headers (acl_request_headers : option string) : option string :=
  match acl_request_headers with
  | Some h =>
      if String.eqb h "" then None
      else
        let hs := strip <$> split_on ","%char (list_ascii_of_string h) in
        let sorted := (fun p => list_ascii_of_string p.1) <$>
                        sort_items ((fun s => (string_of_list_ascii s, tt)) <$> hs) in
        Some (string_of_list_ascii (join [","; " "]%char sorted))
  | None => None
  end.

(** [get_cors_headers(options, request.headers, request.method)]. *)
Definition get_cors_headers (h : cors_request) (request_method : string) : list (string * string) :=
  let origins := get_cors_origins (origin h) in
  let allow_origin := (fun o => ("Access-Control-Allow-Origin"%string, o)) <$> origins in
  let acl_request_method := ascii_upper <$> list_ascii_of_string (from_option id ""%string (ac_request_method h)) in
  let preflight :=
    if String.eqb request_method "OPTIONS" && negb (bool_decide (acl_request_method = []))
       && is_substring acl_request_method (list_ascii_of_string ALL_METHODS)
    then [("Access-Control-Allow-Headers"%string, from_option id ""%string (get_allow_headers (ac_request_headers h)));
          ("Access-Control-Allow-Methods"%string, ALL_METHODS)]
    else [] in
  let vary := if bool_decide (head origins = Some "*"%string) then [] else [("Vary"%string, "Origin"%string)] in
  filter (fun kv => kv.2 <> ""%string) (allow_origin ++ preflight ++ vary).

Section with_env.
Context `{SqlTimeCompare, SetList, SqlOrderBy, SqlCollation, PasswordHasher}.

(** The application with [cors_after_request] run on its answer. *)
Definition cors_app (q : wsgi_request) (h : cors_request) (d : db)
    : option (response * list (string * string) * db) :=
  (fun rd => (rd.1, get_cors_headers h (method q), rd.2)) <$> wsgi_app q d.

End with_env.

(** The origin the answer allows: the request's, or [*] without one. *)
Definition allowed_origin (h : cors_request) : string :=
  match origin h with
  | Some o => if String.eqb o "" then "*"%string else o
  | None => "*"%string
  end.

(** * Properties *)

Lemma get_cors_headers_origin h m :
  exists rest, get_cors_headers h m = ("Access-Control-Allow-Origin"%string, allowed_origin h) :: rest.
Proof.
  unfold get_cors_headers, allowed_origin, get_cors_origins.
  destruct (origin h) as [o|]; [destruct (String.eqb_spec o "")|]; cbn [fmap list_fmap app].
  - rewrite filter_cons_True by done. by eexists.
  - rewrite filter_cons_True by done. by eexists.
  - rewrite filter_cons_True by done. by eexists.
Qed.

(** The names of the headers flask-cors may add. *)
Lemma get_cors_headers_names h m :
  Forall (fun kv => kv.1 ∈ ["Access-Control-Allow-Origin"; "Access-Control-Allow-Headers";
                            "Access-Control-Allow-Methods"; "Vary"]%string) (get_cors_headers h m).
Proof.
  unfold get_cors_headers. apply Forall_filter_l. rewrite !Forall_app. split_and!.
  - apply Forall_fmap, Forall_forall. intros o _. cbn. set_solver.
  - case_match; repeat constructor; cbn; set_solver.
  - case_bool_decide; repeat constructor; cbn; set_solver.
Qed.

Section with_env_props.
Context `{SqlTimeCompare, SetList, SqlOrderBy, SqlCollation, PasswordHasher}.

(** C34: [CORS(app)] lets every origin read every answer: whatever the
    request, the application's answer and store are unchanged, the
    answer allows the request's [Origin] ([*] without one), and no
    header allows credentials. *)
Theorem cors_app_any_origin q h d r hs d' :
  cors_app q h d = Some (r, hs, d') ->
  wsgi_app q d = Some (r, d') /\
  ("Access-Control-Allow-Origin"%string, allowed_origin h) ∈ hs /\
  Forall (fun kv => kv.1 <> "Access-Control-Allow-Credentials"%string) hs.
Proof.
  unfold cors_app. destruct (wsgi_app q d) as [[r0 d0]|]; [|done]. cbn. intros [= <- <- <-].
  split; [done|]. split.
  - destruct (get_cors_headers_origin h (method q)) as [rest ->]. by left.
  - eapply Forall_impl; [apply get_cors_headers_names|]. intros [k v] Hkv Heq. cbn in Hkv, Heq. subst k.
    revert Hkv. vm_decide.
Qed.

End with_env_props.

(** ** Witnesses *)

#[local] Existing Instance binary_collation.

Definition evil_origin : cors_request := mk_cors_request (Some "https://evil.example"%string) None None.

Definition list_request : wsgi_request := mk_wsgi "GET" (lit "/api/reservations") [] "" [] "".

Lemma cors_app_any_origin_witness :
  cors_app list_request evil_origin seed_db =
    Some ((handle GetReservations seed_db).1,
          [("Access-Control-Allow-Origin", "https://evil.example"); ("Vary", "Origin")]%string, seed_db) /\
  wsgi_app list_request seed_db = Some ((handle GetReservations seed_db).1, seed_db) /\
  ("Access-Control-Allow-Origin"%string, allowed_origin evil_origin) ∈
    [("Access-Control-Allow-Origin", "https://evil.example"); ("Vary", "Origin")]%string /\
  Forall (fun kv => kv.1 <> "Access-Control-Allow-Credentials"%string)
    [("Access-Control-Allow-Origin", "https://evil.example"); ("Vary", "Origin")]%string.
Proof.
  assert (E : cors_app list_request evil_origin seed_db =
    Some ((handle GetReservations seed_db).1,
          [("Access-Control-Allow-Origin", "https://evil.example"); ("Vary", "Origin")]%string, seed_db))
    by (vm_compute; reflexivity).
  split; [exact E|]. exact (cors_app_any_origin _ _ _ _ _ _ E).
Defined.

End Cors.
